(** * Point-in-time feature assembly: rolling windows, situational features
      and the modeling table.

    A shallow embedding of [src/features/rolling.py],
    [src/features/situational.py] and [src/features/assemble.py].

    Conventions of the embedding.
    - A Python [float] is an exact rational [Q] or NaN ([float]); rounding
      and overflow are not modelled.
    - Python [dict]s and pandas [Series] are insertion-ordered association
      lists keyed by column name.
    - A pandas [DataFrame] built from a list of dicts is the list of its row
      dicts; the empty list is the column-less frame [pd.DataFrame([])], on
      which a column access raises [KeyError].
    - Exceptions are an explicit error monad [result].
    - [DataFrame.sort_values] is a parameter of the model ([SortValues]):
      pandas' default sort is not stable, so all that is known of it is
      that it returns the same rows in ascending order of the column. *)

From Stdlib Require Import String List ZArith QArith Bool Lia.
From Stdlib Require Import Sorted Permutation Lqa DecimalString.
Import ListNotations.

Open Scope string_scope.
Open Scope list_scope.
Open Scope Z_scope.

(** ** Python values, exceptions, dicts *)

Inductive exn : Type :=
| ValueError (msg : string)
| KeyError (key : string)
| LoadError (msg : string).

Definition result (A : Type) : Type := (exn + A)%type.

Definition ret {A} (a : A) : result A := inr a.
Definition raise {A} (e : exn) : result A := inl e.
Definition bind {A B} (m : result A) (k : A -> result B) : result B :=
  match m with
  | inl e => inl e
  | inr a => k a
  end.

Notation "x <- m ;; k" := (bind m (fun x => k))
  (at level 61, m at next level, right associativity).

(** [try: ... except Exception: return None] *)
Definition try_or_None {A} (m : result (option A)) : option A :=
  match m with
  | inl _ => None
  | inr o => o
  end.

(** A float cell: a rational, or NaN. *)
Definition float : Type := option Q.
Definition fin (q : Q) : float := Some q.
Definition NaN : float := None.

Inductive value : Type :=
| VNone
| VBool (b : bool)
| VInt (z : Z)
| VFloat (x : float)
| VStr (s : string).

Definition dict : Type := list (string * value).

Fixpoint dict_get (d : dict) (k : string) : option value :=
  match d with
  | [] => None
  | (k', v) :: d' => if String.eqb k' k then Some v else dict_get d' k
  end.

(** [d[k] = v]: overwrite in place, or append a new key at the end. *)
Fixpoint dict_set (d : dict) (k : string) (v : value) : dict :=
  match d with
  | [] => [(k, v)]
  | (k', v') :: d' =>
      if String.eqb k' k then (k', v) :: d' else (k', v') :: dict_set d' k v
  end.

(** [d.update(e)] and [{**d, **e}]. *)
Definition dict_update (d e : dict) : dict :=
  fold_left (fun acc kv => dict_set acc (fst kv) (snd kv)) e d.

Definition dict_del (d : dict) (k : string) : dict :=
  filter (fun kv => negb (String.eqb (fst kv) k)) d.

Definition keys (d : dict) : list string := map fst d.

(** [s[k]] on a Series: raises [KeyError] on a missing label. *)
Definition series_getitem (s : dict) (k : string) : result value :=
  match dict_get s k with
  | Some v => ret v
  | None => raise (KeyError k)
  end.

(** [s.get(k, default)]. *)
Definition series_get (s : dict) (k : string) (default : value) : value :=
  match dict_get s k with
  | Some v => v
  | None => default
  end.

Definition str_in (s : string) (l : list string) : bool :=
  existsb (String.eqb s) l.

(** Order of first appearance, as [Series.unique()]. *)
Fixpoint unique_from (seen l : list string) : list string :=
  match l with
  | [] => []
  | x :: l' =>
      if str_in x seen then unique_from seen l'
      else x :: unique_from (x :: seen) l'
  end.

Definition unique (l : list string) : list string := unique_from [] l.

(** [range(lo, hi)] over integers. *)
Definition range (lo hi : Z) : list Z :=
  map (fun i => lo + Z.of_nat i) (seq 0 (Z.to_nat (hi - lo))).

(** [df.tail(n)] for a row count [n]. *)
Definition tail {A} (n : nat) (l : list A) : list A :=
  skipn (length l - n) l.

Definition is_empty {A} (l : list A) : bool :=
  match l with [] => true | _ => false end.

(** [Series.mean()] of a numeric column without NaN cells. *)
Definition qsum (xs : list Q) : Q := fold_left Qplus xs 0%Q.
Definition mean (xs : list Q) : Q :=
  (qsum xs / inject_Z (Z.of_nat (length xs)))%Q.

Definition Qltb (x y : Q) : bool := negb (Qle_bool y x).

(** Float arithmetic: NaN propagates, and every comparison with NaN is
    false. *)
Definition lift2 (op : Q -> Q -> Q) (x y : float) : float :=
  match x, y with
  | Some a, Some b => Some (op a b)
  | _, _ => None
  end.
Definition fadd := lift2 Qplus.
Definition fsub := lift2 Qminus.
Definition fmul := lift2 Qmult.
Definition fdiv := lift2 Qdiv.
Definition fneg (x : float) : float := option_map Qopp x.
Definition fltb (x y : float) : bool :=
  match x, y with
  | Some a, Some b => Qltb a b
  | _, _ => false
  end.
Definition notna (x : float) : bool :=
  match x with Some _ => true | None => false end.

(** Python's two-argument [min(a, b)] and [max(a, b)]: the first argument
    unless the second is strictly smaller (resp. larger). *)
Definition py_min (a b : float) : float := if fltb b a then b else a.
Definition py_max (a b : float) : float := if fltb a b then b else a.

(** Cell comparison [==]: numbers by value, NaN equal to nothing. *)
Definition value_eqb (v w : value) : bool :=
  match v, w with
  | VNone, VNone => true
  | VBool a, VBool b => Bool.eqb a b
  | VInt a, VInt b => a =? b
  | VFloat (Some a), VFloat (Some b) => Qeq_bool a b
  | VInt a, VFloat (Some b) | VFloat (Some b), VInt a =>
      Qeq_bool (inject_Z a) b
  | VStr a, VStr b => String.eqb a b
  | _, _ => false
  end.

(** The mask entry [df[col] == v] of one row. *)
Definition cell_eqb (r : dict) (col : string) (v : value) : bool :=
  match dict_get r col with
  | Some w => value_eqb w v
  | None => false
  end.

(** [df[mask]] on a frame built from a list of dicts, where [mask] reads
    column [col] first. *)
Definition df_where (df : list dict) (col : string) (mask : dict -> bool)
  : result (list dict) :=
  match df with
  | [] => raise (KeyError col)
  | _ => ret (filter mask df)
  end.

(** Monadic [map] over rows, in row order. *)
Fixpoint mapM {A B} (f : A -> result B) (l : list A) : result (list B) :=
  match l with
  | [] => ret []
  | x :: l' => y <- f x ;; ys <- mapM f l' ;; ret (y :: ys)
  end.

(** Cell to float, as arithmetic sees it. *)
Definition to_float (v : value) : float :=
  match v with
  | VFloat x => x
  | VInt z => fin (inject_Z z)
  | VBool b => fin (if b then 1 else 0)%Q
  | _ => NaN
  end.

(** [str(z)] of an integer, as an f-string formats it. *)
Definition str_of_int (z : Z) : string := NilZero.string_of_int (Z.to_int z).

(** [le_key key a b]: [a] sorts no later than [b]. *)
Definition le_key {A : Type} (key : A -> Z) (a b : A) : Prop := key a <= key b.

(** [DataFrame.sort_values(col)] on an integer column. pandas sorts with
    quicksort unless told otherwise, and that sort is not stable: the result
    holds the same rows in ascending order of the column, and the order of
    rows with equal keys is whatever the algorithm leaves. The sort is
    therefore a parameter, known by these two properties only. *)
Class SortValues : Type := {
  sort_values : forall {A : Type}, (A -> Z) -> list A -> list A;
  sort_values_Permutation :
    forall (A : Type) (key : A -> Z) (l : list A),
      Permutation l (sort_values key l);
  sort_values_StronglySorted :
    forall (A : Type) (key : A -> Z) (l : list A),
      StronglySorted (le_key key) (sort_values key l)
}.

(** One such sort, to run the definitions on sample tables: insertion
    sort. *)
Section InsertionSort.
Context {A : Type} (key : A -> Z).

Fixpoint insert_by (x : A) (l : list A) : list A :=
  match l with
  | [] => [x]
  | y :: l' => if key x <=? key y then x :: y :: l' else y :: insert_by x l'
  end.

Fixpoint insertion_sort (l : list A) : list A :=
  match l with
  | [] => []
  | x :: l' => insert_by x (insertion_sort l')
  end.
End InsertionSort.

Definition stable_sort_values : SortValues.
Proof.
  assert (Hperm : forall (A : Type) (key : A -> Z) (x : A) (l : list A),
            Permutation (x :: l) (insert_by key x l)).
  { intros A key x l. induction l as [|y l IH]; simpl; auto.
    destruct (key x <=? key y); auto.
    rewrite perm_swap. now apply perm_skip. }
  refine {| sort_values := @insertion_sort |}.
  - intros A key l. induction l as [|x l IH]; simpl; auto.
    etransitivity; [apply perm_skip, IH | apply Hperm].
  - intros A key l. induction l as [|x l IH]; simpl; [constructor|].
    induction IH as [|y l' Hs IH' Hall]; simpl.
    + repeat constructor.
    + destruct (key x <=? key y) eqn:E.
      * apply Z.leb_le in E. constructor; [now constructor|].
        constructor; [exact E|].
        eapply Forall_impl; [|exact Hall].
        intros z Hz. unfold le_key in *. lia.
      * apply Z.leb_gt in E. constructor; [exact IH'|].
        apply (Permutation_Forall (Hperm A key x l')).
        constructor; [unfold le_key; lia | exact Hall].
Defined.

(** A frame with an explicit column list, for the modeling table (which
    gains and loses columns after it is built). *)
Record Frame : Type := {
  columns : list string;
  rows : list dict
}.

(** [pd.DataFrame(records)]: columns are the keys in order of first
    appearance; a key missing from a record is NaN there. *)
Definition DataFrame (records : list dict) : Frame :=
  let cols := unique (flat_map keys records) in
  {| columns := cols;
     rows := map (fun r => map (fun c => (c, series_get r c (VFloat NaN))) cols)
                 records |}.

(** [df[c] = v] with a scalar [v]. *)
Definition set_column (df : Frame) (c : string) (v : value) : Frame :=
  {| columns := if str_in c (columns df) then columns df
                else columns df ++ [c];
     rows := map (fun r => dict_set r c v) (rows df) |}.

(** [df.drop(columns=[c])]. *)
Definition drop_column (df : Frame) (c : string) : Frame :=
  {| columns := filter (fun c' => negb (String.eqb c' c)) (columns df);
     rows := map (fun r => dict_del r c) (rows df) |}.

(** ** Input tables *)

(** One row of the schedule frame returned by
    [SchedulesReader.load_schedules]; field [g_c] is column [c]. A cell of an
    unplayed game's score or result is NaN. *)
Record Game : Type := {
  g_game_id : string;
  g_season : Z;
  g_week : Z;
  g_home_team : string;
  g_away_team : string;
  g_spread_line : float;
  g_total_line : float;
  g_moneyline : float;
  g_home_score : float;
  g_away_score : float;
  g_result : float
}.

(** One row of the team-game metrics frame built by
    [_calculate_team_game_metrics], with the columns the window code reads
    (the play counts are left out); defensive columns carry the doubled
    [def_def_] prefix the source gives them. *)
Record TeamGameMetric : Type := {
  tg_season : Z;
  tg_week : Z;
  tg_game_id : string;
  tg_team : string;
  tg_opponent : string;
  tg_home : bool;
  off_epa_play : Q;
  off_pass_epa_play : Q;
  off_run_epa_play : Q;
  off_early_down_pass_epa_play : Q;
  off_success_rate : Q;
  def_def_epa_play_allowed : Q;
  def_def_pass_epa_play_allowed : Q;
  def_def_run_epa_play_allowed : Q;
  def_def_success_rate_allowed : Q
}.

(** What the excluded collaborators deliver: the schedule of a season, and
    the team-game metrics of a season through a week (the outcome of
    [_load_pbp_data], [_load_schedules_data] and
    [_calculate_team_game_metrics]). Either may raise. *)
Record DataSource : Type := {
  load_schedules : Z -> result (list Game);
  load_team_game_metrics : Z -> Z -> result (list TeamGameMetric)
}.

(** [configs/features.yaml], section [windows] (the file is not part of the
    sources, so its values are parameters). The window sizes are row
    counts. *)
Record Config : Type := {
  l3_window : nat;
  l5_window : nat;
  l6_window : nat;
  ewma_alpha : Q;
  ewma_min_periods : nat;
  early_season_min_weeks : Z;
  early_season_shrinkage : Q
}.

(** ** rolling.py *)

Module Rolling.

(** [getattr(self, f'{window_name}_window', 3)] *)
Definition getattr_window (self : Config) (attr : string) (default : nat)
  : nat :=
  if String.eqb attr "l3_window" then l3_window self
  else if String.eqb attr "l5_window" then l5_window self
  else if String.eqb attr "l6_window" then l6_window self
  else default.

Definition _get_shrinkage_factor (self : Config) (data_length : nat)
    (window_name : string) (current_week : Z) : Q :=
  if current_week >=? early_season_min_weeks self then 1%Q
  else
    let window_size := getattr_window self (window_name ++ "_window")%string 3%nat in
    if (data_length <? window_size)%nat then early_season_shrinkage self
    else 1%Q.

Definition _get_empty_window_features (window_name : string) : dict :=
  [ (("off_epa_play_" ++ window_name)%string, VFloat (fin 0));
    (("off_pass_epa_play_" ++ window_name)%string, VFloat (fin 0));
    (("off_run_epa_play_" ++ window_name)%string, VFloat (fin 0));
    (("off_early_down_pass_epa_play_" ++ window_name)%string, VFloat (fin 0));
    (("off_success_rate_" ++ window_name)%string, VFloat (fin 0));
    (("def_epa_play_allowed_" ++ window_name)%string, VFloat (fin 0));
    (("def_pass_epa_play_allowed_" ++ window_name)%string, VFloat (fin 0));
    (("def_run_epa_play_allowed_" ++ window_name)%string, VFloat (fin 0));
    (("def_success_rate_allowed_" ++ window_name)%string, VFloat (fin 0)) ].

Definition _get_empty_ewma_features : dict :=
  [ ("off_epa_play_ewma", VFloat (fin 0));
    ("off_pass_epa_play_ewma", VFloat (fin 0));
    ("off_run_epa_play_ewma", VFloat (fin 0));
    ("off_early_down_pass_epa_play_ewma", VFloat (fin 0));
    ("off_success_rate_ewma", VFloat (fin 0));
    ("def_epa_play_allowed_ewma", VFloat (fin 0));
    ("def_pass_epa_play_allowed_ewma", VFloat (fin 0));
    ("def_run_epa_play_allowed_ewma", VFloat (fin 0));
    ("def_success_rate_allowed_ewma", VFloat (fin 0)) ].

Definition _calculate_window_features (self : Config)
    (window_data : list TeamGameMetric) (window_name : string)
    (current_week : Z) : dict :=
  if is_empty window_data then _get_empty_window_features window_name
  else
    let shrinkage_factor :=
      _get_shrinkage_factor self (length window_data) window_name current_week in
    let col (f : TeamGameMetric -> Q) : value :=
      VFloat (fin (mean (map f window_data) * shrinkage_factor)) in
    [ (("off_epa_play_" ++ window_name)%string, col off_epa_play);
      (("off_pass_epa_play_" ++ window_name)%string, col off_pass_epa_play);
      (("off_run_epa_play_" ++ window_name)%string, col off_run_epa_play);
      (("off_early_down_pass_epa_play_" ++ window_name)%string,
        col off_early_down_pass_epa_play);
      (("off_success_rate_" ++ window_name)%string, col off_success_rate);
      (("def_epa_play_allowed_" ++ window_name)%string, col def_def_epa_play_allowed);
      (("def_pass_epa_play_allowed_" ++ window_name)%string,
        col def_def_pass_epa_play_allowed);
      (("def_run_epa_play_allowed_" ++ window_name)%string,
        col def_def_run_epa_play_allowed);
      (("def_success_rate_allowed_" ++ window_name)%string,
        col def_def_success_rate_allowed) ].

(** [Series.ewm(alpha=a, min_periods=m).mean().iloc[-1]] with pandas'
    default [adjust=True]: the weights are [(1-a)^i], newest row first; the
    value is NaN below [min_periods] observations. *)
Fixpoint ewm_sums (a : Q) (newest_first : list Q) (w : Q) : Q * Q :=
  match newest_first with
  | [] => (0, 0)%Q
  | x :: rest =>
      let '(num, den) := ewm_sums a rest (w * (1 - a))%Q in
      (w * x + num, w + den)%Q
  end.

Definition ewm_mean_last (a : Q) (min_periods : nat) (xs : list Q) : value :=
  if (length xs <? min_periods)%nat then VFloat NaN
  else let '(num, den) := ewm_sums a (rev xs) 1%Q in VFloat (fin (num / den)).

(** [Series.ewm(alpha=a, min_periods=m)] checks the smoothing factor when
    the window object is built and raises for a factor outside (0, 1]. *)
Definition ewm_mean (a : Q) (min_periods : nat) (xs : list Q) : result value :=
  if Qle_bool a 0 || Qltb 1 a
  then raise (ValueError "alpha must satisfy: 0 < alpha <= 1")
  else ret (ewm_mean_last a min_periods xs).

Definition _calculate_ewma_features (self : Config)
    (historical_data : list TeamGameMetric) : result dict :=
  if is_empty historical_data then ret _get_empty_ewma_features
  else
    let col (f : TeamGameMetric -> Q) : result value :=
      ewm_mean (ewma_alpha self) (ewma_min_periods self)
        (map f historical_data) in
    off_epa_play_ewma <- col off_epa_play ;;
    off_pass_epa_play_ewma <- col off_pass_epa_play ;;
    off_run_epa_play_ewma <- col off_run_epa_play ;;
    off_early_down_pass_epa_play_ewma <- col off_early_down_pass_epa_play ;;
    off_success_rate_ewma <- col off_success_rate ;;
    def_epa_play_allowed_ewma <- col def_def_epa_play_allowed ;;
    def_pass_epa_play_allowed_ewma <- col def_def_pass_epa_play_allowed ;;
    def_run_epa_play_allowed_ewma <- col def_def_run_epa_play_allowed ;;
    def_success_rate_allowed_ewma <- col def_def_success_rate_allowed ;;
    ret [ ("off_epa_play_ewma", off_epa_play_ewma);
          ("off_pass_epa_play_ewma", off_pass_epa_play_ewma);
          ("off_run_epa_play_ewma", off_run_epa_play_ewma);
          ("off_early_down_pass_epa_play_ewma",
            off_early_down_pass_epa_play_ewma);
          ("off_success_rate_ewma", off_success_rate_ewma);
          ("def_epa_play_allowed_ewma", def_epa_play_allowed_ewma);
          ("def_pass_epa_play_allowed_ewma", def_pass_epa_play_allowed_ewma);
          ("def_run_epa_play_allowed_ewma", def_run_epa_play_allowed_ewma);
          ("def_success_rate_allowed_ewma", def_success_rate_allowed_ewma) ].

Definition _calculate_team_rolling_features (self : Config)
    (historical_data : list TeamGameMetric) (team : string)
    (season week : Z) : result dict :=
  let l3_data := tail (l3_window self) historical_data in
  let l3_features := _calculate_window_features self l3_data "l3" week in
  let l5_data := tail (l5_window self) historical_data in
  let l5_features := _calculate_window_features self l5_data "l5" week in
  let l6_data := tail (l6_window self) historical_data in
  let l6_features := _calculate_window_features self l6_data "l6" week in
  ewma_features <- _calculate_ewma_features self historical_data ;;
  ret (dict_update
        (dict_update
          (dict_update
            (dict_update
              [ ("season", VInt season); ("week", VInt week);
                ("team", VStr team) ]
              l3_features)
            l5_features)
          l6_features)
        ewma_features).

Definition _create_default_rolling_features (team : string) (season week : Z)
  : dict :=
  let features :=
    [ ("season", VInt season); ("week", VInt week); ("team", VStr team) ] in
  let features :=
    fold_left (fun acc window =>
                 dict_update acc (_get_empty_window_features window))
              ["l3"; "l5"; "l6"] features in
  dict_update features _get_empty_ewma_features.

(** The rows of one team that precede [current_week]:
    [team_data[team_data['week'] < current_week]] with [team_data] the
    team's rows sorted by week. *)
Definition team_history {sv : SortValues}
    (team_game_metrics : list TeamGameMetric)
    (team : string) (current_week : Z) : list TeamGameMetric :=
  let team_data :=
    sort_values tg_week
      (filter (fun r => String.eqb (tg_team r) team) team_game_metrics) in
  filter (fun r => tg_week r <? current_week) team_data.

(** Body of the inner loop of [_calculate_rolling_windows]. *)
Definition rolling_feature_row {sv : SortValues} (self : Config)
    (team_game_metrics : list TeamGameMetric) (team : string)
    (season current_week : Z) : result dict :=
  let historical_data := team_history team_game_metrics team current_week in
  if is_empty historical_data
  then ret (_create_default_rolling_features team season current_week)
  else _calculate_team_rolling_features self historical_data team season
         current_week.

(** The rows are appended team by team and, within a team, week by week;
    the first row that raises ends the run. *)
Definition _calculate_rolling_windows {sv : SortValues} (self : Config)
    (team_game_metrics : list TeamGameMetric) (season week : Z)
  : result (list dict) :=
  match team_game_metrics with
  | [] => raise (KeyError "team")   (* column access on a column-less frame *)
  | _ =>
      rolling_features <-
        mapM (fun team =>
                mapM (fun current_week =>
                        rolling_feature_row self team_game_metrics team season
                          current_week)
                     (range 1 (week + 1)))
             (unique (map tg_team team_game_metrics)) ;;
      ret (concat rolling_features)
  end.

Definition invalid_season (season : Z) : exn :=
  ValueError ("Invalid season: " ++ str_of_int season
              ++ ". Must be between 2000-2030")%string.

Definition invalid_week (week : Z) : exn :=
  ValueError ("Invalid week: " ++ str_of_int week
              ++ ". Must be between 1-22")%string.

Definition calculate_rolling_features {sv : SortValues} (self : Config)
    (src : DataSource) (season week : Z) : result (list dict) :=
  if (season <? 2000) || (season >? 2030)
  then raise (invalid_season season)
  else if (week <? 1) || (week >? 22)
  then raise (invalid_week week)
  else
    team_game_metrics <- load_team_game_metrics src season week ;;
    _calculate_rolling_windows self team_game_metrics season week.

End Rolling.

(** ** situational.py *)

Module Situational.

Definition _calculate_rest_days {sv : SortValues} (games_df : list Game)
    (team : string) (current_week : Z) : Z :=
  let home_games := filter (fun g => String.eqb (g_home_team g) team) games_df in
  let away_games := filter (fun g => String.eqb (g_away_team g) team) games_df in
  let team_games := sort_values g_week (home_games ++ away_games) in
  let previous_games := filter (fun g => g_week g <? current_week) team_games in
  match previous_games with
  | [] => 7
  | g0 :: rest =>
      let last_game_week := fold_left Z.max (map g_week rest) (g_week g0) in
      let days_between_weeks := (current_week - last_game_week) * 7 in
      if days_between_weeks =? 7 then 7
      else if days_between_weeks =? 6 then 6
      else if days_between_weeks =? 10 then 10
      else if days_between_weeks =? 14 then 14
      else days_between_weeks
  end.

Definition _calculate_basic_situational_features {sv : SortValues}
    (schedules_df : list Game) (season week : Z) : list dict :=
  let games_df := filter (fun g => g_week g <=? week) schedules_df in
  flat_map
    (fun game =>
       let home_rest_days := _calculate_rest_days games_df (g_home_team game) (g_week game) in
       let away_rest_days := _calculate_rest_days games_df (g_away_team game) (g_week game) in
       let spread_close := g_spread_line game in
       let total_close := g_total_line game in
       let moneyline_close := g_moneyline game in
       [ [ ("season", VInt (g_season game));
           ("week", VInt (g_week game));
           ("game_id", VStr (g_game_id game));
           ("team", VStr (g_home_team game));
           ("opponent", VStr (g_away_team game));
           ("situational_home", VBool true);
           ("situational_rest_days", VInt home_rest_days);
           ("situational_spread_close", VFloat spread_close);
           ("total_close", VFloat total_close);
           ("moneyline_close", VFloat moneyline_close);
           ("opponent_rest_days", VInt away_rest_days) ];
         [ ("season", VInt (g_season game));
           ("week", VInt (g_week game));
           ("game_id", VStr (g_game_id game));
           ("team", VStr (g_away_team game));
           ("opponent", VStr (g_home_team game));
           ("situational_home", VBool false);
           ("situational_rest_days", VInt away_rest_days);
           ("situational_spread_close", VFloat (fneg spread_close));
           ("total_close", VFloat total_close);
           ("moneyline_close", VFloat moneyline_close);
           ("opponent_rest_days", VInt home_rest_days) ] ])
    games_df.

Definition _calculate_sos_factor (opponent_off_epa opponent_def_epa_allowed
    opponent_off_success opponent_def_success_allowed : float) : float :=
  let off_strength := opponent_off_epa in
  let def_strength := fneg opponent_def_epa_allowed in
  let off_success_factor := opponent_off_success in
  let def_success_factor := fsub (fin 1) opponent_def_success_allowed in
  let combined_strength :=
    fdiv (fadd (fadd (fadd off_strength def_strength) off_success_factor)
               def_success_factor)
         (fin 4) in
  let sos_factor := fadd (fin 1) (fmul combined_strength (fin 0.1)) in
  py_max (fin 0.5) (py_min (fin 2) sos_factor).

(** Body of the loop of [_calculate_sos_adjustments] for one row. *)
Definition sos_row (rolling_features : list dict) (row : dict) : result dict :=
  team <- series_getitem row "team" ;;
  opponent <- series_getitem row "opponent" ;;
  game_week <- series_getitem row "week" ;;
  team_rolling <-
    df_where rolling_features "team"
      (fun r => cell_eqb r "team" team && cell_eqb r "week" game_week) ;;
  opponent_rolling <-
    df_where rolling_features "team"
      (fun r => cell_eqb r "team" opponent && cell_eqb r "week" game_week) ;;
  row_season <- series_getitem row "season" ;;
  match team_rolling, opponent_rolling with
  | _ :: _, opponent_data :: _ =>
      let opponent_off_epa :=
        series_get opponent_data "off_epa_play_l3" (VFloat (fin 0)) in
      let opponent_def_epa_allowed :=
        series_get opponent_data "def_epa_play_allowed_l3" (VFloat (fin 0)) in
      let opponent_off_success :=
        series_get opponent_data "off_success_rate_l3" (VFloat (fin 0)) in
      let opponent_def_success_allowed :=
        series_get opponent_data "def_success_rate_allowed_l3" (VFloat (fin 0)) in
      let sos_adjustment_factor :=
        _calculate_sos_factor (to_float opponent_off_epa)
          (to_float opponent_def_epa_allowed) (to_float opponent_off_success)
          (to_float opponent_def_success_allowed) in
      ret [ ("season", row_season); ("week", game_week); ("team", team);
            ("opponent_off_epa_l3", opponent_off_epa);
            ("opponent_def_epa_allowed_l3", opponent_def_epa_allowed);
            ("opponent_off_success_l3", opponent_off_success);
            ("opponent_def_success_allowed_l3", opponent_def_success_allowed);
            ("sos_adjustment_factor", VFloat sos_adjustment_factor) ]
  | _, _ =>
      ret [ ("season", row_season); ("week", game_week); ("team", team);
            ("opponent_off_epa_l3", VFloat (fin 0));
            ("opponent_def_epa_allowed_l3", VFloat (fin 0));
            ("opponent_off_success_l3", VFloat (fin 0));
            ("opponent_def_success_allowed_l3", VFloat (fin 0));
            ("sos_adjustment_factor", VFloat (fin 1)) ]
  end.

Definition _calculate_sos_adjustments {sv : SortValues} (self : Config)
    (src : DataSource) (situational_features : list dict) (season week : Z)
  : result (list dict) :=
  rolling_features <- Rolling.calculate_rolling_features self src season week ;;
  mapM (sos_row rolling_features) situational_features.

(** [pd.merge(left, right, on=on, how='left')] for frames whose only common
    columns are the keys [on]: left order is kept, a left row is repeated
    once per matching right row, and is NaN-filled when nothing matches. *)
Definition merge_left (left right : list dict) (on : list string)
  : result (list dict) :=
  match left, right with
  | [], _ | _, [] => raise (KeyError (hd "" on))
  | _, r0 :: _ =>
      let right_cols := filter (fun c => negb (str_in c on)) (keys r0) in
      ret (flat_map
             (fun l =>
                let same_key (r : dict) :=
                  forallb (fun k => match dict_get l k, dict_get r k with
                                    | Some a, Some b => value_eqb a b
                                    | _, _ => false
                                    end) on in
                match filter same_key right with
                | [] => [ l ++ map (fun c => (c, VFloat NaN)) right_cols ]
                | ms => map (fun r =>
                               l ++ map (fun c => (c, series_get r c (VFloat NaN)))
                                        right_cols) ms
                end)
             left)
  end.

Definition calculate_situational_features {sv : SortValues} (self : Config)
    (src : DataSource) (season week : Z) : result (list dict) :=
  if (season <? 2000) || (season >? 2030)
  then raise (Rolling.invalid_season season)
  else if (week <? 1) || (week >? 22)
  then raise (Rolling.invalid_week week)
  else
    schedules_df <- load_schedules src season ;;
    let situational_features :=
      _calculate_basic_situational_features schedules_df season week in
    sos_features <-
      _calculate_sos_adjustments self src situational_features season week ;;
    merge_left situational_features sos_features ["season"; "week"; "team"].

End Situational.

(** ** assemble.py *)

Module Assemble.

Definition truthy (v : value) : bool :=
  match v with
  | VNone => false
  | VBool b => b
  | VInt z => negb (z =? 0)
  | VFloat (Some q) => negb (Qeq_bool q 0)
  | VFloat None => true
  | VStr s => negb (String.eqb s "")
  end.

Definition _load_all_schedules (src : DataSource)
    (start_season end_season start_week end_week : Z) : result (list Game) :=
  let all_schedules :=
    flat_map (fun season => match load_schedules src season with
                            | inr season_schedules => [season_schedules]
                            | inl _ => []
                            end)
             (range start_season (end_season + 1)) in
  match all_schedules with
  | [] => raise (ValueError "No schedules data available")
  | _ => ret (concat all_schedules)
  end.

Definition _combine_team_features (rolling_data situational_data : dict)
    (game_data : Game) (team_type : string) : result dict :=
  team <- series_getitem rolling_data "team" ;;
  opponent <- series_getitem situational_data "opponent" ;;
  home <- series_getitem situational_data "home" ;;
  let features :=
    [ ("season", VInt (g_season game_data));
      ("week", VInt (g_week game_data));
      ("game_id", VStr (g_game_id game_data));
      ("team", team);
      ("opponent", opponent);
      ("home", home);
      ("team_type", VStr team_type) ] in
  let rolling_cols :=
    filter (fun col => negb (str_in col ["season"; "week"; "team"]))
           (keys rolling_data) in
  let features :=
    fold_left (fun acc col =>
                 dict_set acc ("rolling_" ++ col)%string
                          (series_get rolling_data col VNone))
              rolling_cols features in
  let situational_cols :=
    filter (fun col => negb (str_in col ["season"; "week"; "team"; "opponent"]))
           (keys situational_data) in
  let features :=
    fold_left (fun acc col =>
                 dict_set acc ("situational_" ++ col)%string
                          (series_get situational_data col VNone))
              situational_cols features in
  let features := dict_set features "market_spread_close" (VFloat (g_spread_line game_data)) in
  let features := dict_set features "market_total_close" (VFloat (g_total_line game_data)) in
  let features := dict_set features "market_moneyline_close" (VFloat (g_moneyline game_data)) in
  let features := dict_set features "home_score" (VFloat (g_home_score game_data)) in
  let features := dict_set features "away_score" (VFloat (g_away_score game_data)) in
  let features := dict_set features "result" (VFloat (g_result game_data)) in
  ret features.

(** The row [_assemble_game_features] hands to [_combine_team_features] for
    one team: [df[df['team'] == team].iloc[0]], when that selection is not
    empty. *)
Definition first_row_of_team (df : list dict) (team : string)
  : result (option dict) :=
  sel <- df_where df "team" (fun r => cell_eqb r "team" (VStr team)) ;;
  ret (hd_error sel).

Definition _assemble_game_features {sv : SortValues} (self : Config)
    (src : DataSource) (game : Game) (season week : Z) : option (list dict) :=
  try_or_None (
    rolling_features <- Rolling.calculate_rolling_features self src season week ;;
    situational_features <-
      Situational.calculate_situational_features self src season week ;;
    home_rolling <- first_row_of_team rolling_features (g_home_team game) ;;
    home_situational <- first_row_of_team situational_features (g_home_team game) ;;
    home_part <-
      match home_rolling, home_situational with
      | Some r, Some s =>
          home_features <- _combine_team_features r s game "home" ;;
          ret [home_features]
      | _, _ => ret []
      end ;;
    away_rolling <- first_row_of_team rolling_features (g_away_team game) ;;
    away_situational <- first_row_of_team situational_features (g_away_team game) ;;
    away_part <-
      match away_rolling, away_situational with
      | Some r, Some s =>
          away_features <- _combine_team_features r s game "away" ;;
          ret [away_features]
      | _, _ => ret []
      end ;;
    let game_features := home_part ++ away_part in
    ret (if is_empty game_features then None else Some game_features)).

(** Body of the loop of [_add_training_labels] for one row of the modeling
    frame: the row with its [label_win] cell possibly overwritten. *)
Definition label_row (schedules_df : list Game) (row : dict) : result dict :=
  gid <- series_getitem row "game_id" ;;
  team <- series_getitem row "team" ;;
  is_home <- series_getitem row "home" ;;
  match filter (fun g => value_eqb (VStr (g_game_id g)) gid) schedules_df with
  | [] => ret row
  | game_data :: _ =>
      let int_of (b : bool) := VInt (if b then 1 else 0) in
      if notna (g_result game_data) then
        if truthy is_home
        then ret (dict_set row "label_win"
                    (int_of (fltb (fin 0) (g_result game_data))))
        else ret (dict_set row "label_win"
                    (int_of (fltb (g_result game_data) (fin 0))))
      else if notna (g_home_score game_data) && notna (g_away_score game_data)
      then
        let home_score := g_home_score game_data in
        let away_score := g_away_score game_data in
        if truthy is_home
        then ret (dict_set row "label_win" (int_of (fltb away_score home_score)))
        else ret (dict_set row "label_win" (int_of (fltb home_score away_score)))
      else ret row
  end.

Definition _add_training_labels (modeling_df : Frame)
    (schedules_df : list Game) : result Frame :=
  let modeling_df := set_column modeling_df "label_win" VNone in
  labelled <- mapM (label_row schedules_df) (rows modeling_df) ;;
  ret {| columns := columns modeling_df; rows := labelled |}.

Definition _ensure_no_leakage (modeling_df : Frame) : Frame :=
  let future_cols := ["home_score"; "away_score"; "result"] in
  fold_left (fun df col =>
               if str_in col (columns df) then drop_column df col else df)
            future_cols modeling_df.

Definition is_future (season week : Z) (game : Game) : bool :=
  (g_season game >? season)
  || ((g_season game =? season) && (g_week game >? week)).

Definition assemble_modeling_table {sv : SortValues} (self : Config)
    (src : DataSource) (season week : Z) (use_historical_data : bool)
  : result Frame :=
  let start_season := if use_historical_data then 2020 else season in
  let start_week := 1 in
  all_schedules <- _load_all_schedules src start_season season start_week week ;;
  let modeling_data :=
    flat_map (fun game =>
                if is_future season week game then []
                else match _assemble_game_features self src game
                             (g_season game) (g_week game) with
                     | Some game_features => game_features
                     | None => []
                     end)
             all_schedules in
  let modeling_df := DataFrame modeling_data in
  modeling_df <- _add_training_labels modeling_df all_schedules ;;
  ret (_ensure_no_leakage modeling_df).

Definition get_feature_columns (modeling_df : Frame) : list string :=
  let exclude_cols :=
    [ "season"; "week"; "game_id"; "team"; "opponent"; "home"; "team_type";
      "label_win"; "home_score"; "away_score"; "result" ] in
  filter (fun col => negb (str_in col exclude_cols)) (columns modeling_df).

End Assemble.

(** ** Vocabulary of the statements *)

(** The Contests of [team] in [games_df] with week strictly before
    [current_week]. *)
Definition plays (team : string) (g : Game) : bool :=
  String.eqb (g_home_team g) team || String.eqb (g_away_team g) team.

Definition prior_games (games_df : list Game) (team : string)
    (current_week : Z) : list Game :=
  filter (fun g => plays team g && (g_week g <? current_week)) games_df.

(** A smoothing factor that pandas accepts, and the error it raises for
    any other. *)
Definition valid_alpha (self : Config) : Prop :=
  (0 < ewma_alpha self <= 1)%Q.

Definition alpha_error : exn :=
  ValueError "alpha must satisfy: 0 < alpha <= 1".

(** The rows of [team] with week before [W], as the table lists them. *)
Definition earlier_rows (tgm : list TeamGameMetric) (team : string) (W : Z)
  : list TeamGameMetric :=
  filter (fun r => String.eqb (tg_team r) team && (tg_week r <? W)) tgm.

(** The nine per-contest metrics that every window aggregates: the column
    read from the team-game frame, and the stem of the feature name. *)
Inductive metric : Type :=
| OffEpa | OffPassEpa | OffRunEpa | OffEarlyDownPassEpa | OffSuccessRate
| DefEpaAllowed | DefPassEpaAllowed | DefRunEpaAllowed | DefSuccessRateAllowed.

Definition metric_col (m : metric) : TeamGameMetric -> Q :=
  match m with
  | OffEpa => off_epa_play
  | OffPassEpa => off_pass_epa_play
  | OffRunEpa => off_run_epa_play
  | OffEarlyDownPassEpa => off_early_down_pass_epa_play
  | OffSuccessRate => off_success_rate
  | DefEpaAllowed => def_def_epa_play_allowed
  | DefPassEpaAllowed => def_def_pass_epa_play_allowed
  | DefRunEpaAllowed => def_def_run_epa_play_allowed
  | DefSuccessRateAllowed => def_def_success_rate_allowed
  end.

Definition metric_name (m : metric) : string :=
  match m with
  | OffEpa => "off_epa_play"
  | OffPassEpa => "off_pass_epa_play"
  | OffRunEpa => "off_run_epa_play"
  | OffEarlyDownPassEpa => "off_early_down_pass_epa_play"
  | OffSuccessRate => "off_success_rate"
  | DefEpaAllowed => "def_epa_play_allowed"
  | DefPassEpaAllowed => "def_pass_epa_play_allowed"
  | DefRunEpaAllowed => "def_run_epa_play_allowed"
  | DefSuccessRateAllowed => "def_success_rate_allowed"
  end.

Definition feature_key (m : metric) (window_name : string) : string :=
  (metric_name m ++ "_" ++ window_name)%string.

(** The three trailing windows: name and configured size. *)
Definition trailing_windows (self : Config) : list (string * nat) :=
  [ ("l3", l3_window self); ("l5", l5_window self); ("l6", l6_window self) ].

(** The shrinkage factor as the specification words it. *)
Definition shrinkage_spec (self : Config) (rows_in_window N : nat)
    (current_week : Z) : Q :=
  if (current_week <? early_season_min_weeks self)
     && (rows_in_window <? N)%nat
  then early_season_shrinkage self
  else 1%Q.

(** The value of a trailing-window feature as the specification words it:
    the mean of the metric over the rows of the window times the shrinkage
    factor, and zero for an empty window. *)
Definition window_value_spec (self : Config) (window : list TeamGameMetric)
    (N : nat) (current_week : Z) (m : metric) : value :=
  VFloat (fin (if is_empty window then 0%Q
               else (mean (map (metric_col m) window)
                     * shrinkage_spec self (length window) N current_week)%Q)).

(** The opponent-strength factor as the specification words it. *)
Definition clamp (lo hi x : Q) : Q :=
  if Qlt_le_dec x lo then lo else if Qlt_le_dec hi x then hi else x.

Definition sos_spec (opponent_off_epa opponent_def_epa_allowed
    opponent_off_success opponent_def_success_allowed : Q) : Q :=
  clamp 0.5 2
    (1 + 0.1 * ((opponent_off_epa + - opponent_def_epa_allowed
                 + opponent_off_success
                 + (1 - opponent_def_success_allowed)) / 4))%Q.

(** The neutral strength-of-schedule row. *)
Definition neutral_sos_row (row_season game_week team : value) : dict :=
  [ ("season", row_season); ("week", game_week); ("team", team);
    ("opponent_off_epa_l3", VFloat (fin 0));
    ("opponent_def_epa_allowed_l3", VFloat (fin 0));
    ("opponent_off_success_l3", VFloat (fin 0));
    ("opponent_def_success_allowed_l3", VFloat (fin 0));
    ("sos_adjustment_factor", VFloat (fin 1)) ].

(** Every row of a frame carries exactly the frame's columns. *)
Definition frame_ok (df : Frame) : Prop :=
  Forall (fun r => keys r = columns df) (rows df).

(** The columns that record the outcome of a Contest. *)
Definition outcome_cols : list string := ["home_score"; "away_score"; "result"].

(** The label the specification asks for: by the signed result when it is
    known, else by the scores when both are known, else unset. *)
Definition win_label_spec (g : Game) (is_home : bool) : value :=
  match g_result g with
  | Some r =>
      VInt (if (if is_home then Qltb 0 r else Qltb r 0) then 1 else 0)
  | None =>
      match g_home_score g, g_away_score g with
      | Some h, Some a =>
          VInt (if (if is_home then Qltb a h else Qltb h a) then 1 else 0)
      | _, _ => VNone
      end
  end.

(** The schedule row of a Contest id: the first match. *)
Definition game_of_id (schedules_df : list Game) (gid : string) : option Game :=
  find (fun g => String.eqb (g_game_id g) gid) schedules_df.

(** One round of the leakage guard's loop. *)
Definition guard_step (df : Frame) (col : string) : Frame :=
  if str_in col (columns df) then drop_column df col else df.

(** A combined row without its outcome cells. *)
Definition strip_outcome (features : dict) : dict :=
  dict_del (dict_del (dict_del features "home_score") "away_score") "result".

(** The same Contest with another outcome. *)
Definition with_outcome (g : Game) (hs as_ res : float) : Game :=
  {| g_game_id := g_game_id g; g_season := g_season g; g_week := g_week g;
     g_home_team := g_home_team g; g_away_team := g_away_team g;
     g_spread_line := g_spread_line g; g_total_line := g_total_line g;
     g_moneyline := g_moneyline g;
     g_home_score := hs; g_away_score := as_; g_result := res |}.

(** Two rows of one team in one week. *)
Fixpoint has_duplicate_week (tgm : list TeamGameMetric) : bool :=
  match tgm with
  | [] => false
  | r :: l =>
      existsb (fun r' => String.eqb (tg_team r') (tg_team r)
                         && (tg_week r' =? tg_week r)) l
      || has_duplicate_week l
  end.

(** The Contests an assembly request is left with: those of the seasons
    that load, future ones discarded. *)
Definition contests_in_range (src : DataSource) (season week : Z)
    (use_historical_data : bool) : list Game :=
  let start_season := if use_historical_data then 2020 else season in
  match Assemble._load_all_schedules src start_season season 1 week with
  | inr all_schedules =>
      filter (fun g => negb (Assemble.is_future season week g)) all_schedules
  | inl _ => []
  end.

(** The modeling table without rows. *)
Definition empty_modeling_table : Frame :=
  {| columns := ["label_win"]; rows := [] |}.

(** ** rolling.py: the team-game metric extractor *)

Module Extractor.

(** One row of the play-by-play frame, with the columns the extractor
    reads; field [p_c] is column [c]. A missing team is [None]; a missing
    number is NaN. *)
Record Play : Type := {
  p_game_id : string;
  p_posteam : option string;
  p_defteam : option string;
  p_epa : float;
  p_pass : float;
  p_rush : float;
  p_down : float
}.

(** The mask entry [col == team] on a team column. *)
Definition is_team (x : option string) (team : string) : bool :=
  match x with
  | Some t => String.eqb t team
  | None => false
  end.

(** The mask entry [col == 1] on a numeric column. *)
Definition is_one (x : float) : bool :=
  match x with
  | Some q => Qeq_bool q 1
  | None => false
  end.

(** The mask entry [col.isin([1, 2])]. *)
Definition isin_1_2 (x : float) : bool :=
  match x with
  | Some q => Qeq_bool q 1 || Qeq_bool q 2
  | None => false
  end.

(** [Series.sum()]: NaN cells are skipped. *)
Definition sum_skipna (xs : list float) : Q :=
  fold_left (fun acc x => match x with
                          | Some q => (acc + q)%Q
                          | None => acc
                          end) xs 0%Q.

Definition count (n : nat) : Q := inject_Z (Z.of_nat n).

(** The dict of [_calculate_offensive_metrics], key [off_k] as field
    [o_k]. *)
Record OffensiveMetrics : Type := {
  o_epa_play : Q;
  o_pass_epa_play : Q;
  o_run_epa_play : Q;
  o_early_down_pass_epa_play : Q;
  o_success_rate : Q;
  o_total_plays : nat;
  o_pass_plays : nat;
  o_run_plays : nat
}.

(** The dict of [_calculate_defensive_metrics], key [def_k] as field
    [d_k]. *)
Record DefensiveMetrics : Type := {
  d_epa_play_allowed : Q;
  d_pass_epa_play_allowed : Q;
  d_run_epa_play_allowed : Q;
  d_success_rate_allowed : Q;
  d_total_plays_faced : nat;
  d_pass_plays_faced : nat;
  d_run_plays_faced : nat
}.

Definition _get_empty_offensive_metrics : OffensiveMetrics :=
  {| o_epa_play := 0; o_pass_epa_play := 0; o_run_epa_play := 0;
     o_early_down_pass_epa_play := 0; o_success_rate := 0;
     o_total_plays := 0; o_pass_plays := 0; o_run_plays := 0 |}.

Definition _get_empty_defensive_metrics : DefensiveMetrics :=
  {| d_epa_play_allowed := 0; d_pass_epa_play_allowed := 0;
     d_run_epa_play_allowed := 0; d_success_rate_allowed := 0;
     d_total_plays_faced := 0; d_pass_plays_faced := 0;
     d_run_plays_faced := 0 |}.

Definition _calculate_offensive_metrics (game_pbp : list Play) (team : string)
  : OffensiveMetrics :=
  let team_offense := filter (fun p => is_team (p_posteam p) team) game_pbp in
  if is_empty team_offense then _get_empty_offensive_metrics
  else
    let total_plays := length team_offense in
    let total_epa := sum_skipna (map p_epa team_offense) in
    let epa_per_play :=
      if (0 <? total_plays)%nat then (total_epa / count total_plays)%Q
      else 0%Q in
    let pass_plays := filter (fun p => is_one (p_pass p)) team_offense in
    let pass_epa :=
      if negb (is_empty pass_plays) then sum_skipna (map p_epa pass_plays)
      else 0%Q in
    let pass_epa_per_play :=
      if (0 <? length pass_plays)%nat
      then (pass_epa / count (length pass_plays))%Q else 0%Q in
    let run_plays := filter (fun p => is_one (p_rush p)) team_offense in
    let run_epa :=
      if negb (is_empty run_plays) then sum_skipna (map p_epa run_plays)
      else 0%Q in
    let run_epa_per_play :=
      if (0 <? length run_plays)%nat
      then (run_epa / count (length run_plays))%Q else 0%Q in
    let early_down_plays :=
      filter (fun p => isin_1_2 (p_down p)) team_offense in
    let early_down_pass :=
      filter (fun p => is_one (p_pass p)) early_down_plays in
    let early_down_pass_epa :=
      if negb (is_empty early_down_pass)
      then sum_skipna (map p_epa early_down_pass) else 0%Q in
    let early_down_pass_epa_per_play :=
      if (0 <? length early_down_pass)%nat
      then (early_down_pass_epa / count (length early_down_pass))%Q
      else 0%Q in
    let successful_plays :=
      length (filter (fun p => fltb (fin 0) (p_epa p)) team_offense) in
    let success_rate :=
      if (0 <? total_plays)%nat
      then (count successful_plays / count total_plays)%Q else 0%Q in
    {| o_epa_play := epa_per_play;
       o_pass_epa_play := pass_epa_per_play;
       o_run_epa_play := run_epa_per_play;
       o_early_down_pass_epa_play := early_down_pass_epa_per_play;
       o_success_rate := success_rate;
       o_total_plays := total_plays;
       o_pass_plays := length pass_plays;
       o_run_plays := length run_plays |}.

Definition _calculate_defensive_metrics (game_pbp : list Play) (team : string)
  : DefensiveMetrics :=
  let team_defense := filter (fun p => is_team (p_defteam p) team) game_pbp in
  if is_empty team_defense then _get_empty_defensive_metrics
  else
    let total_plays_faced := length team_defense in
    let total_epa_allowed := sum_skipna (map p_epa team_defense) in
    let epa_allowed_per_play :=
      if (0 <? total_plays_faced)%nat
      then (total_epa_allowed / count total_plays_faced)%Q else 0%Q in
    let pass_plays_faced := filter (fun p => is_one (p_pass p)) team_defense in
    let pass_epa_allowed :=
      if negb (is_empty pass_plays_faced)
      then sum_skipna (map p_epa pass_plays_faced) else 0%Q in
    let pass_epa_allowed_per_play :=
      if (0 <? length pass_plays_faced)%nat
      then (pass_epa_allowed / count (length pass_plays_faced))%Q
      else 0%Q in
    let run_plays_faced := filter (fun p => is_one (p_rush p)) team_defense in
    let run_epa_allowed :=
      if negb (is_empty run_plays_faced)
      then sum_skipna (map p_epa run_plays_faced) else 0%Q in
    let run_epa_allowed_per_play :=
      if (0 <? length run_plays_faced)%nat
      then (run_epa_allowed / count (length run_plays_faced))%Q
      else 0%Q in
    let successful_plays_allowed :=
      length (filter (fun p => fltb (fin 0) (p_epa p)) team_defense) in
    let success_rate_allowed :=
      if (0 <? total_plays_faced)%nat
      then (count successful_plays_allowed / count total_plays_faced)%Q
      else 0%Q in
    {| d_epa_play_allowed := epa_allowed_per_play;
       d_pass_epa_play_allowed := pass_epa_allowed_per_play;
       d_run_epa_play_allowed := run_epa_allowed_per_play;
       d_success_rate_allowed := success_rate_allowed;
       d_total_plays_faced := total_plays_faced;
       d_pass_plays_faced := length pass_plays_faced;
       d_run_plays_faced := length run_plays_faced |}.

(** One row of the frame [_calculate_team_game_metrics] builds: the columns
    the window code reads, and the six play counts ([off_k] of the
    offensive dict as it is, [def_k] of the defensive dict under the
    added prefix [def_]). *)
Record TeamGameRow : Type := {
  tgr_metric : TeamGameMetric;
  off_total_plays : nat;
  off_pass_plays : nat;
  off_run_plays : nat;
  def_def_total_plays_faced : nat;
  def_def_pass_plays_faced : nat;
  def_def_run_plays_faced : nat
}.

(** The dict literal of one team-game record. *)
Definition team_game_record (season week : Z) (gid team opponent : string)
    (home : bool) (offense : OffensiveMetrics) (defense : DefensiveMetrics)
  : TeamGameRow :=
  {| tgr_metric :=
       {| tg_season := season; tg_week := week; tg_game_id := gid;
          tg_team := team; tg_opponent := opponent; tg_home := home;
          off_epa_play := o_epa_play offense;
          off_pass_epa_play := o_pass_epa_play offense;
          off_run_epa_play := o_run_epa_play offense;
          off_early_down_pass_epa_play := o_early_down_pass_epa_play offense;
          off_success_rate := o_success_rate offense;
          def_def_epa_play_allowed := d_epa_play_allowed defense;
          def_def_pass_epa_play_allowed := d_pass_epa_play_allowed defense;
          def_def_run_epa_play_allowed := d_run_epa_play_allowed defense;
          def_def_success_rate_allowed := d_success_rate_allowed defense |};
     off_total_plays := o_total_plays offense;
     off_pass_plays := o_pass_plays offense;
     off_run_plays := o_run_plays offense;
     def_def_total_plays_faced := d_total_plays_faced defense;
     def_def_pass_plays_faced := d_pass_plays_faced defense;
     def_def_run_plays_faced := d_run_plays_faced defense |}.

(** Body of the loop of [_calculate_team_game_metrics] for one game id. *)
Definition game_records (pbp_df : list Play) (schedules_df : list Game)
    (gid : string) : list TeamGameRow :=
  let game_pbp := filter (fun p => String.eqb (p_game_id p) gid) pbp_df in
  match filter (fun g => String.eqb (g_game_id g) gid) schedules_df with
  | [] => []
  | game_info :: _ =>
      let season := g_season game_info in
      let week := g_week game_info in
      let home_team := g_home_team game_info in
      let away_team := g_away_team game_info in
      let home_offense := _calculate_offensive_metrics game_pbp home_team in
      let home_defense := _calculate_defensive_metrics game_pbp home_team in
      let away_offense := _calculate_offensive_metrics game_pbp away_team in
      let away_defense := _calculate_defensive_metrics game_pbp away_team in
      [ team_game_record season week gid home_team away_team true
          home_offense home_defense;
        team_game_record season week gid away_team home_team false
          away_offense away_defense ]
  end.

Definition _calculate_team_game_metrics (pbp_df : list Play)
    (schedules_df : list Game) : list TeamGameRow :=
  flat_map (game_records pbp_df schedules_df)
           (unique (map p_game_id pbp_df)).

(** [_load_pbp_data], over the reader [PBPReader.load_pbp]. *)
Definition _load_pbp_data (load_pbp : Z -> Z -> result (list Play))
    (season week : Z) : result (list Play) :=
  let all_pbp_data :=
    flat_map (fun w => match load_pbp season w with
                       | inr week_pbp => [week_pbp]
                       | inl _ => []
                       end)
             (range 1 (week + 1)) in
  match all_pbp_data with
  | [] =>
      raise (ValueError ("No PBP data available for season "
                         ++ str_of_int season ++ ", weeks 1-"
                         ++ str_of_int week)%string)
  | _ => ret (concat all_pbp_data)
  end.

(** The data behind [calculate_rolling_features]: plays through the week,
    the schedule of the season, then the team-game metrics. *)
Definition data_source (load_pbp : Z -> Z -> result (list Play))
    (load_schedules : Z -> result (list Game)) : DataSource :=
  {| load_schedules := load_schedules;
     load_team_game_metrics := fun season week =>
       pbp_df <- _load_pbp_data load_pbp season week ;;
       schedules_df <- load_schedules season ;;
       ret (map tgr_metric (_calculate_team_game_metrics pbp_df schedules_df))
  |}.

End Extractor.

(** ** models/baseline.py: the training data of the baseline model *)

Module Baseline.

(** The [feature_families] entry of the model configuration; a family
    that the configuration does not list is the empty list. *)
Record FeatureFamilies : Type := {
  rolling_offense : list string;
  rolling_defense : list string;
  market : list string
}.

(** [Series.notna()] on one cell: [None] and NaN are missing. *)
Definition cell_notna (v : value) : bool :=
  match v with
  | VNone => false
  | VFloat None => false
  | _ => true
  end.

(** [fillna(0)] on one cell. *)
Definition fillna0 (v : value) : value :=
  if cell_notna v then v else VInt 0.

Definition _get_feature_columns (feature_families : FeatureFamilies)
    (modeling_df : Frame) : list string :=
  let in_columns feature := str_in feature (columns modeling_df) in
  let rolling_features :=
    rolling_offense feature_families ++ rolling_defense feature_families in
  let feature_cols := filter in_columns rolling_features in
  let feature_cols :=
    feature_cols
    ++ filter in_columns
         (map (fun feature => ("market_" ++ feature)%string)
              (market feature_families)) in
  let feature_cols :=
    feature_cols
    ++ filter in_columns
         (map (fun feature => ("situational_" ++ feature)%string)
              ["home"; "rest_days"]) in
  let rolling_cols :=
    filter (String.prefix "rolling_") (columns modeling_df) in
  fold_left (fun feature_cols col =>
               if str_in col feature_cols then feature_cols
               else feature_cols ++ [col])
            rolling_cols feature_cols.

(** [labeled_data] of [_prepare_training_data]: the rows with a label, or
    the error raised on the way. *)
Definition labeled_data (modeling_df : Frame) : result Frame :=
  if str_in "label_win" (columns modeling_df) then
    let labeled_data :=
      {| columns := columns modeling_df;
         rows := filter (fun r => cell_notna
                                    (series_get r "label_win" (VFloat NaN)))
                        (rows modeling_df) |} in
    if is_empty (rows labeled_data) || is_empty (columns labeled_data)
    then raise (ValueError "No labeled training data available")
    else ret labeled_data
  else raise (KeyError "label_win").

(** [_prepare_training_data], returning the feature matrix [X] (row by
    row) and the feature columns; the label vector [y] is left out, its
    integer conversion depends on the storage type of the column. *)
Definition _prepare_training_data (feature_families : FeatureFamilies)
    (modeling_df : Frame) : result (list (list value) * list string) :=
  let feature_cols := _get_feature_columns feature_families modeling_df in
  labeled_data <- labeled_data modeling_df ;;
  let X :=
    map (fun r => map (fun c => fillna0 (series_get r c (VFloat NaN)))
                      feature_cols)
        (rows labeled_data) in
  ret (X, feature_cols).

(** [np.sum(mask)] of a boolean array. *)
Definition np_sum (mask : list bool) : nat :=
  length (filter (fun b => b) mask).

(** The scores of [_evaluate_model]. The arrays [y_true] and [y_pred] have
    one shape; they are given element by element, as pairs
    [(y_true[i], y_pred[i])]. *)
Definition _calculate_precision (y : list (Z * Z)) : Q :=
  let tp := np_sum (map (fun '(y_true, y_pred) =>
                           (y_true =? 1) && (y_pred =? 1)) y) in
  let fp := np_sum (map (fun '(y_true, y_pred) =>
                           (y_true =? 0) && (y_pred =? 1)) y) in
  if (0 <? tp + fp)%nat
  then (Extractor.count tp / Extractor.count (tp + fp))%Q
  else 0%Q.

Definition _calculate_recall (y : list (Z * Z)) : Q :=
  let tp := np_sum (map (fun '(y_true, y_pred) =>
                           (y_true =? 1) && (y_pred =? 1)) y) in
  let fn := np_sum (map (fun '(y_true, y_pred) =>
                           (y_true =? 1) && (y_pred =? 0)) y) in
  if (0 <? tp + fn)%nat
  then (Extractor.count tp / Extractor.count (tp + fn))%Q
  else 0%Q.

Definition _calculate_f1_score (y : list (Z * Z)) : Q :=
  let precision := _calculate_precision y in
  let recall := _calculate_recall y in
  if Qltb 0 (precision + recall)
  then (2 * (precision * recall) / (precision + recall))%Q
  else 0%Q.

End Baseline.

(** The cells of the confusion matrix that the scores read. *)
Definition true_positives (y : list (Z * Z)) : nat :=
  length (filter (fun '(y_true, y_pred) => (y_true =? 1) && (y_pred =? 1)) y).
Definition false_positives (y : list (Z * Z)) : nat :=
  length (filter (fun '(y_true, y_pred) => (y_true =? 0) && (y_pred =? 1)) y).
Definition false_negatives (y : list (Z * Z)) : nat :=
  length (filter (fun '(y_true, y_pred) => (y_true =? 1) && (y_pred =? 0)) y).

(** ** Vocabulary of the further properties *)

(** The rows of a table whose [week] cell is at most [W]. *)
Definition row_week_le (W : Z) (r : dict) : bool :=
  match dict_get r "week" with
  | Some (VInt w) => w <=? W
  | _ => false
  end.

(** A play of a Contest that the schedule places before week [W]. *)
Definition play_before (schedules_df : list Game) (W : Z)
    (p : Extractor.Play) : bool :=
  match game_of_id schedules_df (Extractor.p_game_id p) with
  | Some g => g_week g <? W
  | None => false
  end.

(** The window-code view of the team-game table of a play-by-play frame. *)
Definition team_game_metrics_of (pbp_df : list Extractor.Play)
    (schedules_df : list Game) : list TeamGameMetric :=
  map Extractor.tgr_metric
      (Extractor._calculate_team_game_metrics pbp_df schedules_df).

(** ** Sample inputs *)

Module Sample.

Definition cfg : Config :=
  {| l3_window := 3; l5_window := 5; l6_window := 6;
     ewma_alpha := 0.3; ewma_min_periods := 1;
     early_season_min_weeks := 4; early_season_shrinkage := 0.8 |}.

Definition metric_row (team opponent gid : string) (wk : Z) (home : bool)
    (epa succ : Q) : TeamGameMetric :=
  {| tg_season := 2023; tg_week := wk; tg_game_id := gid; tg_team := team;
     tg_opponent := opponent; tg_home := home;
     off_epa_play := epa; off_pass_epa_play := epa; off_run_epa_play := epa;
     off_early_down_pass_epa_play := epa; off_success_rate := succ;
     def_def_epa_play_allowed := epa; def_def_pass_epa_play_allowed := epa;
     def_def_run_epa_play_allowed := epa;
     def_def_success_rate_allowed := succ |}.

(** KC and BUF meet in week 1, KC and DEN in week 2. *)
Definition kc1 := metric_row "KC" "BUF" "2023_01_BUF_KC" 1 true 0.2 0.5.
Definition buf1 := metric_row "BUF" "KC" "2023_01_BUF_KC" 1 false 0.1 0.4.
Definition kc2 := metric_row "KC" "DEN" "2023_02_DEN_KC" 2 true 0.4 0.6.
Definition den2 := metric_row "DEN" "KC" "2023_02_DEN_KC" 2 false (-0.1) 0.3.

Definition metrics : list TeamGameMetric := [kc1; buf1; kc2; den2].

(** The same table with KC's week-1 row entered twice. *)
Definition metrics_dup : list TeamGameMetric := [kc1; buf1; kc1; kc2; den2].

Definition game (gid : string) (wk : Z) (home away : string)
    (hs as_ res : float) : Game :=
  {| g_game_id := gid; g_season := 2023; g_week := wk;
     g_home_team := home; g_away_team := away;
     g_spread_line := fin 3; g_total_line := fin 45; g_moneyline := fin (-150);
     g_home_score := hs; g_away_score := as_; g_result := res |}.

Definition game1 := game "2023_01_BUF_KC" 1 "KC" "BUF" (fin 24) (fin 17) (fin 7).
Definition game2 := game "2023_02_DEN_KC" 2 "KC" "DEN" (fin 20) (fin 27) (fin (-7)).
Definition game3 := game "2023_03_KC_BUF" 3 "BUF" "KC" NaN NaN NaN.
(** KC idle in week 3, back in week 4. *)
Definition game4 := game "2023_04_KC_DEN" 4 "DEN" "KC" NaN NaN NaN.

Definition schedule : list Game := [game1; game2; game3].

(** A source that serves season 2023 only. *)
Definition source : DataSource :=
  {| load_schedules := fun season =>
       if season =? 2023 then ret schedule
       else raise (LoadError "no schedule");
     load_team_game_metrics := fun season week =>
       if season =? 2023
       then ret (filter (fun r => tg_week r <=? week) metrics)
       else raise (LoadError "no play-by-play") |}.

(** A source whose season 2023 has Contests from week 3 on only. *)
Definition late_source : DataSource :=
  {| load_schedules := fun season =>
       if season =? 2023 then ret [game3; game4]
       else raise (LoadError "no schedule");
     load_team_game_metrics := fun season week =>
       raise (LoadError "no play-by-play") |}.

End Sample.

(** Plays of the two sample Contests. *)
Module SamplePlays.

Definition play (gid pos def : string) (epa : float) (pass rush down : Q)
  : Extractor.Play :=
  {| Extractor.p_game_id := gid;
     Extractor.p_posteam := Some pos; Extractor.p_defteam := Some def;
     Extractor.p_epa := epa;
     Extractor.p_pass := fin pass; Extractor.p_rush := fin rush;
     Extractor.p_down := fin down |}.

Definition week1 : list Extractor.Play :=
  [ play "2023_01_BUF_KC" "KC" "BUF" (fin 0.5) 1 0 1;
    play "2023_01_BUF_KC" "KC" "BUF" (fin (-0.3)) 0 1 2;
    play "2023_01_BUF_KC" "BUF" "KC" NaN 1 0 3;
    play "2023_01_BUF_KC" "BUF" "KC" (fin 0.1) 1 0 1 ].

Definition week2 : list Extractor.Play :=
  [ play "2023_02_DEN_KC" "KC" "DEN" (fin 0.4) 1 0 1;
    play "2023_02_DEN_KC" "DEN" "KC" (fin (-0.2)) 0 1 1;
    play "2023_99_XXX_YYY" "XXX" "YYY" (fin 1) 1 0 1 ].

(** Week 1 and week 2 load, every other week fails. *)
Definition load_pbp (season week : Z) : result (list Extractor.Play) :=
  if (season =? 2023) && (week =? 1) then ret week1
  else if (season =? 2023) && (week =? 2) then ret week2
  else raise (LoadError "no play-by-play").

End SamplePlays.

(** A modeling table with labels, as the baseline model expects it. *)
Module SampleTable.

Definition families : Baseline.FeatureFamilies :=
  {| Baseline.rolling_offense := ["rolling_off_epa_play_l3"; "off_pace"];
     Baseline.rolling_defense := [];
     Baseline.market := ["spread_line"; "total_line"] |}.

Definition row (team : string) (epa spread : float) (home label : value)
  : dict :=
  [ ("team", VStr team); ("rolling_off_epa_play_l3", VFloat epa);
    ("rolling_off_epa_play_l5", VFloat epa);
    ("market_spread_line", VFloat spread); ("situational_home", home);
    ("label_win", label) ].

Definition table : Frame :=
  {| columns := [ "team"; "rolling_off_epa_play_l3"; "rolling_off_epa_play_l5";
                  "market_spread_line"; "situational_home"; "label_win" ];
     rows := [ row "KC" (fin 0.2) (fin (-3)) (VInt 1) (VInt 1);
               row "BUF" NaN (fin 3) (VInt 0) (VInt 0);
               row "DEN" (fin 0.1) NaN (VInt 1) VNone ] |}.

End SampleTable.

(** * Properties *)

(** ** Sorting and filtering *)

Lemma StronglySorted_filter {A} (R : A -> A -> Prop) (p : A -> bool)
    (l : list A) :
  StronglySorted R l -> StronglySorted R (filter p l).
Proof.
  induction 1 as [|x l Hs IH Hall]; simpl; [constructor|].
  destruct (p x); auto. constructor; auto.
  rewrite Forall_forall in *. intros y Hy. apply Hall.
  now apply filter_In in Hy.
Qed.

Section SortFacts.
Context {sv : SortValues} {A : Type} (key : A -> Z).

Lemma sort_values_perm
    (l : list A) : Permutation l (sort_values key l).
Proof. apply sort_values_Permutation. Qed.

Lemma sort_values_In (l : list A) (y : A) :
  In y (sort_values key l) <-> In y l.
Proof.
  split; apply Permutation_in;
    [symmetry |]; apply sort_values_perm.
Qed.

Lemma sort_values_length (l : list A) :
  length (sort_values key l) = length l.
Proof. symmetry. apply Permutation_length, sort_values_perm. Qed.

Lemma sort_values_sorted (l : list A) :
  StronglySorted (le_key key) (sort_values key l).
Proof. apply sort_values_StronglySorted. Qed.

Lemma filter_perm (p : A -> bool) (l l' : list A) :
  Permutation l l' -> Permutation (filter p l) (filter p l').
Proof.
  induction 1 as [|x l l' _ IH|x y l|l l' l'' _ IH1 _ IH2]; simpl; auto.
  - destruct (p x); auto.
  - destruct (p x), (p y); auto. apply perm_swap.
  - etransitivity; eauto.
Qed.

(** Filtering the sorted rows keeps what filtering the rows keeps; only
    the order is the sort's. *)
Lemma filter_sort_values_perm (p : A -> bool) (l : list A) :
  Permutation (filter p (sort_values key l)) (filter p l).
Proof. apply filter_perm. symmetry. apply sort_values_perm. Qed.

(** With pairwise distinct keys there is one ascending order. *)
Lemma sorted_perm_unique (l1 l2 : list A) :
  StronglySorted (le_key key) l1 -> StronglySorted (le_key key) l2 ->
  Permutation l1 l2 -> NoDup (map key l1) -> l1 = l2.
Proof.
  revert l2. induction l1 as [|x l1 IH]; intros l2 Hs1 Hs2 Hp Hnd.
  - apply Permutation_nil in Hp. now subst.
  - destruct l2 as [|y l2].
    { symmetry in Hp. apply Permutation_nil in Hp. discriminate. }
    inversion Hs1 as [|? ? Hs1' Hall1]; subst.
    inversion Hs2 as [|? ? Hs2' Hall2]; subst.
    inversion Hnd as [|? ? Hnotin Hnd']; subst.
    rewrite Forall_forall in Hall1, Hall2.
    assert (Hxy : x = y).
    { assert (Hx : In x (y :: l2))
        by (apply (Permutation_in _ Hp); now left).
      assert (Hy : In y (x :: l1))
        by (apply (Permutation_in _ (Permutation_sym Hp)); now left).
      destruct Hx as [Hx|Hx]; [now symmetry|].
      destruct Hy as [Hy|Hy]; [exact Hy|].
      exfalso. apply Hnotin.
      specialize (Hall1 y Hy). specialize (Hall2 x Hx).
      unfold le_key in *.
      replace (key x) with (key y) by lia.
      now apply in_map. }
    subst y. f_equal. apply IH; auto.
    now apply Permutation_cons_inv in Hp.
Qed.

End SortFacts.

Lemma fold_max_ge (l : list Z) (a : Z) :
  a <= fold_left Z.max l a /\ Forall (fun z => z <= fold_left Z.max l a) l.
Proof.
  revert a. induction l as [|z l IH]; intro a; simpl.
  - split; [lia | constructor].
  - destruct (IH (Z.max a z)) as [H1 H2]. split; [lia|].
    constructor; [lia | exact H2].
Qed.

Lemma fold_max_In (l : list Z) (a : Z) :
  fold_left Z.max l a = a \/ In (fold_left Z.max l a) l.
Proof.
  revert a. induction l as [|z l IH]; intro a; simpl; auto.
  destruct (IH (Z.max a z)) as [H|H]; auto.
  rewrite H. destruct (Z.max_spec a z) as [[_ ->]|[_ ->]]; auto.
Qed.

(** ** Rest days *)

Lemma rest_chain (d : Z) :
  (if d =? 7 then 7
   else if d =? 6 then 6
   else if d =? 10 then 10
   else if d =? 14 then 14
   else d) = d.
Proof.
  destruct (d =? 7) eqn:E7; [apply Z.eqb_eq in E7; lia|].
  destruct (d =? 6) eqn:E6; [apply Z.eqb_eq in E6; lia|].
  destruct (d =? 10) eqn:E10; [apply Z.eqb_eq in E10; lia|].
  destruct (d =? 14) eqn:E14; [apply Z.eqb_eq in E14; lia|].
  reflexivity.
Qed.

Lemma previous_games_In
    {sv : SortValues} (games_df : list Game) (team : string) (cw : Z)
    (g : Game) :
  In g (filter (fun g => g_week g <? cw)
          (sort_values g_week
             (filter (fun g => String.eqb (g_home_team g) team) games_df ++
              filter (fun g => String.eqb (g_away_team g) team) games_df)))
  <-> In g (prior_games games_df team cw).
Proof.
  unfold prior_games, plays.
  rewrite !filter_In, sort_values_In, in_app_iff, !filter_In.
  rewrite andb_true_iff, orb_true_iff. tauto.
Qed.

(** The two outcomes of [_calculate_rest_days]. *)
Lemma rest_days_cases
    {sv : SortValues} (games_df : list Game) (team : string) (cw : Z) :
  (prior_games games_df team cw = [] /\
   Situational._calculate_rest_days games_df team cw = 7)
  \/
  (exists g, In g (prior_games games_df team cw) /\
             (forall g', In g' (prior_games games_df team cw) ->
                         g_week g' <= g_week g) /\
             Situational._calculate_rest_days games_df team cw
             = (cw - g_week g) * 7).
Proof.
  unfold Situational._calculate_rest_days.
  pose proof (previous_games_In games_df team cw) as HIn.
  destruct (filter _ (sort_values _ _)) as [|g0 rest] eqn:Eprev.
  - left. split; auto.
    destruct (prior_games games_df team cw) as [|g l] eqn:E; auto.
    exfalso. apply (proj2 (HIn g)). now left.
  - right. rewrite rest_chain.
    destruct (fold_max_ge (map g_week rest) (g_week g0)) as [Hge Hall].
    set (M := fold_left Z.max (map g_week rest) (g_week g0)) in *.
    assert (Hmax : forall g', In g' (g0 :: rest) -> g_week g' <= M).
    { intros g' [<-|Hg']; auto.
      rewrite Forall_forall in Hall. apply Hall, in_map, Hg'. }
    assert (Hwit : exists g, In g (g0 :: rest) /\ g_week g = M).
    { destruct (fold_max_In (map g_week rest) (g_week g0)) as [H|H].
      - exists g0. split; [now left | now symmetry].
      - apply in_map_iff in H. destruct H as [g [Hg Hin]].
        exists g. split; [now right | exact Hg]. }
    destruct Hwit as [g [Hg HM]]. exists g. repeat split.
    + now apply HIn.
    + intros g' Hg'. rewrite HM. apply Hmax, HIn, Hg'.
    + now rewrite HM.
Qed.

(** C6. With no Contest of the team before the current week, rest-days is 7;
    otherwise it is (current week - week of the most recent prior Contest)
    times 7; a team whose only prior Contest was 2 weeks earlier gets 14. *)
Theorem rest_days_from_prior_contest {sv : SortValues}
    (games_df : list Game) (team : string) (current_week : Z) :
  (prior_games games_df team current_week = [] ->
   Situational._calculate_rest_days games_df team current_week = 7)
  /\
  (forall g,
     In g (prior_games games_df team current_week) ->
     (forall g', In g' (prior_games games_df team current_week) ->
                 g_week g' <= g_week g) ->
     Situational._calculate_rest_days games_df team current_week
     = (current_week - g_week g) * 7)
  /\
  (forall g,
     prior_games games_df team current_week = [g] ->
     g_week g = current_week - 2 ->
     Situational._calculate_rest_days games_df team current_week = 14).
Proof.
  assert (Hmost : forall g,
     In g (prior_games games_df team current_week) ->
     (forall g', In g' (prior_games games_df team current_week) ->
                 g_week g' <= g_week g) ->
     Situational._calculate_rest_days games_df team current_week
     = (current_week - g_week g) * 7).
  { intros g Hg Hmax.
    destruct (rest_days_cases games_df team current_week)
      as [[Hnil _]|[g0 [Hg0 [Hmax0 ->]]]].
    - rewrite Hnil in Hg. destruct Hg.
    - specialize (Hmax g0 Hg0). specialize (Hmax0 g Hg). f_equal. lia. }
  split; [|split].
  - intros Hnil.
    destruct (rest_days_cases games_df team current_week)
      as [[_ H]|[g0 [Hg0 _]]]; auto.
    rewrite Hnil in Hg0. destruct Hg0.
  - exact Hmost.
  - intros g Hone Hweek.
    rewrite (Hmost g).
    + rewrite Hweek. lia.
    + rewrite Hone. now left.
    + intros g' Hg'. rewrite Hone in Hg'. destruct Hg' as [<-|[]]. lia.
Qed.

Lemma rest_days_from_prior_contest_witness :
  prior_games [Sample.game1; Sample.game3; Sample.game4] "KC" 3
  = [Sample.game1]
  /\ g_week Sample.game1 = 3 - 2
  /\ Situational._calculate_rest_days (sv := stable_sort_values)
       [Sample.game1; Sample.game3; Sample.game4] "KC" 3 = 14.
Proof.
  assert (H1 : prior_games [Sample.game1; Sample.game3; Sample.game4] "KC" 3
               = [Sample.game1]) by reflexivity.
  assert (H2 : g_week Sample.game1 = 3 - 2) by reflexivity.
  split; [exact H1|]. split; [exact H2|].
  destruct (rest_days_from_prior_contest (sv := stable_sort_values)
              [Sample.game1; Sample.game3; Sample.game4] "KC" 3)
    as (_ & _ & H).
  exact (H Sample.game1 H1 H2).
Defined.

(** C10. Rest-days is always a whole number of weeks, at least one, times 7:
    it is at least 7 and never the 6-day short-week value. *)
Theorem rest_days_multiple_of_7 {sv : SortValues}
    (games_df : list Game) (team : string) (current_week : Z) :
  (exists k, 1 <= k /\
             Situational._calculate_rest_days games_df team current_week
             = 7 * k)
  /\ 7 <= Situational._calculate_rest_days games_df team current_week
  /\ Situational._calculate_rest_days games_df team current_week <> 6.
Proof.
  assert (H : exists k, 1 <= k /\
             Situational._calculate_rest_days games_df team current_week
             = 7 * k).
  { destruct (rest_days_cases games_df team current_week)
      as [[_ ->]|[g [Hg [_ ->]]]].
    - exists 1. lia.
    - exists (current_week - g_week g). split; [|lia].
      unfold prior_games in Hg. apply filter_In in Hg.
      destruct Hg as [_ Hg]. apply andb_true_iff in Hg.
      destruct Hg as [_ Hg]. apply Z.ltb_lt in Hg. lia. }
  split; [exact H|]. destruct H as [k [Hk ->]]. lia.
Qed.

(** ** Dicts *)

Lemma dict_get_app (d e : dict) (k : string) :
  dict_get (d ++ e) k =
  match dict_get d k with Some v => Some v | None => dict_get e k end.
Proof.
  induction d as [|[k' v'] d IH]; simpl; auto.
  now destruct (String.eqb k' k).
Qed.

Lemma dict_get_set (d : dict) (k k' : string) (v : value) :
  dict_get (dict_set d k v) k' =
  if String.eqb k k' then Some v else dict_get d k'.
Proof.
  induction d as [|[k0 v0] d IH]; simpl; auto.
  destruct (String.eqb k0 k) eqn:E0; simpl.
  - apply String.eqb_eq in E0. subst k0.
    now destruct (String.eqb k k').
  - rewrite IH. destruct (String.eqb k0 k') eqn:E1; auto.
    apply String.eqb_eq in E1. subst k0.
    rewrite String.eqb_sym in E0. now rewrite E0.
Qed.

(** In an update the last binding of a key wins. *)
Lemma dict_get_update (d e : dict) (k : string) :
  dict_get (dict_update d e) k =
  match dict_get (rev e) k with Some v => Some v | None => dict_get d k end.
Proof.
  unfold dict_update. revert d.
  induction e as [|[k0 v0] e IH]; intro d; simpl; auto.
  rewrite IH, dict_get_app, dict_get_set. simpl.
  destruct (dict_get (rev e) k); auto.
  now destruct (String.eqb k0 k).
Qed.

(** ** Rolling windows *)

Lemma tail_length {A} (n : nat) (l : list A) :
  length (tail n l) = Nat.min n (length l).
Proof. unfold tail. rewrite length_skipn. lia. Qed.


(** Case analysis on membership in [trailing_windows]. *)
Ltac each_window H :=
  destruct H as [H|[H|[H|[]]]]; inversion H; subst; clear H.

Lemma shrinkage_factor_spec (self : Config) (data_length : nat)
    (window_name : string) (N : nat) (current_week : Z) :
  In (window_name, N) (trailing_windows self) ->
  Rolling._get_shrinkage_factor self data_length window_name current_week
  = shrinkage_spec self data_length N current_week.
Proof.
  unfold Rolling._get_shrinkage_factor, shrinkage_spec.
  intro H. each_window H; simpl;
    rewrite Z.geb_leb, Z.ltb_antisym;
    now destruct (early_season_min_weeks self <=? current_week).
Qed.

Lemma window_features_get (self : Config) (window : list TeamGameMetric)
    (window_name : string) (N : nat) (current_week : Z) (m : metric) :
  In (window_name, N) (trailing_windows self) ->
  dict_get (Rolling._calculate_window_features self window window_name
              current_week)
           (feature_key m window_name)
  = Some (window_value_spec self window N current_week m).
Proof.
  intro HIn. unfold window_value_spec.
  rewrite <- (shrinkage_factor_spec self _ window_name N current_week HIn).
  unfold Rolling._calculate_window_features.
  destruct window as [|r window]; cbn [is_empty];
    each_window HIn; destruct m; reflexivity.
Qed.

Lemma Qltb_lt (x y : Q) : Qltb x y = true <-> (x < y)%Q.
Proof.
  unfold Qltb. rewrite negb_true_iff. split.
  - intro H. apply Qnot_le_lt. intro Hle.
    apply Qle_bool_iff in Hle. congruence.
  - intro H. destruct (Qle_bool y x) eqn:E; auto.
    apply Qle_bool_iff in E. lra.
Qed.

Lemma Qltb_ge (x y : Q) : Qltb x y = false <-> (y <= x)%Q.
Proof.
  unfold Qltb. rewrite negb_false_iff. apply Qle_bool_iff.
Qed.

Lemma mapM_Forall2 {A B} (f : A -> result B) (l : list A) (ys : list B) :
  mapM f l = inr ys <-> Forall2 (fun x y => f x = inr y) l ys.
Proof.
  revert ys. induction l as [|x l IH]; intro ys; simpl.
  - split.
    + intro H. inversion H. constructor.
    + intro H. now inversion H.
  - unfold bind, ret in *. split.
    + destruct (f x) as [e|y] eqn:Ex; [discriminate|].
      destruct (mapM f l) as [e|ys'] eqn:El; [discriminate|].
      intro H. inversion H; subst. constructor; auto. now apply IH.
    + intro H. inversion H as [|? y ? ys' Hx Hl]; subst.
      rewrite Hx. apply IH in Hl. now rewrite Hl.
Qed.

(** [mapM] returns when every element does, and raises the error of the
    first element that raises. *)
Lemma mapM_total {A B} (f : A -> result B) (l : list A) :
  (forall x, In x l -> exists y, f x = inr y) -> exists ys, mapM f l = inr ys.
Proof.
  induction l as [|x l IH]; intro H; simpl.
  - now exists [].
  - destruct (H x (or_introl eq_refl)) as [y ->].
    destruct IH as [ys ->]; [intros z Hz; apply H; now right|].
    now exists (y :: ys).
Qed.

Lemma mapM_inl {A B} (f : A -> result B) (l : list A) (e : exn) :
  mapM f l = inl e -> exists x, In x l /\ f x = inl e.
Proof.
  induction l as [|x l IH]; simpl; [discriminate|].
  unfold bind, ret. destruct (f x) as [e'|y] eqn:Ex.
  - intro H. injection H as <-. exists x. auto.
  - destruct (mapM f l) as [e'|ys]; [|discriminate].
    intro H. injection H as <-.
    destruct IH as [z [Hz Hfz]]; auto. exists z. auto.
Qed.

Lemma mapM_In {A B} (f : A -> result B) (l : list A) (ys : list B) :
  mapM f l = inr ys ->
  (forall x, In x l -> exists y, f x = inr y /\ In y ys)
  /\ (forall y, In y ys -> exists x, In x l /\ f x = inr y).
Proof.
  intro H. apply mapM_Forall2 in H.
  induction H as [|x y l ys Hxy _ [IH1 IH2]]; split.
  - intros x [].
  - intros y [].
  - intros z [<-|Hz]; [exists y; split; auto; now left|].
    destruct (IH1 z Hz) as [w [Hw Hin]]. exists w. split; auto. now right.
  - intros w [<-|Hw]; [exists x; split; auto; now left|].
    destruct (IH2 w Hw) as [z [Hz Hfz]]. exists z. split; auto. now right.
Qed.

Lemma alpha_check (self : Config) :
  Qle_bool (ewma_alpha self) 0 || Qltb 1 (ewma_alpha self) = false
  <-> valid_alpha self.
Proof.
  unfold valid_alpha. rewrite orb_false_iff, Qltb_ge. split.
  - intros [H1 H2]. split; [|exact H2].
    apply Qnot_le_lt. intro H. apply Qle_bool_iff in H. congruence.
  - intros [H1 H2]. split; [|exact H2].
    destruct (Qle_bool (ewma_alpha self) 0) eqn:E; [|reflexivity].
    apply Qle_bool_iff in E. lra.
Qed.

(** The EWMA cells are computed unless the history has rows and the
    smoothing factor is invalid; then the first [ewm] call raises. *)
Lemma ewma_features_outcome (self : Config) (hist : list TeamGameMetric) :
  match Rolling._calculate_ewma_features self hist with
  | inr e => keys e = keys Rolling._get_empty_ewma_features
             /\ (hist = [] \/ valid_alpha self)
  | inl err => err = alpha_error /\ hist <> [] /\ ~ valid_alpha self
  end.
Proof.
  unfold Rolling._calculate_ewma_features, Rolling.ewm_mean.
  destruct hist as [|r hist]; cbn [is_empty].
  - split; auto.
  - destruct (Qle_bool _ 0 || Qltb 1 _) eqn:E; cbv beta zeta;
      cbn [bind ret raise].
    + split; [reflexivity|]. split; [discriminate|].
      intro Hv. apply alpha_check in Hv. congruence.
    + split; [reflexivity|]. right. now apply alpha_check.
Qed.

Lemma dict_get_update_other (d e : dict) (k : string) :
  ~ In k (keys e) -> dict_get (dict_update d e) k = dict_get d k.
Proof.
  intro Hk. rewrite dict_get_update.
  replace (dict_get (rev e) k) with (@None value); [reflexivity|].
  symmetry. clear d. induction e as [|[k' v] e IH]; simpl in *; auto.
  rewrite dict_get_app, IH by tauto. simpl.
  destruct (String.eqb k' k) eqn:E; auto.
  apply String.eqb_eq in E. tauto.
Qed.

Lemma team_rolling_features_outcome (self : Config)
    (hist : list TeamGameMetric) (team : string) (season W : Z) :
  match Rolling._calculate_team_rolling_features self hist team season W with
  | inr row =>
      (hist = [] \/ valid_alpha self)
      /\ (dict_get row "season" = Some (VInt season)
          /\ dict_get row "week" = Some (VInt W)
          /\ dict_get row "team" = Some (VStr team))
      /\ (forall window_name N m,
            In (window_name, N) (trailing_windows self) ->
            dict_get row (feature_key m window_name)
            = Some (window_value_spec self (tail N hist) N W m))
  | inl err => err = alpha_error /\ hist <> [] /\ ~ valid_alpha self
  end.
Proof.
  unfold Rolling._calculate_team_rolling_features.
  pose proof (ewma_features_outcome self hist) as He.
  destruct (Rolling._calculate_ewma_features self hist) as [err|e];
    cbn [bind ret]; [exact He|].
  destruct He as [Hkeys Hok]. split; [exact Hok|].
  assert (Hother : forall d k,
            ~ In k (keys Rolling._get_empty_ewma_features) ->
            dict_get (dict_update d e) k = dict_get d k).
  { intros d k Hk. apply dict_get_update_other. now rewrite Hkeys. }
  split.
  - rewrite !Hother by (simpl; intuition discriminate).
    rewrite !dict_get_update.
    unfold Rolling._calculate_window_features.
    generalize (tail (l3_window self) hist) as w3.
    generalize (tail (l5_window self) hist) as w5.
    generalize (tail (l6_window self) hist) as w6.
    intros w6 w5 w3.
    destruct w3, w5, w6; cbn [is_empty]; repeat split; reflexivity.
  - intros window_name N m HIn.
    rewrite <- (window_features_get self _ window_name N W m HIn).
    rewrite Hother
      by (each_window HIn; destruct m; simpl; intuition discriminate).
    rewrite !dict_get_update.
    unfold Rolling._calculate_window_features.
    each_window HIn;
      generalize (tail (l3_window self) hist) as w3;
      generalize (tail (l5_window self) hist) as w5;
      generalize (tail (l6_window self) hist) as w6;
      intros w6 w5 w3;
      destruct w3, w5, w6; cbn [is_empty]; destruct m; reflexivity.
Qed.

Lemma str_in_In (s : string) (l : list string) :
  str_in s l = true <-> In s l.
Proof.
  unfold str_in. rewrite existsb_exists. split.
  - intros [x [Hx E]]. apply String.eqb_eq in E. now subst.
  - intro H. exists s. split; auto. apply String.eqb_refl.
Qed.

Lemma unique_from_In (seen l : list string) (x : string) :
  In x (unique_from seen l) <-> In x l /\ ~ In x seen.
Proof.
  revert seen. induction l as [|y l IH]; intro seen; simpl; [tauto|].
  destruct (str_in y seen) eqn:E.
  - apply str_in_In in E. rewrite IH. split.
    + tauto.
    + intros [[->|H] Hn]; [contradiction | auto].
  - assert (Hy : ~ In y seen).
    { intro H. apply str_in_In in H. congruence. }
    simpl. rewrite IH. simpl. split.
    + intros [->|[H Hn]]; [auto | tauto].
    + intros [[->|H] Hn]; auto.
      destruct (string_dec y x) as [->|Hne]; auto. right. tauto.
Qed.

Lemma unique_In (l : list string) (x : string) :
  In x (unique l) <-> In x l.
Proof. unfold unique. rewrite unique_from_In. simpl. tauto. Qed.

Lemma range_In (lo hi z : Z) : In z (range lo hi) <-> lo <= z < hi.
Proof.
  unfold range. rewrite in_map_iff. split.
  - intros [i [<- Hi]]. apply in_seq in Hi. lia.
  - intros H. exists (Z.to_nat (z - lo)). split; [lia|].
    apply in_seq. lia.
Qed.

Lemma filter_filter_comm {A} (p q : A -> bool) (l : list A) :
  filter p (filter q l) = filter q (filter p l).
Proof.
  induction l as [|x l IH]; simpl; auto.
  destruct (p x) eqn:Ep, (q x) eqn:Eq; simpl; rewrite ?Ep, ?Eq, IH; auto.
Qed.

Lemma filter_andb {A} (p q : A -> bool) (l : list A) :
  filter p (filter q l) = filter (fun x => p x && q x) l.
Proof.
  induction l as [|x l IH]; simpl; auto.
  destruct (q x) eqn:Eq; simpl; rewrite ?andb_true_r, ?andb_false_r;
    destruct (p x); simpl; now rewrite IH.
Qed.

(** The history of a team before week [W] holds the team's rows of earlier
    weeks, each as often as the table lists it, in ascending week order. *)
Lemma team_history_perm
    {sv : SortValues} (tgm : list TeamGameMetric) (team : string) (W : Z) :
  Permutation (Rolling.team_history tgm team W) (earlier_rows tgm team W).
Proof.
  unfold Rolling.team_history, earlier_rows.
  etransitivity; [apply filter_sort_values_perm|].
  rewrite filter_andb.
  erewrite filter_ext; [reflexivity|]. intro r. apply andb_comm.
Qed.

Lemma team_history_In
    {sv : SortValues} (tgm : list TeamGameMetric) (team : string) (W : Z)
    (r : TeamGameMetric) :
  In r (Rolling.team_history tgm team W)
  <-> In r tgm /\ tg_team r = team /\ tg_week r < W.
Proof.
  unfold Rolling.team_history.
  rewrite filter_In, sort_values_In, filter_In, String.eqb_eq, Z.ltb_lt.
  tauto.
Qed.

Lemma team_history_sorted
    {sv : SortValues} (tgm : list TeamGameMetric) (team : string) (W : Z) :
  StronglySorted (le_key tg_week) (Rolling.team_history tgm team W).
Proof. apply StronglySorted_filter, sort_values_sorted. Qed.

Lemma earlier_rows_of_filtered (tgm : list TeamGameMetric) (team : string)
    (W : Z) :
  earlier_rows (filter (fun r => tg_week r <? W) tgm) team W
  = earlier_rows tgm team W.
Proof.
  unfold earlier_rows. rewrite filter_andb. apply filter_ext. intro r.
  now destruct (String.eqb (tg_team r) team), (tg_week r <? W).
Qed.

(** Rows of week [W] or later can change the order of a history, never
    its rows. *)
Lemma team_history_same_earlier
    {sv : SortValues} (tgm tgm' : list TeamGameMetric) (team : string)
    (W : Z) :
  filter (fun r => tg_week r <? W) tgm'
  = filter (fun r => tg_week r <? W) tgm ->
  Permutation (Rolling.team_history tgm' team W)
              (Rolling.team_history tgm team W).
Proof.
  intro Heq.
  rewrite (team_history_perm tgm'), (team_history_perm tgm).
  now rewrite <- (earlier_rows_of_filtered tgm'), Heq,
              earlier_rows_of_filtered.
Qed.

(** With at most one earlier row per week they cannot change that
    either. *)
Lemma team_history_distinct_weeks
    {sv : SortValues} (tgm tgm' : list TeamGameMetric) (team : string)
    (W : Z) :
  filter (fun r => tg_week r <? W) tgm'
  = filter (fun r => tg_week r <? W) tgm ->
  NoDup (map tg_week (Rolling.team_history tgm team W)) ->
  Rolling.team_history tgm' team W = Rolling.team_history tgm team W.
Proof.
  intros Heq Hnd.
  pose proof (team_history_same_earlier tgm tgm' team W Heq) as Hp.
  apply (sorted_perm_unique tg_week); auto using team_history_sorted.
  eapply Permutation_NoDup; [|exact Hnd].
  apply Permutation_map. now symmetry.
Qed.


Lemma default_rolling_features_get (self : Config) (team : string)
    (season W : Z) (window_name : string) (N : nat) (m : metric) :
  In (window_name, N) (trailing_windows self) ->
  dict_get (Rolling._create_default_rolling_features team season W)
           (feature_key m window_name)
  = Some (VFloat (fin 0)).
Proof.
  intro H. each_window H; destruct m; reflexivity.
Qed.

(** The two outcomes of one (team, week) row. *)
Lemma rolling_feature_row_outcome
    {sv : SortValues} (self : Config) (tgm : list TeamGameMetric)
    (team : string) (season W : Z) :
  let hist := Rolling.team_history tgm team W in
  match Rolling.rolling_feature_row self tgm team season W with
  | inr row =>
      (hist = [] \/ valid_alpha self)
      /\ (dict_get row "season" = Some (VInt season)
          /\ dict_get row "week" = Some (VInt W)
          /\ dict_get row "team" = Some (VStr team))
      /\ (forall window_name N m,
            In (window_name, N) (trailing_windows self) ->
            dict_get row (feature_key m window_name)
            = Some (window_value_spec self (tail N hist) N W m))
      /\ (hist = [] ->
          row = Rolling._create_default_rolling_features team season W)
  | inl err => err = alpha_error /\ hist <> [] /\ ~ valid_alpha self
  end.
Proof.
  intro hist. unfold Rolling.rolling_feature_row. fold hist.
  destruct hist as [|r hist'] eqn:E; cbn [is_empty ret].
  - split; [now left|]. split; [repeat split; reflexivity|].
    split; [|reflexivity].
    intros window_name N m HIn.
    rewrite (default_rolling_features_get self _ _ _ _ N m HIn).
    unfold window_value_spec, tail. now destruct (_ - _)%nat.
  - pose proof (team_rolling_features_outcome self (r :: hist') team season W)
      as H.
    destruct (Rolling._calculate_team_rolling_features _ _ _ _ _)
      as [err|row]; [exact H|].
    destruct H as (Hok & Hids & Hget).
    split; [exact Hok|]. split; [exact Hids|]. split; [exact Hget|].
    discriminate.
Qed.

Lemma rolling_feature_row_get
    {sv : SortValues} (self : Config) (tgm : list TeamGameMetric)
    (team : string) (season W : Z) (row : dict) (window_name : string)
    (N : nat) (m : metric) :
  Rolling.rolling_feature_row self tgm team season W = inr row ->
  In (window_name, N) (trailing_windows self) ->
  dict_get row (feature_key m window_name)
  = Some (window_value_spec self
            (tail N (Rolling.team_history tgm team W)) N W m).
Proof.
  intros Hrow HIn.
  pose proof (rolling_feature_row_outcome self tgm team season W) as H.
  rewrite Hrow in H. now apply H.
Qed.

Lemma rolling_feature_row_ids
    {sv : SortValues} (self : Config) (tgm : list TeamGameMetric)
    (team : string) (season W : Z) (row : dict) :
  Rolling.rolling_feature_row self tgm team season W = inr row ->
  dict_get row "season" = Some (VInt season)
  /\ dict_get row "week" = Some (VInt W)
  /\ dict_get row "team" = Some (VStr team).
Proof.
  intros Hrow.
  pose proof (rolling_feature_row_outcome self tgm team season W) as H.
  rewrite Hrow in H. apply H.
Qed.

(** A row is computed when the history is empty or the smoothing factor
    is valid, and only then; the one error is pandas' complaint about the
    factor. *)
Lemma rolling_feature_row_total
    {sv : SortValues} (self : Config) (tgm : list TeamGameMetric)
    (team : string) (season W : Z) :
  Rolling.team_history tgm team W = [] \/ valid_alpha self ->
  exists row, Rolling.rolling_feature_row self tgm team season W = inr row.
Proof.
  intro Hok.
  pose proof (rolling_feature_row_outcome self tgm team season W) as H.
  destruct (Rolling.rolling_feature_row self tgm team season W)
    as [err|row]; [|eauto].
  destruct H as (_ & Hne & Hinv). tauto.
Qed.

Lemma rolling_feature_row_error
    {sv : SortValues} (self : Config) (tgm : list TeamGameMetric)
    (team : string) (season W : Z) (err : exn) :
  Rolling.rolling_feature_row self tgm team season W = inl err ->
  err = alpha_error /\ Rolling.team_history tgm team W <> []
  /\ ~ valid_alpha self.
Proof.
  intros Hrow.
  pose proof (rolling_feature_row_outcome self tgm team season W) as H.
  now rewrite Hrow in H.
Qed.

(** The rows of the rolling table: the row of every team of the metrics
    table and every week 1..week. *)
Lemma rolling_table_rows
    {sv : SortValues} (self : Config) (tgm : list TeamGameMetric)
    (season week : Z) (rows : list dict) (r : dict) :
  Rolling._calculate_rolling_windows self tgm season week = inr rows ->
  In r rows <->
  exists team W, In team (map tg_team tgm) /\ 1 <= W <= week
                 /\ Rolling.rolling_feature_row self tgm team season W
                    = inr r.
Proof.
  unfold Rolling._calculate_rolling_windows.
  destruct tgm as [|r0 tgm0]; [discriminate|].
  set (table := r0 :: tgm0). clearbody table.
  destruct (mapM _ (unique _)) as [e|per_team] eqn:E; cbn [bind ret];
    [discriminate|].
  intro H. injection H as <-.
  destruct (mapM_In _ _ _ E) as [Hall Hinv].
  rewrite in_concat. split.
  - intros [rs [Hrs Hr]].
    destruct (Hinv rs Hrs) as [team [Ht Hteam]].
    destruct (mapM_In _ _ _ Hteam) as [_ Hinv'].
    destruct (Hinv' r Hr) as [W [HW Hrow]].
    exists team, W. split; [exact (proj1 (unique_In _ _) Ht)|].
    split; [|exact Hrow]. apply range_In in HW. lia.
  - intros [team [W [Ht [HW Hrow]]]].
    destruct (Hall team (proj2 (unique_In _ _) Ht)) as [rs [Hteam Hrs]].
    exists rs. split; [exact Hrs|].
    destruct (mapM_In _ _ _ Hteam) as [Hall' _].
    destruct (Hall' W) as [r' [Hr' Hin]]; [apply range_In; lia|].
    congruence.
Qed.

(** The table is returned when every row is, that is, unless the
    smoothing factor is invalid and some history has rows. *)
Lemma rolling_windows_total
    {sv : SortValues} (self : Config) (tgm : list TeamGameMetric)
    (season week : Z) :
  tgm <> [] ->
  (forall team W, In team (map tg_team tgm) -> 1 <= W <= week ->
                  Rolling.team_history tgm team W = [] \/ valid_alpha self) ->
  exists rows, Rolling._calculate_rolling_windows self tgm season week
               = inr rows.
Proof.
  intros Hne Hok. unfold Rolling._calculate_rolling_windows.
  destruct tgm as [|r0 tgm0]; [congruence|].
  set (table := r0 :: tgm0) in *. clearbody table.
  destruct (mapM_total
              (fun team =>
                 mapM (fun current_week =>
                         Rolling.rolling_feature_row self table team season
                           current_week)
                      (range 1 (week + 1)))
              (unique (map tg_team table))) as [per_team ->].
  - intros team Ht. apply mapM_total. intros W HW.
    apply rolling_feature_row_total, Hok.
    + now apply unique_In.
    + apply range_In in HW. lia.
  - cbn [bind ret]. eauto.
Qed.

Lemma rolling_windows_error
    {sv : SortValues} (self : Config) (tgm : list TeamGameMetric)
    (season week : Z) (err : exn) :
  Rolling._calculate_rolling_windows self tgm season week = inl err ->
  (tgm = [] /\ err = KeyError "team")
  \/ (err = alpha_error /\ ~ valid_alpha self
      /\ exists team W, In team (map tg_team tgm) /\ 1 <= W <= week
                        /\ Rolling.team_history tgm team W <> []).
Proof.
  unfold Rolling._calculate_rolling_windows.
  destruct tgm as [|r0 tgm0].
  { intro H. injection H as <-. now left. }
  set (table := r0 :: tgm0). clearbody table.
  destruct (mapM _ (unique _)) as [e|per_team] eqn:E; cbn [bind ret];
    [|discriminate].
  intro H. injection H as <-. right.
  apply mapM_inl in E. destruct E as [team [Ht E]].
  apply mapM_inl in E. destruct E as [W [HW E]].
  apply rolling_feature_row_error in E. destruct E as (-> & Hne & Hinv).
  split; [reflexivity|]. split; [exact Hinv|].
  exists team, W. split; [exact (proj1 (unique_In _ _) Ht)|].
  split; [|exact Hne]. apply range_In in HW. lia.
Qed.

Lemma fold_left_Qplus (xs : list Q) (a : Q) :
  (fold_left Qplus xs a == a + qsum xs)%Q.
Proof.
  unfold qsum. revert a. induction xs as [|x xs IH]; intro a; simpl.
  - lra.
  - rewrite (IH (a + x)%Q), (IH (0 + x)%Q). lra.
Qed.

Lemma qsum_perm (xs ys : list Q) :
  Permutation xs ys -> (qsum xs == qsum ys)%Q.
Proof.
  induction 1 as [|x xs ys _ IH|x y xs|xs ys zs _ IH1 _ IH2].
  - reflexivity.
  - unfold qsum. simpl. rewrite !(fold_left_Qplus _ (0 + x)). lra.
  - unfold qsum. simpl.
    rewrite (fold_left_Qplus _ (0 + y + x)), (fold_left_Qplus _ (0 + x + y)).
    lra.
  - lra.
Qed.

(** A window average does not depend on the order of the rows of the
    window. *)
Lemma window_value_perm (self : Config) (w w' : list TeamGameMetric)
    (N : nat) (W : Z) (m : metric) :
  Permutation w w' ->
  exists q q', window_value_spec self w N W m = VFloat (fin q)
               /\ window_value_spec self w' N W m = VFloat (fin q')
               /\ (q == q')%Q.
Proof.
  intro Hp. unfold window_value_spec.
  do 2 eexists. split; [reflexivity|]. split; [reflexivity|].
  assert (Hlen : length w = length w') by now apply Permutation_length.
  destruct w as [|r w], w' as [|r' w']; try discriminate; cbn [is_empty];
    [reflexivity|].
  unfold mean. rewrite !length_map, Hlen.
  rewrite (qsum_perm _ _ (Permutation_map (metric_col m) Hp)).
  reflexivity.
Qed.

Lemma tail_all {A} (n : nat) (l : list A) :
  (length l <= n)%nat -> tail n l = l.
Proof.
  intro H. unfold tail. replace (length l - n)%nat with 0%nat by lia.
  reflexivity.
Qed.



(** C4. The factor applied to a window average is the shrinkage constant
    when the week is below the early-season threshold and the history has
    fewer than N rows, and 1 otherwise; with threshold 4 and shrinkage 0.8
    a two-contest history at week 3 gives L3 = two-game mean times 0.8.
    The row is returned whenever the smoothing factor is valid. *)
Theorem shrinkage_applied_early_season
    {sv : SortValues} (self : Config) (tgm : list TeamGameMetric)
    (team : string) (season W : Z) (window_name : string) (N : nat) :
  In (window_name, N) (trailing_windows self) ->
  let hist := Rolling.team_history tgm team W in
  let window := tail N hist in
  let factor :=
    if (W <? early_season_min_weeks self) && (length hist <? N)%nat
    then early_season_shrinkage self else 1%Q in
  Rolling._get_shrinkage_factor self (length window) window_name W = factor
  /\ (forall row,
        Rolling.rolling_feature_row self tgm team season W = inr row ->
        (forall m, window <> [] ->
           dict_get row (feature_key m window_name)
           = Some (VFloat (fin (mean (map (metric_col m) window) * factor))))
        /\ (early_season_min_weeks self = 4 ->
            early_season_shrinkage self = 0.8%Q ->
            W = 3 -> window_name = "l3" -> N = 3%nat ->
            forall r1 r2, hist = [r1; r2] ->
            forall m, dict_get row (feature_key m "l3")
                      = Some (VFloat (fin (mean [metric_col m r1;
                                                 metric_col m r2]
                                           * 0.8)))))
  /\ (valid_alpha self ->
      exists row, Rolling.rolling_feature_row self tgm team season W = inr row).
Proof.
  intros HIn hist window factor.
  assert (Hfac : shrinkage_spec self (length window) N W = factor).
  { unfold shrinkage_spec, factor, window. rewrite tail_length.
    replace (Nat.min N (length hist) <? N)%nat with (length hist <? N)%nat;
      auto.
    destruct (length hist <? N)%nat eqn:E; symmetry.
    - apply Nat.ltb_lt in E. apply Nat.ltb_lt. lia.
    - apply Nat.ltb_ge in E. apply Nat.ltb_ge. lia. }
  split; [|split].
  - now rewrite (shrinkage_factor_spec self _ window_name N W HIn).
  - intros row Hrow.
    assert (Hget : forall m, window <> [] ->
        dict_get row (feature_key m window_name)
        = Some (VFloat (fin (mean (map (metric_col m) window) * factor)))).
    { intros m Hne.
      rewrite (rolling_feature_row_get self tgm team season W row _ N m
                 Hrow HIn).
      unfold window_value_spec. fold hist. fold window. rewrite Hfac.
      destruct window; [congruence | reflexivity]. }
    split; [exact Hget|].
    intros Hthr Hshr -> -> -> r1 r2 Hhist m.
    rewrite Hget.
    + unfold window, factor. rewrite Hhist, Hthr, Hshr. reflexivity.
    + unfold window. rewrite Hhist. discriminate.
  - intro Hv. apply rolling_feature_row_total. now right.
Qed.

Lemma shrinkage_applied_early_season_witness :
  In ("l3", 3%nat) (trailing_windows Sample.cfg)
  /\ exists row,
       Rolling.rolling_feature_row (sv := stable_sort_values) Sample.cfg
         Sample.metrics "KC" 2023 3 = inr row
       /\ dict_get row "off_epa_play_l3"
          = Some (VFloat (fin (mean [0.2; 0.4] * 0.8)%Q)).
Proof.
  assert (H : In ("l3", 3%nat) (trailing_windows Sample.cfg)) by (simpl; auto).
  split; [exact H|].
  destruct (shrinkage_applied_early_season (sv := stable_sort_values)
              Sample.cfg Sample.metrics "KC" 2023 3 "l3" 3 H)
    as (_ & Hs & _).
  eexists. split; [reflexivity|].
  destruct (Hs _ eq_refl) as (_ & Hscen).
  exact (Hscen eq_refl eq_refl eq_refl eq_refl eq_refl Sample.kc1 Sample.kc2
               eq_refl OffEpa).
Defined.

(** ** Opponent strength *)

Lemma clamp_by_min_max (s : Q) :
  exists q, py_max (fin 0.5) (py_min (fin 2) (fin s)) = fin q
            /\ (q == clamp 0.5 2 s)%Q /\ (0.5 <= q <= 2)%Q.
Proof.
  unfold py_max, py_min, fin, fltb, clamp.
  destruct (Qltb s 2) eqn:E2.
  - apply Qltb_lt in E2. destruct (Qltb 0.5 s) eqn:E1.
    + apply Qltb_lt in E1. exists s. split; auto.
      destruct (Qlt_le_dec s 0.5), (Qlt_le_dec 2 s); split; lra.
    + apply Qltb_ge in E1. exists 0.5%Q. split; auto.
      destruct (Qlt_le_dec s 0.5), (Qlt_le_dec 2 s); split; lra.
  - apply Qltb_ge in E2. exists 2%Q. split; [reflexivity|].
    destruct (Qlt_le_dec s 0.5), (Qlt_le_dec 2 s); split; lra.
Qed.

Lemma clamp_proper (x y : Q) :
  (x == y)%Q -> (clamp 0.5 2 x == clamp 0.5 2 y)%Q.
Proof.
  intro H. unfold clamp.
  destruct (Qlt_le_dec x 0.5), (Qlt_le_dec y 0.5),
           (Qlt_le_dec 2 x), (Qlt_le_dec 2 y); lra.
Qed.

Lemma sos_factor_finite (a b c d : Q) :
  exists q, Situational._calculate_sos_factor (fin a) (fin b) (fin c) (fin d)
            = fin q
            /\ (q == sos_spec a b c d)%Q /\ (0.5 <= q <= 2)%Q.
Proof.
  unfold Situational._calculate_sos_factor.
  cbn [fneg fsub fadd fdiv fmul lift2 fin option_map].
  destruct (clamp_by_min_max (1 + (a + - b + c + (1 - d)) / 4 * 0.1))
    as [q [Hq [Heq Hb]]].
  exists q. split; [exact Hq|]. split; [|exact Hb].
  rewrite Heq. unfold sos_spec. apply clamp_proper. lra.
Qed.

Lemma sos_factor_bounded (a b c d : float) :
  exists q, Situational._calculate_sos_factor a b c d = fin q
            /\ (0.5 <= q <= 2)%Q.
Proof.
  destruct a as [a|], b as [b|], c as [c|], d as [d|];
    try (exists 2%Q; split; [reflexivity | lra]).
  destruct (sos_factor_finite a b c d) as [q [Hq [_ Hb]]]. eauto.
Qed.

Lemma sos_row_neutral (rolling_features : list dict) (row : dict)
    (team opponent game_week row_season : value) :
  rolling_features <> [] ->
  dict_get row "team" = Some team ->
  dict_get row "opponent" = Some opponent ->
  dict_get row "week" = Some game_week ->
  dict_get row "season" = Some row_season ->
  filter (fun r => cell_eqb r "team" opponent && cell_eqb r "week" game_week)
         rolling_features = [] ->
  Situational.sos_row rolling_features row
  = inr (neutral_sos_row row_season game_week team).
Proof.
  intros Hne Ht Ho Hw Hs Hnone.
  unfold Situational.sos_row, series_getitem.
  rewrite Ht, Ho, Hw, Hs. cbn [bind ret].
  unfold df_where. destruct rolling_features as [|r0 rf]; [congruence|].
  cbn [bind ret]. rewrite Hnone. clear Hnone.
  now destruct (filter _ (r0 :: rf)).
Qed.

(** C5. On finite inputs the opponent-strength factor is 1 + 0.1 times the
    unweighted mean of the four strength terms, clamped to [0.5, 2]; on any
    inputs it lies in [0.5, 2]; and a row whose opponent has no rolling
    record gets the neutral row (factor 1, zero components), not an error. *)
Theorem sos_factor_clamped_mean :
  (forall a b c d : Q,
      exists q,
        Situational._calculate_sos_factor (fin a) (fin b) (fin c) (fin d)
        = fin q
        /\ (q == sos_spec a b c d)%Q /\ (0.5 <= q <= 2)%Q)
  /\ (forall a b c d : float,
      exists q, Situational._calculate_sos_factor a b c d = fin q
                /\ (0.5 <= q <= 2)%Q)
  /\ (forall rolling_features row team opponent game_week row_season,
      rolling_features <> [] ->
      dict_get row "team" = Some team ->
      dict_get row "opponent" = Some opponent ->
      dict_get row "week" = Some game_week ->
      dict_get row "season" = Some row_season ->
      filter (fun r => cell_eqb r "team" opponent
                       && cell_eqb r "week" game_week)
             rolling_features = [] ->
      Situational.sos_row rolling_features row
      = inr (neutral_sos_row row_season game_week team)).
Proof.
  split; [exact sos_factor_finite|].
  split; [exact sos_factor_bounded | exact sos_row_neutral].
Qed.

Lemma sos_factor_clamped_mean_witness :
  Situational.sos_row
    [ [("team", VStr "KC"); ("week", VInt 1)] ]
    [ ("season", VInt 2023); ("week", VInt 1); ("team", VStr "KC");
      ("opponent", VStr "BUF") ]
  = inr (neutral_sos_row (VInt 2023) (VInt 1) (VStr "KC")).
Proof.
  destruct sos_factor_clamped_mean as (_ & _ & H).
  apply (H _ _ (VStr "KC") (VStr "BUF") (VInt 1) (VInt 2023));
    try reflexivity.
  discriminate.
Defined.

(** ** Leakage guard *)

Lemma dict_get_None (d : dict) (k : string) :
  dict_get d k = None <-> ~ In k (keys d).
Proof.
  induction d as [|[k' v] d IH]; simpl; [tauto|].
  destruct (String.eqb k' k) eqn:E.
  - apply String.eqb_eq in E. split; [discriminate | tauto].
  - apply String.eqb_neq in E. rewrite IH. tauto.
Qed.

Lemma keys_dict_del (d : dict) (c : string) :
  keys (dict_del d c) = filter (fun c' => negb (String.eqb c' c)) (keys d).
Proof.
  unfold dict_del, keys. induction d as [|[k v] d IH]; simpl; auto.
  destruct (String.eqb k c); simpl; now rewrite IH.
Qed.

Lemma dict_get_del (d : dict) (c k : string) :
  dict_get (dict_del d c) k = if String.eqb c k then None else dict_get d k.
Proof.
  unfold dict_del. induction d as [|[k' v] d IH]; simpl.
  - now destruct (String.eqb c k).
  - destruct (String.eqb k' c) eqn:E; simpl.
    + apply String.eqb_eq in E. subst k'. rewrite IH.
      now destruct (String.eqb c k).
    + rewrite IH. destruct (String.eqb k' k) eqn:E'; auto.
      apply String.eqb_eq in E'. subst k'.
      rewrite String.eqb_sym in E. now rewrite E.
Qed.

Lemma keys_dict_set_present (d : dict) (k : string) (v : value) :
  In k (keys d) -> keys (dict_set d k v) = keys d.
Proof.
  induction d as [|[k' v'] d IH]; simpl; [tauto|].
  destruct (String.eqb k' k) eqn:E; simpl; auto.
  apply String.eqb_neq in E. intros [H|H]; [congruence|].
  now rewrite IH.
Qed.

Lemma keys_dict_set_absent (d : dict) (k : string) (v : value) :
  ~ In k (keys d) -> keys (dict_set d k v) = keys d ++ [k].
Proof.
  induction d as [|[k' v'] d IH]; simpl; auto.
  intro H. destruct (String.eqb k' k) eqn:E.
  - apply String.eqb_eq in E. tauto.
  - simpl. rewrite IH; tauto.
Qed.

Lemma guard_step_ok (df : Frame) (col : string) :
  frame_ok df -> frame_ok (guard_step df col).
Proof.
  unfold guard_step, frame_ok. intro H.
  destruct (str_in col (columns df)); auto. simpl.
  rewrite Forall_map. eapply Forall_impl; [|exact H].
  intros r Hr. simpl. now rewrite keys_dict_del, Hr.
Qed.

Lemma guard_step_removes (df : Frame) (col : string) :
  frame_ok df ->
  ~ In col (columns (guard_step df col))
  /\ Forall (fun r => dict_get r col = None) (rows (guard_step df col)).
Proof.
  unfold guard_step, frame_ok. intro H.
  destruct (str_in col (columns df)) eqn:E; simpl.
  - split.
    + rewrite filter_In, String.eqb_refl. simpl. intros [_ F]. discriminate.
    + rewrite Forall_map. apply Forall_forall. intros r _.
      now rewrite dict_get_del, String.eqb_refl.
  - assert (Hn : ~ In col (columns df)).
    { intro Hin. apply str_in_In in Hin. congruence. }
    split; auto. eapply Forall_impl; [|exact H].
    intros r Hr. simpl in Hr. apply dict_get_None. now rewrite Hr.
Qed.

Lemma guard_step_keeps (df : Frame) (col c : string) :
  c <> col ->
  (In c (columns (guard_step df col)) <-> In c (columns df))
  /\ map (fun r => dict_get r c) (rows (guard_step df col))
     = map (fun r => dict_get r c) (rows df).
Proof.
  intro Hne. unfold guard_step.
  destruct (str_in col (columns df)); simpl; [|tauto].
  split.
  - rewrite filter_In, negb_true_iff, String.eqb_neq. tauto.
  - rewrite map_map. apply map_ext. intro r. rewrite dict_get_del.
    destruct (String.eqb col c) eqn:E; auto.
    apply String.eqb_eq in E. congruence.
Qed.

(** What the guard does to a well-formed frame. *)
Lemma ensure_no_leakage_spec (modeling_df : Frame) :
  frame_ok modeling_df ->
  let out := Assemble._ensure_no_leakage modeling_df in
  frame_ok out
  /\ (forall c, In c outcome_cols ->
        ~ In c (columns out)
        /\ Forall (fun r => dict_get r c = None) (rows out))
  /\ (forall c, ~ In c outcome_cols ->
        (In c (columns out) <-> In c (columns modeling_df))
        /\ map (fun r => dict_get r c) (rows out)
           = map (fun r => dict_get r c) (rows modeling_df)).
Proof.
  intro Hok. unfold Assemble._ensure_no_leakage. cbn [fold_left].
  fold (guard_step modeling_df "home_score").
  set (d1 := guard_step modeling_df "home_score").
  fold (guard_step d1 "away_score").
  set (d2 := guard_step d1 "away_score").
  fold (guard_step d2 "result").
  set (d3 := guard_step d2 "result").
  assert (Hok1 : frame_ok d1) by now apply guard_step_ok.
  assert (Hok2 : frame_ok d2) by now apply guard_step_ok.
  assert (Hok3 : frame_ok d3) by now apply guard_step_ok.
  destruct (guard_step_removes modeling_df "home_score" Hok) as [Hc1 Hr1].
  destruct (guard_step_removes d1 "away_score" Hok1) as [Hc2 Hr2].
  destruct (guard_step_removes d2 "result" Hok2) as [Hc3 Hr3].
  fold d1 in Hc1, Hr1. fold d2 in Hc2, Hr2. fold d3 in Hc3, Hr3.
  assert (Hnone : forall df c, frame_ok df -> ~ In c (columns df) ->
                    Forall (fun r => dict_get r c = None) (rows df)).
  { intros df c H Hn. eapply Forall_impl; [|exact H].
    intros r Hr. simpl in Hr. apply dict_get_None. now rewrite Hr. }
  split; [exact Hok3|]. split.
  - intros c [<-|[<-|[<-|[]]]].
    + assert (Hn : ~ In "home_score" (columns d3)).
      { intro H. apply Hc1.
        apply (proj1 (guard_step_keeps d1 "away_score" "home_score"
                        ltac:(discriminate))).
        apply (proj1 (guard_step_keeps d2 "result" "home_score"
                        ltac:(discriminate))).
        exact H. }
      split; [exact Hn | now apply Hnone].
    + assert (Hn : ~ In "away_score" (columns d3)).
      { intro H. apply Hc2.
        apply (proj1 (guard_step_keeps d2 "result" "away_score"
                        ltac:(discriminate))).
        exact H. }
      split; [exact Hn | now apply Hnone].
    + split; [exact Hc3 | exact Hr3].
  - intros c Hc. unfold outcome_cols in Hc. simpl in Hc.
    assert (H1 : c <> "home_score") by (intro; subst; tauto).
    assert (H2 : c <> "away_score") by (intro; subst; tauto).
    assert (H3 : c <> "result") by (intro; subst; tauto).
    destruct (guard_step_keeps modeling_df "home_score" c H1) as [A1 B1].
    destruct (guard_step_keeps d1 "away_score" c H2) as [A2 B2].
    destruct (guard_step_keeps d2 "result" c H3) as [A3 B3].
    fold d1 in A1, B1. fold d2 in A2, B2. fold d3 in A3, B3.
    split; [tauto | congruence].
Qed.

Lemma dict_del_set_same (d : dict) (k : string) (v : value) :
  dict_del (dict_set d k v) k = dict_del d k.
Proof.
  unfold dict_del. induction d as [|[k' v'] d IH]; simpl.
  - now rewrite String.eqb_refl.
  - destruct (String.eqb k' k) eqn:E; simpl; rewrite E; simpl; auto.
    now rewrite IH.
Qed.

Lemma dict_del_set_other (d : dict) (k c : string) (v : value) :
  k <> c -> dict_del (dict_set d k v) c = dict_set (dict_del d c) k v.
Proof.
  intro Hne. unfold dict_del. induction d as [|[k' v'] d IH]; simpl.
  - apply String.eqb_neq in Hne. now rewrite Hne.
  - destruct (String.eqb k' k) eqn:E; simpl.
    + apply String.eqb_eq in E. subst k'.
      apply String.eqb_neq in Hne. rewrite Hne. simpl.
      now rewrite String.eqb_refl.
    + destruct (String.eqb k' c) eqn:E'; simpl; rewrite ?E, IH; auto.
Qed.

Lemma strip_outcome_of_sets (features : dict) (v1 v2 v3 : value) :
  strip_outcome
    (dict_set (dict_set (dict_set features "home_score" v1) "away_score" v2)
              "result" v3)
  = strip_outcome features.
Proof.
  unfold strip_outcome.
  rewrite (dict_del_set_other _ "result" "home_score") by discriminate.
  rewrite (dict_del_set_other _ "away_score" "home_score") by discriminate.
  rewrite dict_del_set_same.
  rewrite (dict_del_set_other _ "result" "away_score") by discriminate.
  rewrite dict_del_set_same.
  now rewrite dict_del_set_same.
Qed.

(** The combined features, outcome cells apart, do not depend on the
    Contest's scores or result. *)
Lemma combine_outcome_blind (rolling_data situational_data : dict)
    (game_data : Game) (team_type : string) (hs as_ res : float) :
  match Assemble._combine_team_features rolling_data situational_data
          game_data team_type,
        Assemble._combine_team_features rolling_data situational_data
          (with_outcome game_data hs as_ res) team_type with
  | inr f, inr f' => strip_outcome f = strip_outcome f'
  | inl e, inl e' => e = e'
  | _, _ => False
  end.
Proof.
  unfold Assemble._combine_team_features.
  destruct (series_getitem rolling_data "team"); cbn [bind]; auto.
  destruct (series_getitem situational_data "opponent"); cbn [bind]; auto.
  destruct (series_getitem situational_data "home"); cbn [bind ret]; auto.
  cbn [with_outcome g_season g_week g_game_id g_spread_line g_total_line
       g_moneyline g_home_score g_away_score g_result].
  now rewrite !strip_outcome_of_sets.
Qed.

Lemma DataFrame_ok (records : list dict) : frame_ok (DataFrame records).
Proof.
  unfold frame_ok, DataFrame. simpl. rewrite Forall_map.
  apply Forall_forall. intros r _. unfold keys.
  rewrite map_map. simpl. apply map_id.
Qed.

Lemma set_column_ok (df : Frame) (c : string) (v : value) :
  frame_ok df -> frame_ok (set_column df c v).
Proof.
  unfold frame_ok, set_column. simpl. intro H. rewrite Forall_map.
  eapply Forall_impl; [|exact H]. intros r Hr. simpl in *.
  destruct (str_in c (columns df)) eqn:E.
  - apply str_in_In in E. rewrite keys_dict_set_present; congruence.
  - assert (~ In c (columns df)).
    { intro Hin. apply str_in_In in Hin. congruence. }
    rewrite keys_dict_set_absent; congruence.
Qed.

Lemma set_column_In (df : Frame) (c : string) (v : value) :
  In c (columns (set_column df c v)).
Proof.
  unfold set_column. simpl. destruct (str_in c (columns df)) eqn:E.
  - now apply str_in_In.
  - apply in_or_app. right. now left.
Qed.

Lemma label_row_keys (schedules_df : list Game) (row row' : dict) :
  In "label_win" (keys row) ->
  Assemble.label_row schedules_df row = inr row' ->
  keys row' = keys row.
Proof.
  intro Hin. unfold Assemble.label_row.
  destruct (series_getitem row "game_id"); cbn [bind]; [discriminate|].
  destruct (series_getitem row "team"); cbn [bind]; [discriminate|].
  destruct (series_getitem row "home"); cbn [bind ret]; [discriminate|].
  destruct (filter _ schedules_df) as [|g ?].
  - intro H. now inversion H.
  - destruct (notna (g_result g)).
    + destruct (Assemble.truthy _); intro H; inversion H;
        now apply keys_dict_set_present.
    + destruct (notna (g_home_score g) && notna (g_away_score g)).
      * destruct (Assemble.truthy _); intro H; inversion H;
          now apply keys_dict_set_present.
      * intro H. now inversion H.
Qed.

Lemma add_training_labels_ok (modeling_df out : Frame)
    (schedules_df : list Game) :
  frame_ok modeling_df ->
  Assemble._add_training_labels modeling_df schedules_df = inr out ->
  frame_ok out.
Proof.
  intros Hok. unfold Assemble._add_training_labels.
  pose proof (set_column_ok modeling_df "label_win" VNone Hok) as Hok'.
  pose proof (set_column_In modeling_df "label_win" VNone) as Hin.
  set (df := set_column modeling_df "label_win" VNone) in *.
  destruct (mapM _ (rows df)) as [e|labelled] eqn:E; cbn [bind ret];
    [discriminate|].
  intro H. inversion H; subst out; clear H.
  apply mapM_Forall2 in E. unfold frame_ok in *. simpl.
  clear Hok. induction E as [|r r' l l' Hr _ IH]; [constructor|].
  inversion Hok' as [|? ? Hk Hrest]; subst.
  constructor; [|now apply IH].
  rewrite (label_row_keys schedules_df r r'); auto.
  rewrite Hk. exact Hin.
Qed.

Lemma assemble_modeling_table_ok
    {sv : SortValues} (self : Config) (src : DataSource)
    (season week : Z) (use_historical_data : bool) (out : Frame) :
  Assemble.assemble_modeling_table self src season week use_historical_data
  = inr out ->
  exists labelled, frame_ok labelled
                   /\ out = Assemble._ensure_no_leakage labelled.
Proof.
  unfold Assemble.assemble_modeling_table.
  destruct (Assemble._load_all_schedules _ _ _ _ _) as [e|all_schedules];
    cbn [bind]; [discriminate|].
  destruct (Assemble._add_training_labels _ _) as [e|labelled] eqn:E;
    cbn [bind ret]; [discriminate|].
  intro H. inversion H. exists labelled. split; auto.
  eapply add_training_labels_ok; [apply DataFrame_ok | exact E].
Qed.

(** C1. The guard removes the columns [home_score], [away_score] and
    [result] from the modeling table and leaves every other column,
    [label_win] included, as it was; the table the assembler returns has none
    of them, they are never feature columns, and apart from those cells a
    combined row does not depend on the Contest's scores or result. *)
Theorem no_outcome_columns_emitted {sv : SortValues} (modeling_df : Frame) :
  frame_ok modeling_df ->
  let out := Assemble._ensure_no_leakage modeling_df in
  (forall c, In c outcome_cols ->
     ~ In c (columns out)
     /\ Forall (fun r => dict_get r c = None) (rows out)
     /\ ~ In c (Assemble.get_feature_columns out))
  /\ (forall c, ~ In c outcome_cols ->
        (In c (columns out) <-> In c (columns modeling_df))
        /\ map (fun r => dict_get r c) (rows out)
           = map (fun r => dict_get r c) (rows modeling_df))
  /\ (forall self src season week use_historical_data table,
        Assemble.assemble_modeling_table self src season week
          use_historical_data = inr table ->
        forall c, In c outcome_cols ->
          ~ In c (columns table)
          /\ Forall (fun r => dict_get r c = None) (rows table))
  /\ (forall rolling_data situational_data game_data team_type hs as_ res,
        match Assemble._combine_team_features rolling_data situational_data
                game_data team_type,
              Assemble._combine_team_features rolling_data situational_data
                (with_outcome game_data hs as_ res) team_type with
        | inr f, inr f' => strip_outcome f = strip_outcome f'
        | inl e, inl e' => e = e'
        | _, _ => False
        end).
Proof.
  intros Hok out.
  destruct (ensure_no_leakage_spec modeling_df Hok) as (_ & Hgone & Hkept).
  fold out in Hgone, Hkept.
  split; [|split; [exact Hkept|split]].
  - intros c Hc. destruct (Hgone c Hc) as [H1 H2].
    split; [exact H1|]. split; [exact H2|].
    unfold Assemble.get_feature_columns. rewrite filter_In. tauto.
  - intros self src season week use_historical_data table Htable c Hc.
    destruct (assemble_modeling_table_ok _ _ _ _ _ _ Htable)
      as [labelled [Hl ->]].
    now apply (ensure_no_leakage_spec labelled Hl).
  - exact combine_outcome_blind.
Qed.

Lemma no_outcome_columns_emitted_witness :
  let df := DataFrame [ [ ("team", VStr "KC");
                          ("home_score", VFloat (fin 24));
                          ("away_score", VFloat (fin 17));
                          ("result", VFloat (fin 7));
                          ("label_win", VInt 1) ] ] in
  frame_ok df
  /\ ~ In "result" (columns (Assemble._ensure_no_leakage df))
  /\ In "label_win" (columns (Assemble._ensure_no_leakage df)).
Proof.
  intro df.
  assert (Hok : frame_ok df) by (repeat constructor).
  split; [exact Hok|].
  destruct (no_outcome_columns_emitted (sv := stable_sort_values)
      df Hok) as (Hgone & Hkept & _).
  split.
  - apply (Hgone "result"). simpl. auto.
  - apply (Hkept "label_win").
    + simpl. intros [H|[H|[H|[]]]]; discriminate.
    + simpl. auto 10.
Defined.

(** ** Training labels *)

Lemma filter_head_find {A} (p : A -> bool) (l : list A) :
  hd_error (filter p l) = find p l.
Proof.
  induction l as [|x l IH]; simpl; auto. now destruct (p x).
Qed.

Lemma label_row_spec (schedules_df : list Game) (row : dict)
    (gid : string) (team : value) (is_home : bool) :
  dict_get row "game_id" = Some (VStr gid) ->
  dict_get row "team" = Some team ->
  dict_get row "home" = Some (VBool is_home) ->
  dict_get row "label_win" = Some VNone ->
  exists row',
    Assemble.label_row schedules_df row = inr row'
    /\ dict_get row' "label_win"
       = Some (match game_of_id schedules_df gid with
               | Some g => win_label_spec g is_home
               | None => VNone
               end)
    /\ (forall c, c <> "label_win" -> dict_get row' c = dict_get row c).
Proof.
  intros Hgid Hteam Hhome Hlabel.
  unfold Assemble.label_row, series_getitem, game_of_id.
  rewrite Hgid, Hteam, Hhome. cbn [bind ret].
  rewrite <- filter_head_find.
  cbn [value_eqb].
  assert (Hset : forall v,
            dict_get (dict_set row "label_win" v) "label_win" = Some v
            /\ (forall c, c <> "label_win" ->
                  dict_get (dict_set row "label_win" v) c = dict_get row c)).
  { intro v. split.
    - now rewrite dict_get_set, String.eqb_refl.
    - intros c Hc. rewrite dict_get_set.
      destruct (String.eqb "label_win" c) eqn:E; auto.
      apply String.eqb_eq in E. congruence. }
  destruct (filter _ schedules_df) as [|g rest]; cbn [hd_error].
  - exists row. auto.
  - unfold win_label_spec, notna, fltb, fin, Assemble.truthy.
    destruct (g_result g) as [r|].
    + destruct is_home; eexists; (split; [reflexivity|]); apply Hset.
    + destruct (g_home_score g) as [h|], (g_away_score g) as [a|];
        cbn [andb]; try (exists row; auto; fail).
      destruct is_home; eexists; (split; [reflexivity|]); apply Hset.
Qed.

(** C2. Every row of the modeling table gets the label of its Contest: by
    the sign of the result when it is known (home wins iff result > 0, away
    wins iff result < 0), else by comparing the two scores, and it stays
    unset when the outcome is unknown; no other cell changes. With scores
    24 and 17 the home row is labelled 1 and the away row 0. *)
Theorem win_label_from_outcome
    (modeling_df : Frame) (schedules_df : list Game) :
  Forall (fun row => exists gid team is_home,
              dict_get row "game_id" = Some (VStr gid)
              /\ dict_get row "team" = Some team
              /\ dict_get row "home" = Some (VBool is_home))
         (rows modeling_df) ->
  (exists out,
     Assemble._add_training_labels modeling_df schedules_df = inr out
     /\ Forall2
          (fun row row' =>
             forall gid is_home,
               dict_get row "game_id" = Some (VStr gid) ->
               dict_get row "home" = Some (VBool is_home) ->
               dict_get row' "label_win"
               = Some (match game_of_id schedules_df gid with
                       | Some g => win_label_spec g is_home
                       | None => VNone
                       end)
               /\ (forall c, c <> "label_win" ->
                             dict_get row' c = dict_get row c))
          (rows modeling_df) (rows out))
  /\ (forall g is_home r,
        g_result g = fin r ->
        win_label_spec g is_home
        = VInt (if is_home then (if Qltb 0 r then 1 else 0)
                else (if Qltb r 0 then 1 else 0)))
  /\ (forall g is_home h a,
        g_result g = NaN -> g_home_score g = fin h -> g_away_score g = fin a ->
        win_label_spec g is_home
        = VInt (if is_home then (if Qltb a h then 1 else 0)
                else (if Qltb h a then 1 else 0)))
  /\ (forall g is_home,
        g_result g = NaN ->
        g_home_score g = NaN \/ g_away_score g = NaN ->
        win_label_spec g is_home = VNone)
  /\ (forall g,
        g_home_score g = fin 24 -> g_away_score g = fin 17 ->
        g_result g = NaN \/ g_result g = fin 7 ->
        win_label_spec g true = VInt 1 /\ win_label_spec g false = VInt 0).
Proof.
  intro Hrows. split; [|split; [|split; [|split]]].
  - unfold Assemble._add_training_labels.
    assert (Hex : exists labelled,
              Forall2 (fun x y => Assemble.label_row schedules_df x = inr y)
                (rows (set_column modeling_df "label_win" VNone)) labelled
              /\ Forall2
                   (fun row row' =>
                      forall gid is_home,
                        dict_get row "game_id" = Some (VStr gid) ->
                        dict_get row "home" = Some (VBool is_home) ->
                        dict_get row' "label_win"
                        = Some (match game_of_id schedules_df gid with
                                | Some g => win_label_spec g is_home
                                | None => VNone
                                end)
                        /\ (forall c, c <> "label_win" ->
                                      dict_get row' c = dict_get row c))
                   (rows modeling_df) labelled).
    { unfold set_column. cbn [rows].
      induction Hrows as [|row l Hrow _ IH].
      - exists []. split; constructor.
      - destruct IH as [labelled [H1 H2]].
        destruct Hrow as (gid & team & is_home & Hg & Ht & Hh).
        destruct (label_row_spec schedules_df
                    (dict_set row "label_win" VNone) gid team is_home)
          as (row' & Hrun & Hlab & Hoth).
        + rewrite dict_get_set. exact Hg.
        + rewrite dict_get_set. exact Ht.
        + rewrite dict_get_set. exact Hh.
        + now rewrite dict_get_set, String.eqb_refl.
        + exists (row' :: labelled). split; constructor; auto.
          intros gid' is_home' Hg' Hh'.
          assert (gid' = gid) by congruence.
          assert (is_home' = is_home) by congruence. subst.
          split; [exact Hlab|].
          intros c Hc. rewrite (Hoth c Hc), dict_get_set.
          destruct (String.eqb "label_win" c) eqn:E; auto.
          apply String.eqb_eq in E. congruence. }
    destruct Hex as [labelled [H1 H2]].
    apply mapM_Forall2 in H1. rewrite H1. cbn [bind ret].
    eexists. split; [reflexivity | exact H2].
  - intros g is_home r Hr. unfold win_label_spec. rewrite Hr.
    now destruct is_home.
  - intros g is_home h a Hr Hh Ha. unfold win_label_spec.
    rewrite Hr, Hh, Ha. now destruct is_home.
  - intros g is_home Hr Hs. unfold win_label_spec. rewrite Hr.
    destruct Hs as [-> | ->]; [reflexivity|].
    now destruct (g_home_score g).
  - intros g Hh Ha [Hr|Hr]; unfold win_label_spec;
      rewrite Hr, ?Hh, ?Ha; split; reflexivity.
Qed.

Lemma win_label_from_outcome_witness :
  let df := DataFrame
              [ [ ("game_id", VStr "2023_01_BUF_KC"); ("team", VStr "KC");
                  ("home", VBool true) ];
                [ ("game_id", VStr "2023_01_BUF_KC"); ("team", VStr "BUF");
                  ("home", VBool false) ] ] in
  exists out,
    Assemble._add_training_labels df Sample.schedule = inr out
    /\ map (fun r => dict_get r "label_win") (rows out)
       = [Some (VInt 1); Some (VInt 0)].
Proof.
  intro df.
  assert (Hrows : Forall (fun row => exists gid team is_home,
              dict_get row "game_id" = Some (VStr gid)
              /\ dict_get row "team" = Some team
              /\ dict_get row "home" = Some (VBool is_home))
         (rows df)).
  { repeat constructor; repeat eexists; reflexivity. }
  destruct (win_label_from_outcome df Sample.schedule Hrows)
    as ((out & Hrun & Hlab) & _).
  exists out. split; [exact Hrun|].
  inversion Hlab as [|r1 r1' l1 l1' Hx1 Hl1 Heq1 Heq1']; subst.
  inversion Hl1 as [|r2 r2' l2 l2' Hx2 Hl2]; subst.
  inversion Hl2; subst. simpl.
  destruct (Hx1 "2023_01_BUF_KC" true eq_refl eq_refl) as [-> _].
  destruct (Hx2 "2023_01_BUF_KC" false eq_refl eq_refl) as [-> _].
  reflexivity.
Defined.

(** ** Duplicate weeks *)

Lemma has_duplicate_week_nonempty (tgm : list TeamGameMetric) :
  has_duplicate_week tgm = true -> tgm <> [].
Proof. destruct tgm; [discriminate | discriminate]. Qed.

(** C7, as the code has it. A history with two rows of one team in one week
    is not rejected: nothing looks for duplicates. With a valid smoothing
    factor the feature table is returned, and the only error the
    aggregator can raise on such a table is pandas' complaint about the
    factor. Every row of the input, duplicates included, stays in its
    team's history; a window averages the last N rows of the history, so
    when the team has at most N earlier rows each of them, duplicates
    included, is in the average. *)
Theorem duplicate_weeks_enter_the_windows
    {sv : SortValues} (self : Config) (tgm : list TeamGameMetric)
    (season week : Z) :
  has_duplicate_week tgm = true ->
  (valid_alpha self ->
   exists rows,
     Rolling._calculate_rolling_windows self tgm season week = inr rows
     /\ forall team W,
          In team (map tg_team tgm) -> 1 <= W <= week ->
          exists row,
            Rolling.rolling_feature_row self tgm team season W = inr row
            /\ In row rows)
  /\ (forall err,
        Rolling._calculate_rolling_windows self tgm season week = inl err ->
        err = alpha_error /\ ~ valid_alpha self)
  /\ (forall team W,
        Permutation (Rolling.team_history tgm team W)
                    (earlier_rows tgm team W))
  /\ (forall team W row window_name N m,
        Rolling.rolling_feature_row self tgm team season W = inr row ->
        In (window_name, N) (trailing_windows self) ->
        dict_get row (feature_key m window_name)
        = Some (window_value_spec self
                  (tail N (Rolling.team_history tgm team W)) N W m)
        /\ ((length (earlier_rows tgm team W) <= N)%nat ->
            exists q q',
              dict_get row (feature_key m window_name) = Some (VFloat (fin q))
              /\ window_value_spec self (earlier_rows tgm team W) N W m
                 = VFloat (fin q')
              /\ (q == q')%Q)).
Proof.
  intro Hdup. apply has_duplicate_week_nonempty in Hdup.
  split; [|split; [|split]].
  - intro Hv.
    destruct (rolling_windows_total self tgm season week Hdup) as [rows Hrows];
      [auto|].
    exists rows. split; [exact Hrows|].
    intros team W Hteam HW.
    destruct (rolling_feature_row_total self tgm team season W) as [row Hrow];
      [auto|].
    exists row. split; [exact Hrow|].
    apply (rolling_table_rows self tgm season week rows row Hrows).
    now exists team, W.
  - intros err Herr.
    destruct (rolling_windows_error self tgm season week err Herr)
      as [[Hnil _]|(-> & Hinv & _)]; [congruence | auto].
  - intros team W. apply team_history_perm.
  - intros team W row window_name N m Hrow HIn.
    pose proof (rolling_feature_row_get self tgm team season W row
                  window_name N m Hrow HIn) as Hget.
    split; [exact Hget|].
    intro Hlen. rewrite Hget.
    pose proof (team_history_perm tgm team W) as Hp.
    rewrite tail_all by (rewrite (Permutation_length Hp); exact Hlen).
    destruct (window_value_perm self _ _ N W m Hp) as (q & q' & -> & -> & Hq).
    now exists q, q'.
Qed.

Lemma duplicate_weeks_enter_the_windows_witness :
  has_duplicate_week Sample.metrics_dup = true
  /\ valid_alpha Sample.cfg
  /\ (exists rows,
        Rolling._calculate_rolling_windows (sv := stable_sort_values)
          Sample.cfg Sample.metrics_dup 2023 3 = inr rows)
  /\ Permutation
       (Rolling.team_history (sv := stable_sort_values) Sample.metrics_dup
          "KC" 3)
       [Sample.kc1; Sample.kc1; Sample.kc2].
Proof.
  assert (H : has_duplicate_week Sample.metrics_dup = true) by reflexivity.
  assert (Hv : valid_alpha Sample.cfg)
    by (split; reflexivity || discriminate).
  split; [exact H|]. split; [exact Hv|].
  destruct (duplicate_weeks_enter_the_windows (sv := stable_sort_values)
              Sample.cfg Sample.metrics_dup 2023 3 H)
    as (Hrows & _ & Hperm & _).
  split.
  - destruct (Hrows Hv) as [rows [Hr _]]. now exists rows.
  - exact (Hperm "KC" 3).
Defined.

(** C7, as stated, fails: with KC's week-1 row entered twice the aggregator
    returns a table, and KC's week-3 L3 mean counts that row twice. *)
Lemma duplicate_weeks_no_error :
  has_duplicate_week Sample.metrics_dup = true
  /\ (forall e,
        Rolling._calculate_rolling_windows (sv := stable_sort_values)
          Sample.cfg Sample.metrics_dup 2023 3
        <> inl e)
  /\ exists row,
       Rolling.rolling_feature_row (sv := stable_sort_values) Sample.cfg
         Sample.metrics_dup "KC" 2023 3 = inr row
       /\ dict_get row "off_epa_play_l3"
          = Some (VFloat (fin (mean [0.2; 0.2; 0.4] * 1))%Q).
Proof.
  split; [reflexivity|]. split; [discriminate|].
  eexists. split; reflexivity.
Qed.

(** ** Empty schedule ranges *)

Lemma flat_map_nil {A B} (f : A -> list B) (l : list A) :
  (forall x, In x l -> f x = []) -> flat_map f l = [].
Proof.
  induction l as [|x l IH]; simpl; auto.
  intro H. rewrite (H x), IH; auto.
Qed.

Lemma filter_nil_all {A} (p : A -> bool) (l : list A) :
  filter p l = [] -> forall x, In x l -> p x = false.
Proof.
  induction l as [|y l IH]; simpl; [tauto|].
  destruct (p y) eqn:E; [discriminate|].
  intros H x [<-|Hx]; auto.
Qed.

Lemma load_all_schedules_none (src : DataSource) (start_season end_season
    start_week end_week : Z) :
  (forall s, start_season <= s <= end_season ->
             exists e, load_schedules src s = inl e) ->
  Assemble._load_all_schedules src start_season end_season start_week end_week
  = inl (ValueError "No schedules data available").
Proof.
  intro Hfail. unfold Assemble._load_all_schedules.
  rewrite flat_map_nil; auto.
  intros s Hs. apply range_In in Hs.
  destruct (Hfail s) as [e ->]; [lia | reflexivity].
Qed.

Lemma load_all_schedules_some (src : DataSource) (start_season end_season
    start_week end_week s : Z) (sched : list Game) :
  start_season <= s <= end_season ->
  load_schedules src s = inr sched ->
  exists all_schedules,
    Assemble._load_all_schedules src start_season end_season start_week
      end_week = inr all_schedules.
Proof.
  intros Hs Hload. unfold Assemble._load_all_schedules.
  destruct (flat_map _ _) as [|x l] eqn:E; [|eauto].
  exfalso.
  assert (Hin : In sched
            (flat_map (fun season => match load_schedules src season with
                                     | inr season_schedules => [season_schedules]
                                     | inl _ => []
                                     end)
                      (range start_season (end_season + 1)))).
  { apply in_flat_map. exists s. split; [apply range_In; lia|].
    rewrite Hload. now left. }
  rewrite E in Hin. destruct Hin.
Qed.

(** C8, as the code has it. A request left with zero Contests fails only
    when no season of its range loads (with the [ValueError] of
    [_load_all_schedules]); when a season loads, the assembler returns the
    modeling table without rows. *)
Theorem empty_range_error_or_empty_table {sv : SortValues}
    (self : Config) (src : DataSource) (season week : Z)
    (use_historical_data : bool) :
  contests_in_range src season week use_historical_data = [] ->
  let start_season := if use_historical_data then 2020 else season in
  ((forall s, start_season <= s <= season ->
              exists e, load_schedules src s = inl e) ->
   Assemble.assemble_modeling_table self src season week use_historical_data
   = inl (ValueError "No schedules data available"))
  /\ (forall s sched,
        start_season <= s <= season ->
        load_schedules src s = inr sched ->
        Assemble.assemble_modeling_table self src season week
          use_historical_data
        = inr empty_modeling_table).
Proof.
  intros Hzero start_season. split.
  - intro Hfail. unfold Assemble.assemble_modeling_table.
    fold start_season.
    now rewrite (load_all_schedules_none src start_season season 1 week Hfail).
  - intros s sched Hs Hload.
    destruct (load_all_schedules_some src start_season season 1 week s sched
                Hs Hload) as [all_schedules Hall].
    unfold contests_in_range in Hzero. fold start_season in Hzero.
    unfold Assemble.assemble_modeling_table. fold start_season.
    rewrite Hall in *. cbn [bind].
    rewrite flat_map_nil.
    + reflexivity.
    + intros g Hg.
      pose proof (filter_nil_all _ _ Hzero g Hg) as Hfut.
      apply negb_false_iff in Hfut. now rewrite Hfut.
Qed.

Lemma empty_range_error_or_empty_table_witness :
  contests_in_range Sample.late_source 2023 1 false = []
  /\ Assemble.assemble_modeling_table (sv := stable_sort_values)
      Sample.cfg Sample.late_source 2023 1
       false
     = inr empty_modeling_table.
Proof.
  assert (H : contests_in_range Sample.late_source 2023 1 false = [])
    by reflexivity.
  split; [exact H|].
  apply (proj2 (empty_range_error_or_empty_table (sv := stable_sort_values)
      Sample.cfg
                  Sample.late_source 2023 1 false H)
               2023 [Sample.game3; Sample.game4]).
  - lia.
  - reflexivity.
Defined.

(** C8, as stated, fails: season 2023 loads, both of its Contests lie after
    week 1, and the request for week 1 returns a table without rows. *)
Lemma empty_range_returns_empty_table :
  contests_in_range Sample.late_source 2023 1 false = []
  /\ Assemble.assemble_modeling_table (sv := stable_sort_values)
      Sample.cfg Sample.late_source 2023 1
       false
     = inr empty_modeling_table
  /\ forall e,
       Assemble.assemble_modeling_table (sv := stable_sort_values)
           Sample.cfg Sample.late_source 2023 1
         false
       <> inl e.
Proof.
  split; [reflexivity|]. split; [reflexivity | discriminate].
Qed.

(** ** The assembler and the [home] cell *)

Lemma sos_row_keys (rolling_features : list dict) (row r : dict) :
  Situational.sos_row rolling_features row = inr r ->
  keys r = [ "season"; "week"; "team"; "opponent_off_epa_l3";
             "opponent_def_epa_allowed_l3"; "opponent_off_success_l3";
             "opponent_def_success_allowed_l3"; "sos_adjustment_factor" ].
Proof.
  unfold Situational.sos_row.
  destruct (series_getitem row "team"); cbn [bind]; [discriminate|].
  destruct (series_getitem row "opponent"); cbn [bind]; [discriminate|].
  destruct (series_getitem row "week"); cbn [bind]; [discriminate|].
  destruct (df_where _ _ _) as [|team_rolling]; cbn [bind]; [discriminate|].
  destruct (df_where _ _ _) as [|opponent_rolling]; cbn [bind];
    [discriminate|].
  destruct (series_getitem row "season"); cbn [bind ret]; [discriminate|].
  destruct team_rolling, opponent_rolling; intro H; inversion H; reflexivity.
Qed.

Lemma basic_situational_no_home
    {sv : SortValues} (schedules_df : list Game) (season week : Z)
    (l : dict) :
  In l (Situational._calculate_basic_situational_features schedules_df season
          week) ->
  dict_get l "home" = None.
Proof.
  unfold Situational._calculate_basic_situational_features.
  rewrite in_flat_map. intros [g [_ [<-|[<-|[]]]]]; reflexivity.
Qed.

Lemma dict_get_filled (cols : list string) (f : string -> value)
    (k : string) :
  ~ In k cols -> dict_get (map (fun c => (c, f c)) cols) k = None.
Proof.
  intro H. apply dict_get_None. unfold keys. rewrite map_map. simpl.
  now rewrite map_id.
Qed.

Lemma merge_left_no_home (left right rows : list dict) (on : list string) :
  Forall (fun l => dict_get l "home" = None) left ->
  (forall r0, hd_error right = Some r0 -> ~ In "home" (keys r0)) ->
  Situational.merge_left left right on = inr rows ->
  Forall (fun s => dict_get s "home" = None) rows.
Proof.
  intros Hleft Hright. unfold Situational.merge_left.
  destruct left as [|l0 left0]; [discriminate|].
  destruct right as [|r0 right0]; [discriminate|].
  assert (Hcols : ~ In "home"
            (filter (fun c => negb (str_in c on)) (keys r0))).
  { rewrite filter_In. intros [Hin _]. now apply (Hright r0). }
  clear Hright.
  set (right := r0 :: right0) in *. set (left := l0 :: left0) in *.
  clearbody left right.
  intro H. injection H as <-.
  apply Forall_forall. intros s Hs.
  apply in_flat_map in Hs. destruct Hs as [l [Hl Hs]].
  rewrite Forall_forall in Hleft. specialize (Hleft l Hl).
  destruct (filter _ right) as [|m ms].
  - destruct Hs as [<-|[]].
    now rewrite dict_get_app, Hleft, dict_get_filled.
  - assert (Hr : exists r,
              s = l ++ map (fun c => (c, series_get r c (VFloat NaN)))
                           (filter (fun c => negb (str_in c on)) (keys r0))).
    { destruct Hs as [<-|Hs]; [eauto|].
      apply in_map_iff in Hs. destruct Hs as [r [<- _]]. eauto. }
    destruct Hr as [r ->].
    rewrite dict_get_app, Hleft.
    now apply (dict_get_filled _ (fun c => series_get r c (VFloat NaN))).
Qed.

(** No row of the situational table has a [home] cell. *)
Lemma situational_features_no_home
    {sv : SortValues} (self : Config) (src : DataSource)
    (season week : Z) (situational_features : list dict) :
  Situational.calculate_situational_features self src season week
  = inr situational_features ->
  Forall (fun s => dict_get s "home" = None) situational_features.
Proof.
  unfold Situational.calculate_situational_features.
  destruct (_ || _); [discriminate|].
  destruct (_ || _); [discriminate|].
  destruct (load_schedules src season) as [|schedules_df]; cbn [bind];
    [discriminate|].
  destruct (Situational._calculate_sos_adjustments _ _ _ _ _)
    as [|sos_features] eqn:Esos; cbn [bind]; [discriminate|].
  apply merge_left_no_home.
  - apply Forall_forall. intros l Hl.
    now apply basic_situational_no_home in Hl.
  - intros r0 Hr0. unfold Situational._calculate_sos_adjustments in Esos.
    destruct (Rolling.calculate_rolling_features _ _ _ _)
      as [|rolling_features]; cbn [bind] in Esos; [discriminate|].
    apply mapM_Forall2 in Esos.
    destruct Esos as [|l r ls rs Hrow _]; [discriminate|].
    simpl in Hr0. inversion Hr0; subst r0.
    rewrite (sos_row_keys _ _ _ Hrow). simpl.
    intros [H|[H|[H|[H|[H|[H|[H|[H|[]]]]]]]]]; discriminate.
Qed.

Lemma combine_without_home (rolling_data situational_data : dict)
    (game_data : Game) (team_type : string) :
  dict_get situational_data "home" = None ->
  exists e, Assemble._combine_team_features rolling_data situational_data
              game_data team_type = inl e.
Proof.
  intro H. unfold Assemble._combine_team_features.
  destruct (series_getitem rolling_data "team"); cbn [bind]; eauto.
  destruct (series_getitem situational_data "opponent"); cbn [bind]; eauto.
  unfold series_getitem at 1. rewrite H. cbn [bind raise]. eauto.
Qed.

Lemma first_row_of_team_In (df : list dict) (team : string) (r : dict) :
  Assemble.first_row_of_team df team = inr (Some r) -> In r df.
Proof.
  unfold Assemble.first_row_of_team, df_where.
  destruct df as [|r0 df0]; cbn [bind ret]; [discriminate|].
  set (df := r0 :: df0). clearbody df.
  intro H. injection H as Hhd.
  destruct (filter _ df) as [|x l] eqn:E; [discriminate|].
  simpl in Hhd. injection Hhd as ->.
  assert (Hin : In r (r :: l)) by now left.
  rewrite <- E in Hin. now apply filter_In in Hin.
Qed.

(** Whatever the inputs, [_assemble_game_features] yields no row: either a
    selection is empty, or combining raises on the missing [home] cell and
    the exception is swallowed. *)
Lemma assemble_game_features_None
    {sv : SortValues} (self : Config) (src : DataSource)
    (game : Game) (season week : Z) :
  Assemble._assemble_game_features self src game season week = None.
Proof.
  unfold Assemble._assemble_game_features.
  destruct (Rolling.calculate_rolling_features self src season week)
    as [|rolling_features]; cbn [bind try_or_None]; auto.
  destruct (Situational.calculate_situational_features self src season week)
    as [|situational_features] eqn:Esit; cbn [bind try_or_None]; auto.
  pose proof (situational_features_no_home _ _ _ _ _ Esit) as Hno.
  rewrite Forall_forall in Hno.
  assert (Hcomb : forall team r s t,
            Assemble.first_row_of_team situational_features team
            = inr (Some s) ->
            exists e, Assemble._combine_team_features r s game t = inl e).
  { intros team r s t Hs. apply combine_without_home, Hno.
    now apply first_row_of_team_In in Hs. }
  destruct (Assemble.first_row_of_team rolling_features (g_home_team game))
    as [|home_rolling]; cbn [bind try_or_None]; auto.
  destruct (Assemble.first_row_of_team situational_features
              (g_home_team game)) as [|home_situational] eqn:Ehs;
    cbn [bind try_or_None]; auto.
  assert (Hhome :
    match home_rolling, home_situational with
    | Some r, Some s =>
        home_features <- Assemble._combine_team_features r s game "home" ;;
        ret [home_features]
    | _, _ => ret []
    end = ret [] \/
    exists e,
    match home_rolling, home_situational with
    | Some r, Some s =>
        home_features <- Assemble._combine_team_features r s game "home" ;;
        ret [home_features]
    | _, _ => ret []
    end = inl e).
  { destruct home_rolling as [r|], home_situational as [s|]; auto.
    destruct (Hcomb _ r s "home" Ehs) as [e ->]. right.
    exists e. reflexivity. }
  destruct Hhome as [-> | [e ->]]; cbn [bind ret try_or_None]; auto.
  destruct (Assemble.first_row_of_team rolling_features (g_away_team game))
    as [|away_rolling]; cbn [bind try_or_None]; auto.
  destruct (Assemble.first_row_of_team situational_features
              (g_away_team game)) as [|away_situational] eqn:Eas;
    cbn [bind try_or_None]; auto.
  destruct away_rolling as [r|], away_situational as [s|];
    cbn [bind ret try_or_None app is_empty]; auto.
  destruct (Hcomb _ r s "away" Eas) as [e ->]. reflexivity.
Qed.

(** ** Row selection in the assembler *)

(** Hence a table the assembler returns never has a row. *)
Lemma assemble_modeling_table_no_rows
    {sv : SortValues} (self : Config) (src : DataSource)
    (season week : Z) (use_historical_data : bool) (table : Frame) :
  Assemble.assemble_modeling_table self src season week use_historical_data
  = inr table ->
  table = empty_modeling_table.
Proof.
  unfold Assemble.assemble_modeling_table.
  destruct (Assemble._load_all_schedules _ _ _ _ _) as [|all_schedules];
    cbn [bind]; [discriminate|].
  rewrite flat_map_nil.
  - intro H. now injection H as <-.
  - intros g _. rewrite assemble_game_features_None.
    now destruct (Assemble.is_future season week g).
Qed.

(** C9, evaluated on the week-2 Contest KC v DEN of the sample season. The
    rolling table holds KC's row for week 2, yet the rows the assembler
    selects for KC are the first ones of the team: the rolling row keyed to
    week 1 (all zeros) and the situational row of the week-1 Contest against
    BUF. The situational row has no [home] cell, so combining raises
    [KeyError] and the Contest contributes no row at all; the last holds
    for every Contest, every source and every sort. (No team of the sample
    has two rows in one week, so the sample is run with the insertion
    sort.) *)
Theorem assembler_selects_first_row_of_team :
  (forall (sv : SortValues) self src game season week,
      Assemble._assemble_game_features self src game season week = None)
  /\ exists rolling_features situational_features r s week2_row,
    Rolling.calculate_rolling_features (sv := stable_sort_values) Sample.cfg
      Sample.source 2023 2
    = inr rolling_features
    /\ Situational.calculate_situational_features (sv := stable_sort_values)
         Sample.cfg Sample.source 2023 2
       = inr situational_features
    /\ Rolling.rolling_feature_row (sv := stable_sort_values) Sample.cfg
         Sample.metrics "KC" 2023 2
       = inr week2_row
    /\ In week2_row rolling_features
    /\ dict_get week2_row "week" = Some (VInt 2)
    /\ Assemble.first_row_of_team rolling_features "KC" = inr (Some r)
    /\ dict_get r "week" = Some (VInt 1)
    /\ r = Rolling._create_default_rolling_features "KC" 2023 1
    /\ Assemble.first_row_of_team situational_features "KC" = inr (Some s)
    /\ dict_get s "week" = Some (VInt 1)
    /\ dict_get s "opponent" = Some (VStr "BUF")
    /\ dict_get s "home" = None
    /\ Assemble._combine_team_features r s Sample.game2 "home"
       = inl (KeyError "home")
    /\ Assemble._assemble_game_features (sv := stable_sort_values) Sample.cfg
         Sample.source Sample.game2 2023 2
       = None.
Proof.
  split; [intro sv; exact assemble_game_features_None|].
  do 5 eexists.
  split; [vm_compute; reflexivity|].
  split; [vm_compute; reflexivity|].
  split; [vm_compute; reflexivity|].
  split; [vm_compute; auto 10|].
  split; [reflexivity|].
  split; [vm_compute; reflexivity|].
  split; [reflexivity|].
  split; [reflexivity|].
  split; [vm_compute; reflexivity|].
  repeat split; vm_compute; reflexivity.
Qed.

(** * Further properties of the feature code *)

(** ** Shape of the rolling table *)

Lemma unique_from_NoDup (seen l : list string) : NoDup (unique_from seen l).
Proof.
  revert seen. induction l as [|x l IH]; intro seen; simpl; [constructor|].
  destruct (str_in x seen); auto.
  constructor; auto. rewrite unique_from_In. simpl. tauto.
Qed.

Lemma range_NoDup (lo hi : Z) : NoDup (range lo hi).
Proof.
  unfold range. apply NoDup_map_NoDup_ForallPairs; [|apply seq_NoDup].
  intros i j _ _ H. lia.
Qed.

Lemma range_length (lo hi : Z) : length (range lo hi) = Z.to_nat (hi - lo).
Proof. unfold range. now rewrite length_map, length_seq. Qed.

Lemma flat_map_const_length {A B} (f : A -> list B) (l : list A) (n : nat) :
  (forall a, length (f a) = n) -> length (flat_map f l) = (length l * n)%nat.
Proof.
  intro H. induction l as [|a l IH]; simpl; auto.
  now rewrite length_app, H, IH.
Qed.

Lemma NoDup_product {A B} (l1 : list A) (l2 : list B) :
  NoDup l1 -> NoDup l2 ->
  NoDup (flat_map (fun a => map (fun b => (a, b)) l2) l1).
Proof.
  intros H1 H2. induction H1 as [|a l1 Hnotin _ IH]; simpl; [constructor|].
  apply NoDup_app; auto.
  - apply NoDup_map_NoDup_ForallPairs; auto.
    intros x y _ _ H. now inversion H.
  - intros [a' b'] Hin Hin'.
    apply in_map_iff in Hin. destruct Hin as [b [Hb _]]. inversion Hb; subst.
    apply in_flat_map in Hin'. destruct Hin' as [a0 [Ha0 Hin']].
    apply in_map_iff in Hin'. destruct Hin' as [b0 [Hb0 _]].
    inversion Hb0; subst. contradiction.
Qed.

Lemma map_flat_map {A B C} (g : B -> C) (f : A -> list B) (l : list A) :
  map g (flat_map f l) = flat_map (fun a => map g (f a)) l.
Proof.
  induction l as [|a l IH]; simpl; auto. now rewrite map_app, IH.
Qed.

(** A table that is returned has the row of every team and week. *)
Lemma rolling_table_has_row
    {sv : SortValues} (self : Config) (tgm : list TeamGameMetric)
    (season week : Z) (rows : list dict) (team : string) (W : Z) :
  Rolling._calculate_rolling_windows self tgm season week = inr rows ->
  In team (map tg_team tgm) -> 1 <= W <= week ->
  exists row,
    Rolling.rolling_feature_row self tgm team season W = inr row
    /\ In row rows.
Proof.
  intros Hrows Hteam HW.
  destruct (Rolling.rolling_feature_row self tgm team season W)
    as [err|row] eqn:Erow.
  - exfalso. revert Hrows. unfold Rolling._calculate_rolling_windows.
    destruct tgm as [|r0 tgm0]; [discriminate|].
    set (table := r0 :: tgm0) in *. clearbody table.
    destruct (mapM _ (unique _)) as [e|per_team] eqn:E; cbn [bind ret];
      [discriminate|]. intros _.
    destruct (mapM_In _ _ _ E) as [Hall _].
    destruct (Hall team (proj2 (unique_In _ _) Hteam)) as [rs [Hrs _]].
    destruct (mapM_In _ _ _ Hrs) as [Hall' _].
    destruct (Hall' W) as [r' [Hr' _]]; [apply range_In; lia|].
    congruence.
  - exists row. split; [reflexivity|].
    apply (rolling_table_rows self tgm season week rows row Hrows).
    now exists team, W.
Qed.

Lemma Forall2_map_eq {A B C} (g : B -> C) (h : A -> C) (l : list A)
    (ys : list B) :
  Forall2 (fun x y => g y = h x) l ys -> map g ys = map h l.
Proof. induction 1; simpl; congruence. Qed.

(** The (team, week) cells of the table, in row order: team by team and,
    within a team, week by week. *)
Lemma rolling_table_ids
    {sv : SortValues} (self : Config) (tgm : list TeamGameMetric)
    (season week : Z) (rows : list dict) :
  Rolling._calculate_rolling_windows self tgm season week = inr rows ->
  map (fun r => (dict_get r "team", dict_get r "week")) rows
  = flat_map (fun team => map (fun W => (Some (VStr team), Some (VInt W)))
                              (range 1 (week + 1)))
             (unique (map tg_team tgm)).
Proof.
  unfold Rolling._calculate_rolling_windows.
  destruct tgm as [|r0 tgm0]; [discriminate|].
  set (table := r0 :: tgm0). clearbody table.
  destruct (mapM _ (unique _)) as [e|per_team] eqn:E; cbn [bind ret];
    [discriminate|].
  intro H. injection H as <-.
  apply mapM_Forall2 in E.
  induction E as [|team rs teams per_team Hrs _ IH]; [reflexivity|].
  cbn [concat flat_map]. rewrite map_app, IH. f_equal.
  apply mapM_Forall2 in Hrs. apply Forall2_map_eq.
  eapply Forall2_impl; [|exact Hrs].
  intros W r Hr. cbv beta in Hr.
  destruct (rolling_feature_row_ids self table team season W r Hr)
    as (_ & -> & ->).
  reflexivity.
Qed.

Lemma rolling_windows_length
    {sv : SortValues} (self : Config) (tgm : list TeamGameMetric)
    (season week : Z) (rows : list dict) :
  Rolling._calculate_rolling_windows self tgm season week = inr rows ->
  length rows = (length (unique (map tg_team tgm)) * Z.to_nat week)%nat.
Proof.
  intro Hrows.
  rewrite <- (length_map (fun r => (dict_get r "team", dict_get r "week"))).
  rewrite (rolling_table_ids self tgm season week rows Hrows).
  rewrite (flat_map_const_length _ _ (Z.to_nat week)); auto.
  intro team. rewrite length_map, range_length. f_equal. lia.
Qed.

(** X1. When [_calculate_rolling_windows] succeeds, the table has one row
    for each team of the metrics table and each week 1..week, and nothing
    else: the row count is teams times weeks, every row carries the
    requested season, and no two rows share (team, week). *)
Theorem rolling_table_one_row_per_team_week
    {sv : SortValues} (self : Config) (tgm : list TeamGameMetric)
    (season week : Z) (rows : list dict) :
  Rolling._calculate_rolling_windows self tgm season week = inr rows ->
  length rows = (length (unique (map tg_team tgm)) * Z.to_nat week)%nat
  /\ Forall (fun r => dict_get r "season" = Some (VInt season)) rows
  /\ NoDup (map (fun r => (dict_get r "team", dict_get r "week")) rows).
Proof.
  intro Hrows. split; [exact (rolling_windows_length _ _ _ _ _ Hrows)|].
  split.
  - apply Forall_forall. intros r Hr.
    apply (rolling_table_rows self tgm season week rows r Hrows) in Hr.
    destruct Hr as (team & W & _ & _ & Hrow).
    now apply (rolling_feature_row_ids self tgm team season W r).
  - rewrite (rolling_table_ids self tgm season week rows Hrows).
    rewrite (flat_map_ext _
               (fun team => map (fun p => (Some (VStr (fst p)),
                                           Some (VInt (snd p))))
                              (map (fun W => (team, W))
                                   (range 1 (week + 1))))).
    + rewrite <- map_flat_map.
      apply NoDup_map_NoDup_ForallPairs.
      * intros [t1 w1] [t2 w2] _ _ H. simpl in H. now inversion H.
      * apply NoDup_product; [apply unique_from_NoDup | apply range_NoDup].
    + intro team. now rewrite map_map.
Qed.

Lemma rolling_table_one_row_per_team_week_witness :
  exists rows,
    Rolling._calculate_rolling_windows (sv := stable_sort_values) Sample.cfg
      Sample.metrics 2023 3
    = inr rows
    /\ length rows = 9%nat.
Proof.
  eexists. split; [reflexivity|].
  exact (proj1 (rolling_table_one_row_per_team_week (sv := stable_sort_values)
                  Sample.cfg Sample.metrics 2023 3 _ eq_refl)).
Defined.

(** With rows in the table, the windows are computed exactly when the
    smoothing factor is valid or no row lies before the last week asked
    for (every history is then empty, and [ewm] is never called). *)
Lemma rolling_windows_succeed_iff
    {sv : SortValues} (self : Config) (tgm : list TeamGameMetric)
    (season week : Z) :
  tgm <> [] -> 1 <= week ->
  (exists rows,
     Rolling._calculate_rolling_windows self tgm season week = inr rows)
  <-> (valid_alpha self \/ forall r, In r tgm -> week <= tg_week r).
Proof.
  intros Hne Hweek. split.
  - intros [rows Hrows].
    destruct (Qle_bool (ewma_alpha self) 0 || Qltb 1 (ewma_alpha self))
      eqn:E; [|left; now apply alpha_check].
    right. intros r Hr.
    destruct (Z.lt_ge_cases (tg_week r) week) as [Hlt|Hge]; [|lia].
    exfalso.
    destruct (rolling_table_has_row self tgm season week rows (tg_team r)
                week Hrows) as [row [Hrow _]];
      [now apply in_map | lia |].
    pose proof (rolling_feature_row_outcome self tgm (tg_team r) season week)
      as H.
    rewrite Hrow in H. destruct H as ([Hnil|Hv] & _).
    + assert (Hin : In r (Rolling.team_history tgm (tg_team r) week))
        by (apply team_history_In; auto).
      rewrite Hnil in Hin. destruct Hin.
    + apply alpha_check in Hv. congruence.
  - intro Hok. apply rolling_windows_total; auto.
    intros team W _ HW.
    destruct Hok as [Hv|Hlate]; [now right|]. left.
    destruct (Rolling.team_history tgm team W) as [|r hist] eqn:E; auto.
    exfalso.
    assert (Hin : In r (Rolling.team_history tgm team W))
      by (rewrite E; now left).
    apply team_history_In in Hin. destruct Hin as (Hr & _ & Hlt).
    specialize (Hlate r Hr). lia.
Qed.

(** X2. [calculate_rolling_features] returns a table exactly when the
    season is in 2000..2030, the week in 1..22, the metrics load as a table
    with at least one row, and the smoothing factor is valid or no row of
    the table lies before the week asked for. The table is never empty: it
    holds the row of every team and week. Otherwise the error is, in this
    order, the one of the season, of the week, of the loader, of the
    column-less table, or of the smoothing factor. *)
Theorem rolling_features_succeed_iff
    {sv : SortValues} (self : Config) (src : DataSource) (season week : Z) :
  ((exists rows,
      Rolling.calculate_rolling_features self src season week = inr rows)
   <-> (2000 <= season <= 2030 /\ 1 <= week <= 22
        /\ exists tgm,
             load_team_game_metrics src season week = inr tgm
             /\ tgm <> []
             /\ (valid_alpha self
                 \/ forall r, In r tgm -> week <= tg_week r)))
  /\ (forall rows,
        Rolling.calculate_rolling_features self src season week = inr rows ->
        rows <> []
        /\ exists tgm,
             load_team_game_metrics src season week = inr tgm
             /\ length rows
                = (length (unique (map tg_team tgm)) * Z.to_nat week)%nat
             /\ forall r,
                  In r rows <->
                  exists team W,
                    In team (map tg_team tgm) /\ 1 <= W <= week
                    /\ Rolling.rolling_feature_row self tgm team season W
                       = inr r)
  /\ (forall err,
        Rolling.calculate_rolling_features self src season week = inl err ->
        (~ 2000 <= season <= 2030 /\ err = Rolling.invalid_season season)
        \/ (2000 <= season <= 2030 /\ ~ 1 <= week <= 22
            /\ err = Rolling.invalid_week week)
        \/ (2000 <= season <= 2030 /\ 1 <= week <= 22
            /\ (load_team_game_metrics src season week = inl err
                \/ (load_team_game_metrics src season week = inr []
                    /\ err = KeyError "team")
                \/ (err = alpha_error /\ ~ valid_alpha self)))).
Proof.
  unfold Rolling.calculate_rolling_features.
  destruct (Z.ltb_spec season 2000) as [Hs1|Hs1]; cbn [orb].
  { split; [split|split].
    - intros [rows H]. discriminate.
    - intros (Hs & _). lia.
    - discriminate.
    - intros err H. injection H as <-. left. split; [lia | reflexivity]. }
  rewrite Z.gtb_ltb.
  destruct (Z.ltb_spec 2030 season) as [Hs2|Hs2].
  { split; [split|split].
    - intros [rows H]. discriminate.
    - intros (Hs & _). lia.
    - discriminate.
    - intros err H. injection H as <-. left. split; [lia | reflexivity]. }
  destruct (Z.ltb_spec week 1) as [Hw1|Hw1]; cbn [orb].
  { split; [split|split].
    - intros [rows H]. discriminate.
    - intros (_ & Hw & _). lia.
    - discriminate.
    - intros err H. injection H as <-. right. left.
      split; [lia|]. split; [lia | reflexivity]. }
  rewrite Z.gtb_ltb.
  destruct (Z.ltb_spec 22 week) as [Hw2|Hw2].
  { split; [split|split].
    - intros [rows H]. discriminate.
    - intros (_ & Hw & _). lia.
    - discriminate.
    - intros err H. injection H as <-. right. left.
      split; [lia|]. split; [lia | reflexivity]. }
  destruct (load_team_game_metrics src season week) as [e|tgm] eqn:El;
    cbn [bind].
  { split; [split|split].
    - intros [rows H]. discriminate.
    - intros (_ & _ & tgm & H & _). discriminate.
    - discriminate.
    - intros err H. injection H as <-. right. right.
      split; [lia|]. split; [lia|]. now left. }
  split; [split|split].
  - intros [rows Hrows]. split; [lia|]. split; [lia|].
    exists tgm. split; [reflexivity|].
    assert (Hne : tgm <> []).
    { intro Hnil. subst tgm. discriminate. }
    split; [exact Hne|].
    apply (rolling_windows_succeed_iff self tgm season week Hne Hw1).
    now exists rows.
  - intros (_ & _ & tgm' & Hload & Hne & Hok).
    injection Hload as <-.
    now apply (rolling_windows_succeed_iff self tgm season week Hne Hw1).
  - intros rows Hrows.
    pose proof (rolling_windows_length self tgm season week rows Hrows)
      as Hlen.
    split.
    + intro Hnil. rewrite Hnil in Hlen. simpl in Hlen.
      destruct tgm as [|r0 tgm0]; [discriminate|].
      unfold unique in Hlen. cbn [map unique_from str_in existsb length]
        in Hlen.
      lia.
    + exists tgm. split; [reflexivity|]. split; [exact Hlen|].
      intro r. now apply rolling_table_rows.
  - intros err Herr. right. right. split; [lia|]. split; [lia|]. right.
    destruct (rolling_windows_error self tgm season week err Herr)
      as [[-> ->]|(-> & Hinv & _)]; [left | right]; auto.
Qed.

Lemma rolling_features_succeed_iff_witness :
  exists rows,
    Rolling.calculate_rolling_features (sv := stable_sort_values) Sample.cfg
      Sample.source 2023 2 = inr rows
    /\ length rows = 6%nat.
Proof.
  destruct (rolling_features_succeed_iff (sv := stable_sort_values)
              Sample.cfg Sample.source 2023 2) as (_ & Hrows & _).
  eexists. split; [reflexivity|].
  destruct (Hrows _ eq_refl) as (_ & tgm & Hload & Hlen & _).
  injection Hload as <-. exact Hlen.
Defined.

(** ** Exponentially weighted averages *)

Lemma ewm_sums_bounds (a lo hi : Q) (xs : list Q) (w : Q) :
  (0 <= 1 - a)%Q -> (0 <= w)%Q ->
  Forall (fun x => lo <= x <= hi)%Q xs ->
  let '(num, den) := Rolling.ewm_sums a xs w in
  (lo * den <= num /\ num <= hi * den /\ 0 <= den
   /\ (xs <> [] -> w <= den))%Q.
Proof.
  intros Ha. revert w. induction xs as [|x xs IH]; intros w Hw Hall; simpl.
  - repeat split; try lra. congruence.
  - inversion Hall as [|? ? Hx Hrest]; subst.
    assert (Hw' : (0 <= w * (1 - a))%Q) by nra.
    specialize (IH (w * (1 - a))%Q Hw' Hrest).
    destruct (Rolling.ewm_sums a xs (w * (1 - a))) as [num den].
    destruct IH as (H1 & H2 & H3 & _).
    split; [nra|]. split; [nra|]. split; [nra|]. intros _. nra.
Qed.

(** X3. An EWMA cell is NaN below [min_periods] observations; otherwise,
    for a smoothing constant in (0, 1], it is a number between the smallest
    and the largest value of the series. *)
Theorem ewm_mean_between_extremes
    (a : Q) (min_periods : nat) (xs : list Q) (lo hi : Q) :
  (0 < a <= 1)%Q ->
  xs <> [] ->
  Forall (fun x => lo <= x <= hi)%Q xs ->
  ((length xs < min_periods)%nat ->
   Rolling.ewm_mean_last a min_periods xs = VFloat NaN)
  /\ ((min_periods <= length xs)%nat ->
      exists q, Rolling.ewm_mean_last a min_periods xs = VFloat (fin q)
                /\ (lo <= q <= hi)%Q).
Proof.
  intros Ha Hne Hall. unfold Rolling.ewm_mean_last. split.
  - intro Hlt. apply Nat.ltb_lt in Hlt. now rewrite Hlt.
  - intro Hge. apply Nat.ltb_ge in Hge. rewrite Hge.
    assert (Hrev : Forall (fun x => lo <= x <= hi)%Q (rev xs)).
    { apply Forall_forall. intros x Hx. apply in_rev in Hx.
      rewrite Forall_forall in Hall. now apply Hall. }
    assert (Hrne : rev xs <> []).
    { intro H. apply (f_equal (@rev Q)) in H. rewrite rev_involutive in H.
      simpl in H. congruence. }
    pose proof (ewm_sums_bounds a lo hi (rev xs) 1 ltac:(lra) ltac:(lra) Hrev)
      as Hb.
    destruct (Rolling.ewm_sums a (rev xs) 1) as [num den].
    destruct Hb as (H1 & H2 & H3 & H4). specialize (H4 Hrne).
    eexists. split; [reflexivity|].
    assert (Hden : (0 < den)%Q) by lra.
    split.
    + apply Qle_shift_div_l; auto.
    + apply Qle_shift_div_r; auto.
Qed.

Lemma ewm_mean_between_extremes_witness :
  exists q, Rolling.ewm_mean_last 0.3 1 [0.2; 0.4]%Q = VFloat (fin q)
            /\ (0.2 <= q <= 0.4)%Q.
Proof.
  apply (ewm_mean_between_extremes 0.3 1 [0.2; 0.4]%Q 0.2 0.4).
  - split; reflexivity || discriminate.
  - discriminate.
  - repeat constructor; discriminate.
  - simpl. lia.
Defined.

(** ** Rest days and the situational rows *)

Lemma rest_days_same_prior {sv : SortValues}
    (games1 games2 : list Game) (team : string) (current_week : Z) :
  (forall g, In g (prior_games games1 team current_week)
             <-> In g (prior_games games2 team current_week)) ->
  Situational._calculate_rest_days games1 team current_week
  = Situational._calculate_rest_days games2 team current_week.
Proof.
  intro Hsame.
  destruct (rest_days_cases games1 team current_week)
    as [[Hnil1 ->]|[g1 [Hg1 [Hmax1 ->]]]];
  destruct (rest_days_cases games2 team current_week)
    as [[Hnil2 ->]|[g2 [Hg2 [Hmax2 ->]]]].
  - reflexivity.
  - apply Hsame in Hg2. rewrite Hnil1 in Hg2. destruct Hg2.
  - apply Hsame in Hg1. rewrite Hnil2 in Hg1. destruct Hg1.
  - assert (g_week g1 = g_week g2).
    { apply Z.le_antisymm.
      - apply Hmax2, Hsame, Hg1.
      - apply Hmax1, Hsame, Hg2. }
    congruence.
Qed.

(** X4. Rest-days looks at nothing but the team's Contests of earlier weeks:
    two schedules with the same such Contests (in any order, whatever else
    they hold) give the same rest-days. *)
Theorem rest_days_only_from_earlier_contests {sv : SortValues}
    (games1 games2 : list Game) (team : string) (current_week : Z) :
  (forall g, In g (prior_games games1 team current_week)
             <-> In g (prior_games games2 team current_week)) ->
  Situational._calculate_rest_days games1 team current_week
  = Situational._calculate_rest_days games2 team current_week.
Proof. apply rest_days_same_prior. Qed.

Lemma rest_days_only_from_earlier_contests_witness :
  Situational._calculate_rest_days (sv := stable_sort_values)
      [Sample.game1; Sample.game2] "KC" 2
  = Situational._calculate_rest_days (sv := stable_sort_values)
      [Sample.game4; Sample.game3; Sample.game2; Sample.game1] "KC" 2.
Proof.
  apply rest_days_only_from_earlier_contests.
  intro g. simpl. tauto.
Defined.

Lemma flat_map_filter {A B} (q : A -> bool) (h : A -> list B) (l : list A) :
  flat_map (fun a => if q a then h a else []) l = flat_map h (filter q l).
Proof.
  induction l as [|a l IH]; simpl; auto.
  destruct (q a); simpl; now rewrite IH.
Qed.

Lemma filter_flat_map {A B} (p : B -> bool) (f : A -> list B) (l : list A) :
  filter p (flat_map f l) = flat_map (fun a => filter p (f a)) l.
Proof.
  induction l as [|a l IH]; simpl; auto. now rewrite filter_app, IH.
Qed.

Lemma flat_map_ext_in {A B} (f g : A -> list B) (l : list A) :
  (forall a, In a l -> f a = g a) -> flat_map f l = flat_map g l.
Proof.
  induction l as [|a l IH]; simpl; auto.
  intro H. rewrite (H a), IH; auto.
Qed.

Lemma prior_games_of_filtered (schedules_df : list Game) (team : string)
    (cw W : Z) (g : Game) :
  cw <= W + 1 ->
  In g (prior_games (filter (fun g => g_week g <=? W) schedules_df) team cw)
  <-> In g (prior_games schedules_df team cw).
Proof.
  intro H. unfold prior_games. rewrite !filter_In, andb_true_iff.
  rewrite Z.leb_le, Z.ltb_lt. intuition lia.
Qed.

(** X5. The situational rows of a week do not depend on how far the request
    reaches: for W1 <= W2 the basic table computed through week W1 is the
    table computed through week W2 restricted to its rows of week <= W1. *)
Theorem basic_situational_rows_stable {sv : SortValues}
    (schedules_df : list Game) (season W1 W2 : Z) :
  W1 <= W2 ->
  Situational._calculate_basic_situational_features schedules_df season W1
  = filter (row_week_le W1)
      (Situational._calculate_basic_situational_features schedules_df season
         W2).
Proof.
  intro Hle. unfold Situational._calculate_basic_situational_features.
  rewrite filter_flat_map.
  set (games1 := filter (fun g => g_week g <=? W1) schedules_df).
  set (games2 := filter (fun g => g_week g <=? W2) schedules_df).
  assert (Hg : games1 = filter (fun g => g_week g <=? W1) games2).
  { unfold games1, games2. rewrite filter_andb. apply filter_ext.
    intro g. destruct (g_week g <=? W1) eqn:E; auto.
    apply Z.leb_le in E. symmetry. simpl. apply Z.leb_le. lia. }
  rewrite Hg at 1. rewrite <- flat_map_filter.
  apply flat_map_ext_in. intros g Hin.
  unfold row_week_le. cbn [filter dict_get String.eqb Ascii.eqb Bool.eqb].
  destruct (g_week g <=? W1) eqn:E; [|reflexivity].
  apply Z.leb_le in E.
  assert (Hrest : forall team,
            Situational._calculate_rest_days games1 team (g_week g)
            = Situational._calculate_rest_days games2 team (g_week g)).
  { intro team. apply rest_days_same_prior. intro g'.
    unfold games1, games2.
    rewrite !prior_games_of_filtered by lia. tauto. }
  now rewrite !Hrest.
Qed.

Lemma basic_situational_rows_stable_witness :
  Situational._calculate_basic_situational_features (sv := stable_sort_values)
      Sample.schedule 2023 1
  = filter (row_week_le 1)
      (Situational._calculate_basic_situational_features
          (sv := stable_sort_values) Sample.schedule 2023
         3).
Proof.
  apply (basic_situational_rows_stable (sv := stable_sort_values)). lia.
Defined.

(** X6. Every Contest of week <= W contributes two adjacent rows, the home
    row first. They name each other as opponent, carry the same Contest id,
    season, week, total and moneyline, and swap their rest-days; only the
    spread changes sign on the away row (a NaN spread stays NaN). Contests
    of later weeks contribute nothing. *)
Theorem basic_situational_rows_pair_up {sv : SortValues}
    (schedules_df : list Game) (season W : Z) :
  let table :=
    Situational._calculate_basic_situational_features schedules_df season W in
  length table
  = (2 * length (filter (fun g => (g_week g <=? W)%Z) schedules_df))%nat
  /\ (forall r, In r table -> row_week_le W r = true)
  /\ (forall g, In g schedules_df -> g_week g <= W ->
      exists before home_row away_row after,
        table = before ++ home_row :: away_row :: after
        /\ dict_get home_row "team" = Some (VStr (g_home_team g))
        /\ dict_get away_row "team" = Some (VStr (g_away_team g))
        /\ dict_get home_row "opponent" = dict_get away_row "team"
        /\ dict_get away_row "opponent" = dict_get home_row "team"
        /\ dict_get home_row "situational_home" = Some (VBool true)
        /\ dict_get away_row "situational_home" = Some (VBool false)
        /\ dict_get home_row "situational_spread_close"
           = Some (VFloat (g_spread_line g))
        /\ dict_get away_row "situational_spread_close"
           = Some (VFloat (fneg (g_spread_line g)))
        /\ dict_get home_row "opponent_rest_days"
           = dict_get away_row "situational_rest_days"
        /\ dict_get away_row "opponent_rest_days"
           = dict_get home_row "situational_rest_days"
        /\ (forall c, In c ["season"; "week"; "game_id"; "total_close";
                            "moneyline_close"] ->
                      dict_get home_row c = dict_get away_row c
                      /\ dict_get home_row c <> None)).
Proof.
  intro table. subst table.
  unfold Situational._calculate_basic_situational_features.
  set (games_df := filter (fun g => g_week g <=? W) schedules_df).
  split; [|split].
  - rewrite (flat_map_const_length _ _ 2%nat); [lia | reflexivity].
  - intros r Hr. apply in_flat_map in Hr. destruct Hr as [g [Hg Hr]].
    apply filter_In in Hg. destruct Hg as [_ Hg].
    destruct Hr as [<-|[<-|[]]]; exact Hg.
  - intros g Hin Hweek.
    assert (Hg : In g games_df).
    { apply filter_In. split; auto. now apply Z.leb_le. }
    apply in_split in Hg. destruct Hg as [l1 [l2 ->]].
    rewrite flat_map_app. cbn [flat_map app].
    do 4 eexists. split; [reflexivity|].
    repeat (split; [reflexivity|]).
    intros c [<-|[<-|[<-|[<-|[<-|[]]]]]]; split; reflexivity || discriminate.
Qed.

Lemma basic_situational_rows_pair_up_witness :
  In Sample.game2 Sample.schedule /\ g_week Sample.game2 <= 2
  /\ length (Situational._calculate_basic_situational_features
      (sv := stable_sort_values)
               Sample.schedule 2023 2) = 4%nat.
Proof.
  split; [simpl; auto|]. split; [simpl; lia|].
  exact (proj1 (basic_situational_rows_pair_up (sv := stable_sort_values)
      Sample.schedule 2023 2)).
Defined.

(** X7. When the schedule of the season has no Contest of week <= W (an
    empty schedule included), [calculate_situational_features] never returns
    a table: the merge of the two empty frames raises, unless an earlier
    step already has. *)
Theorem situational_features_need_a_contest {sv : SortValues}
    (self : Config) (src : DataSource) (season week : Z)
    (schedules_df : list Game) :
  load_schedules src season = inr schedules_df ->
  filter (fun g => g_week g <=? week) schedules_df = [] ->
  exists e,
    Situational.calculate_situational_features self src season week = inl e
  /\ (forall rolling_features,
        Rolling.calculate_rolling_features self src season week
        = inr rolling_features ->
        e = KeyError "season").
Proof.
  intros Hload Hnone.
  unfold Situational.calculate_situational_features.
  destruct ((season <? 2000) || (season >? 2030)) eqn:E1.
  { eexists. split; [reflexivity|]. intros rf Hrf.
    unfold Rolling.calculate_rolling_features in Hrf.
    rewrite E1 in Hrf. discriminate. }
  destruct ((week <? 1) || (week >? 22)) eqn:E2.
  { eexists. split; [reflexivity|]. intros rf Hrf.
    unfold Rolling.calculate_rolling_features in Hrf.
    rewrite E1, E2 in Hrf. discriminate. }
  rewrite Hload. cbn [bind].
  unfold Situational._calculate_basic_situational_features.
  rewrite Hnone. cbn [flat_map].
  unfold Situational._calculate_sos_adjustments.
  destruct (Rolling.calculate_rolling_features self src season week)
    as [e|rf]; cbn [bind mapM ret Situational.merge_left hd].
  - eexists. split; [reflexivity|]. discriminate.
  - eexists. split; [reflexivity|]. reflexivity.
Qed.

Lemma situational_features_need_a_contest_witness :
  exists e,
    Situational.calculate_situational_features (sv := stable_sort_values)
        Sample.cfg Sample.late_source
      2023 2 = inl e.
Proof.
  destruct (situational_features_need_a_contest (sv := stable_sort_values)
      Sample.cfg Sample.late_source
              2023 2 [Sample.game3; Sample.game4] eq_refl eq_refl)
    as [e [He _]].
  exists e. exact He.
Defined.

(** ** Opponent strength over the rolling table *)

(** The selection [(team == t) & (week == w)] on the rolling table starts
    with the row of that team and week. *)
Lemma rolling_table_select
    {sv : SortValues} (self : Config) (tgm : list TeamGameMetric)
    (season week : Z) (rows : list dict) (team : string) (W : Z) :
  Rolling._calculate_rolling_windows self tgm season week = inr rows ->
  In team (map tg_team tgm) -> 1 <= W <= week ->
  exists target rest,
    Rolling.rolling_feature_row self tgm team season W = inr target
    /\ filter (fun r => cell_eqb r "team" (VStr team)
                        && cell_eqb r "week" (VInt W)) rows
       = target :: rest.
Proof.
  intros Hrows Hteam HW.
  destruct (rolling_table_has_row self tgm season week rows team W Hrows
              Hteam HW) as [target [Htarget Hin_rows]].
  exists target.
  set (sel := fun r => cell_eqb r "team" (VStr team)
                       && cell_eqb r "week" (VInt W)).
  assert (Hall : forall x, In x (filter sel rows) -> x = target).
  { intros x Hx. apply filter_In in Hx. destruct Hx as [Hin Hsel].
    apply (rolling_table_rows _ _ _ _ _ _ Hrows) in Hin.
    destruct Hin as [t [w [_ [_ Hx]]]].
    unfold sel, cell_eqb in Hsel.
    destruct (rolling_feature_row_ids self tgm t season w x Hx)
      as (_ & Hw & Ht).
    rewrite Hw, Ht in Hsel. cbn [value_eqb] in Hsel.
    apply andb_true_iff in Hsel. destruct Hsel as [H1 H2].
    apply String.eqb_eq in H1. apply Z.eqb_eq in H2. subst.
    congruence. }
  assert (Hin : In target (filter sel rows)).
  { apply filter_In. split; [exact Hin_rows|].
    unfold sel, cell_eqb.
    destruct (rolling_feature_row_ids self tgm team season W target Htarget)
      as (_ & -> & ->).
    cbn [value_eqb]. now rewrite String.eqb_refl, Z.eqb_refl. }
  destruct (filter sel rows) as [|x rest]; [destruct Hin|].
  exists rest. split; [exact Htarget|]. f_equal. apply Hall. now left.
Qed.

(** X8. On the rolling table, the strength-of-schedule row of a team reads
    the opponent's row of the Contest's own week: its four components are
    the opponent's L3 values (offensive EPA, defensive EPA allowed, offensive
    success, defensive success allowed) over the opponent's Contests before
    that week, and the factor is [_calculate_sos_factor] of them. An
    opponent without an earlier Contest has zero components and the factor
    1.025, not the neutral 1. *)
Theorem sos_row_reads_opponent_l3 {sv : SortValues}
    (self : Config) (tgm : list TeamGameMetric) (season week : Z)
    (rolling_features : list dict) (row : dict) (team opponent : string)
    (game_week : Z) (row_season : value) :
  Rolling._calculate_rolling_windows self tgm season week
  = inr rolling_features ->
  In team (map tg_team tgm) -> In opponent (map tg_team tgm) ->
  1 <= game_week <= week ->
  dict_get row "team" = Some (VStr team) ->
  dict_get row "opponent" = Some (VStr opponent) ->
  dict_get row "week" = Some (VInt game_week) ->
  dict_get row "season" = Some row_season ->
  let window :=
    tail (l3_window self) (Rolling.team_history tgm opponent game_week) in
  let cell m := window_value_spec self window (l3_window self) game_week m in
  let factor :=
    Situational._calculate_sos_factor
      (to_float (cell OffEpa)) (to_float (cell DefEpaAllowed))
      (to_float (cell OffSuccessRate)) (to_float (cell DefSuccessRateAllowed)) in
  Situational.sos_row rolling_features row
  = inr [ ("season", row_season); ("week", VInt game_week);
          ("team", VStr team);
          ("opponent_off_epa_l3", cell OffEpa);
          ("opponent_def_epa_allowed_l3", cell DefEpaAllowed);
          ("opponent_off_success_l3", cell OffSuccessRate);
          ("opponent_def_success_allowed_l3", cell DefSuccessRateAllowed);
          ("sos_adjustment_factor", VFloat factor) ]
  /\ (window = [] ->
      (forall m, cell m = VFloat (fin 0))
      /\ exists q, factor = fin q /\ (q == 1.025)%Q).
Proof.
  intros Hrows Hteam Hopp Hwk Ht Ho Hw Hs window cell factor. split.
  - unfold Situational.sos_row, series_getitem.
    rewrite Ht, Ho, Hw, Hs. cbn [bind ret].
    destruct (rolling_table_select _ _ _ _ _ team game_week Hrows Hteam Hwk)
      as (target1 & rest1 & _ & Hsel1).
    destruct (rolling_table_select _ _ _ _ _ opponent game_week Hrows Hopp Hwk)
      as (target2 & rest2 & Htarget2 & Hsel2).
    unfold df_where.
    destruct rolling_features as [|r0 rf].
    { simpl in Hsel1. discriminate. }
    set (table := r0 :: rf) in *. clearbody table.
    cbn [bind ret]. rewrite Hsel1, Hsel2.
    assert (Hget : forall m,
              series_get target2 (feature_key m "l3") (VFloat (fin 0))
              = cell m).
    { intro m. unfold series_get.
      now rewrite (rolling_feature_row_get self tgm opponent season game_week
                     target2 "l3" (l3_window self) m Htarget2)
        by (simpl; auto). }
    unfold factor.
    rewrite <- (Hget OffEpa), <- (Hget DefEpaAllowed),
            <- (Hget OffSuccessRate), <- (Hget DefSuccessRateAllowed).
    reflexivity.
  - intro Hnil. assert (Hcell : forall m, cell m = VFloat (fin 0)).
    { intro m. unfold cell, window_value_spec. now rewrite Hnil. }
    split; [exact Hcell|].
    unfold factor. rewrite !Hcell.
    eexists. split; [vm_compute; reflexivity | reflexivity].
Qed.

Lemma sos_row_reads_opponent_l3_witness :
  exists rolling_features,
    Rolling._calculate_rolling_windows (sv := stable_sort_values)
        Sample.cfg Sample.metrics 2023 2
    = inr rolling_features
    /\ dict_get
         (match Situational.sos_row rolling_features
                  [ ("season", VInt 2023); ("week", VInt 2);
                    ("team", VStr "DEN"); ("opponent", VStr "KC") ] with
          | inr r => r
          | inl _ => []
          end) "opponent_off_epa_l3"
       = Some (window_value_spec Sample.cfg [Sample.kc1] 3 2 OffEpa).
Proof.
  eexists. split; [reflexivity|].
  assert (H1 : In "DEN" (map tg_team Sample.metrics)) by (simpl; auto).
  assert (H2 : In "KC" (map tg_team Sample.metrics)) by (simpl; auto).
  assert (H3 : 1 <= 2 <= 2) by lia.
  destruct (sos_row_reads_opponent_l3 (sv := stable_sort_values)
      Sample.cfg Sample.metrics 2023 2 _
              [ ("season", VInt 2023); ("week", VInt 2);
                ("team", VStr "DEN"); ("opponent", VStr "KC") ]
              "DEN" "KC" 2 (VInt 2023) eq_refl H1 H2 H3
              eq_refl eq_refl eq_refl eq_refl)
    as [Hrow _].
  rewrite Hrow. reflexivity.
Defined.

(** ** Loading schedules and assembling *)

Lemma concat_flat_map_option {A B} (f : A -> result (list B)) (l : list A) :
  concat (flat_map (fun a => match f a with
                             | inr x => [x]
                             | inl _ => []
                             end) l)
  = flat_map (fun a => match f a with inr x => x | inl _ => [] end) l.
Proof.
  induction l as [|a l IH]; simpl; auto.
  destruct (f a); simpl; now rewrite IH.
Qed.

(** X9. [_load_all_schedules] returns the schedules of the seasons
    start..end that load, in season order, and skips the seasons that fail;
    it raises (ValueError) exactly when none of them loads, an empty range
    included. The two week arguments have no effect. *)
Theorem load_all_schedules_skips_failed_seasons
    (src : DataSource) (start_season end_season start_week end_week : Z) :
  (forall all_schedules,
      Assemble._load_all_schedules src start_season end_season start_week
        end_week = inr all_schedules ->
      all_schedules
      = flat_map (fun s => match load_schedules src s with
                           | inr sched => sched
                           | inl _ => []
                           end)
                 (range start_season (end_season + 1)))
  /\ ((forall s, start_season <= s <= end_season ->
                 exists e, load_schedules src s = inl e)
      <-> Assemble._load_all_schedules src start_season end_season start_week
            end_week = inl (ValueError "No schedules data available"))
  /\ (forall e,
        Assemble._load_all_schedules src start_season end_season start_week
          end_week = inl e ->
        e = ValueError "No schedules data available")
  /\ (forall start_week' end_week',
        Assemble._load_all_schedules src start_season end_season start_week'
          end_week'
        = Assemble._load_all_schedules src start_season end_season start_week
            end_week).
Proof.
  split; [|split; [|split]].
  - intros all_schedules. unfold Assemble._load_all_schedules.
    destruct (flat_map _ _) as [|x l] eqn:E; [discriminate|].
    rewrite <- E. intro H. injection H as <-.
    apply concat_flat_map_option.
  - split; [apply load_all_schedules_none|].
    intros Herr s Hs.
    destruct (load_schedules src s) as [e|sched] eqn:El; [eauto|].
    destruct (load_all_schedules_some src start_season end_season start_week
                end_week s sched Hs El) as [all Hall].
    congruence.
  - intro e. unfold Assemble._load_all_schedules.
    destruct (flat_map _ _); [|discriminate].
    intro H. now injection H as <-.
  - reflexivity.
Qed.

(** X10. Whatever the source, [assemble_modeling_table] has two outcomes:
    the ValueError of [_load_all_schedules] when no season of the range
    loads, and otherwise the modeling table without rows (only the
    [label_win] column). With historical data the range starts at 2020, so
    a request for an earlier season always fails. *)
Theorem assemble_modeling_table_outcomes {sv : SortValues}
    (self : Config) (src : DataSource) (season week : Z)
    (use_historical_data : bool) :
  let start_season := if use_historical_data then 2020 else season in
  ((forall s, start_season <= s <= season ->
              exists e, load_schedules src s = inl e) ->
   Assemble.assemble_modeling_table self src season week use_historical_data
   = inl (ValueError "No schedules data available"))
  /\ (forall s sched,
        start_season <= s <= season ->
        load_schedules src s = inr sched ->
        Assemble.assemble_modeling_table self src season week
          use_historical_data
        = inr empty_modeling_table)
  /\ (use_historical_data = true -> season < 2020 ->
      Assemble.assemble_modeling_table self src season week true
      = inl (ValueError "No schedules data available")).
Proof.
  intro start_season.
  assert (Hnone : forall hist : bool,
            (forall s, (if hist then 2020 else season) <= s <= season ->
                       exists e, load_schedules src s = inl e) ->
            Assemble.assemble_modeling_table self src season week hist
            = inl (ValueError "No schedules data available")).
  { intros hist Hfail. unfold Assemble.assemble_modeling_table.
    now rewrite (load_all_schedules_none src _ season 1 week Hfail). }
  split; [apply Hnone|]. split.
  - intros s sched Hs Hload.
    destruct (load_all_schedules_some src start_season season 1 week s sched
                Hs Hload) as [all_schedules Hall].
    destruct (Assemble.assemble_modeling_table self src season week
                use_historical_data) as [e|table] eqn:E.
    + unfold Assemble.assemble_modeling_table in E.
      fold start_season in E. rewrite Hall in E. cbn [bind] in E.
      rewrite flat_map_nil in E; [discriminate|].
      intros g _. rewrite assemble_game_features_None.
      now destruct (Assemble.is_future season week g).
    + f_equal. eapply assemble_modeling_table_no_rows. exact E.
  - intros _ Hlt. apply Hnone. intros s Hs. lia.
Qed.

(** The guard keeps the cells of every column that is not an outcome. *)
Lemma ensure_no_leakage_cells (df : Frame) (c : string) :
  ~ In c outcome_cols ->
  (In c (columns (Assemble._ensure_no_leakage df)) <-> In c (columns df))
  /\ map (fun r => dict_get r c) (rows (Assemble._ensure_no_leakage df))
     = map (fun r => dict_get r c) (rows df).
Proof.
  intro Hc. unfold outcome_cols in Hc. simpl in Hc.
  assert (H1 : c <> "home_score") by (intro; subst; tauto).
  assert (H2 : c <> "away_score") by (intro; subst; tauto).
  assert (H3 : c <> "result") by (intro; subst; tauto).
  unfold Assemble._ensure_no_leakage. cbn [fold_left].
  fold (guard_step df "home_score"). set (d1 := guard_step df "home_score").
  fold (guard_step d1 "away_score"). set (d2 := guard_step d1 "away_score").
  fold (guard_step d2 "result").
  destruct (guard_step_keeps df "home_score" c H1) as [A1 B1].
  destruct (guard_step_keeps d1 "away_score" c H2) as [A2 B2].
  destruct (guard_step_keeps d2 "result" c H3) as [A3 B3].
  fold d1 in A1, B1. fold d2 in A2, B2.
  split; [tauto | congruence].
Qed.

(** The loop of [_add_training_labels] leaves every cell but [label_win]. *)
Lemma label_row_other_cells (schedules_df : list Game) (row row' : dict)
    (c : string) :
  Assemble.label_row schedules_df row = inr row' ->
  c <> "label_win" ->
  dict_get row' c = dict_get row c.
Proof.
  intros H Hc. unfold Assemble.label_row in H.
  destruct (series_getitem row "game_id"); cbn [bind] in H; [discriminate|].
  destruct (series_getitem row "team"); cbn [bind] in H; [discriminate|].
  destruct (series_getitem row "home"); cbn [bind ret] in H; [discriminate|].
  assert (Hset : forall v, dict_get (dict_set row "label_win" v) c
                           = dict_get row c).
  { intro lab. rewrite dict_get_set.
    destruct (String.eqb "label_win" c) eqn:E; auto.
    apply String.eqb_eq in E. congruence. }
  destruct (filter _ schedules_df) as [|g ?].
  - now injection H as <-.
  - destruct (notna (g_result g)).
    + destruct (Assemble.truthy _); injection H as <-; apply Hset.
    + destruct (notna (g_home_score g) && notna (g_away_score g)).
      * destruct (Assemble.truthy _); injection H as <-; apply Hset.
      * now injection H as <-.
Qed.

Lemma feature_columns_of_filter (cols : list string) (c : string) :
  str_in c [ "season"; "week"; "game_id"; "team"; "opponent"; "home";
             "team_type"; "label_win"; "home_score"; "away_score"; "result" ]
  = true ->
  filter (fun col => negb (str_in col
            [ "season"; "week"; "game_id"; "team"; "opponent"; "home";
              "team_type"; "label_win"; "home_score"; "away_score";
              "result" ]))
         (filter (fun c' => negb (String.eqb c' c)) cols)
  = filter (fun col => negb (str_in col
            [ "season"; "week"; "game_id"; "team"; "opponent"; "home";
              "team_type"; "label_win"; "home_score"; "away_score";
              "result" ])) cols.
Proof.
  intro Hc. rewrite filter_andb. apply filter_ext. intro col.
  destruct (String.eqb col c) eqn:E; cbn [negb].
  - apply String.eqb_eq in E. subst col. rewrite Hc. reflexivity.
  - now rewrite andb_true_r.
Qed.

Lemma guard_step_feature_columns (df : Frame) (col : string) :
  In col outcome_cols ->
  Assemble.get_feature_columns (guard_step df col)
  = Assemble.get_feature_columns df.
Proof.
  intro Hin. unfold guard_step, Assemble.get_feature_columns.
  destruct (str_in col (columns df)); auto. simpl.
  apply feature_columns_of_filter.
  destruct Hin as [<-|[<-|[<-|[]]]]; reflexivity.
Qed.

Lemma ensure_no_leakage_feature_columns (df : Frame) :
  Assemble.get_feature_columns (Assemble._ensure_no_leakage df)
  = Assemble.get_feature_columns df.
Proof.
  unfold Assemble._ensure_no_leakage. cbn [fold_left].
  fold (guard_step df "home_score"). set (d1 := guard_step df "home_score").
  fold (guard_step d1 "away_score"). set (d2 := guard_step d1 "away_score").
  fold (guard_step d2 "result").
  rewrite (guard_step_feature_columns d2) by (simpl; auto). subst d2.
  rewrite (guard_step_feature_columns d1) by (simpl; auto). subst d1.
  apply guard_step_feature_columns. simpl. auto.
Qed.

(** X11. Labelling and the leakage guard do not touch the features: the
    feature columns of the emitted table are those of the table before
    labelling, in the same order and with the same cells, and none of them
    is an identifier, the label or an outcome column. *)
Theorem labels_and_guard_keep_features
    (modeling_df labelled : Frame) (schedules_df : list Game) :
  Assemble._add_training_labels modeling_df schedules_df = inr labelled ->
  let out := Assemble._ensure_no_leakage labelled in
  Assemble.get_feature_columns out = Assemble.get_feature_columns modeling_df
  /\ (forall c, In c (Assemble.get_feature_columns modeling_df) ->
        In c (columns modeling_df)
        /\ ~ In c [ "season"; "week"; "game_id"; "team"; "opponent"; "home";
                    "team_type"; "label_win"; "home_score"; "away_score";
                    "result" ]
        /\ map (fun r => dict_get r c) (rows out)
           = map (fun r => dict_get r c) (rows modeling_df)).
Proof.
  intros Hlab out.
  unfold Assemble._add_training_labels in Hlab.
  destruct (mapM _ _) as [e|rows'] eqn:E; cbn [bind ret] in Hlab;
    [discriminate|].
  injection Hlab as Hl.
  assert (Hlc : columns labelled
                = columns (set_column modeling_df "label_win" VNone))
    by (now rewrite <- Hl).
  assert (Hlr : rows labelled = rows') by (now rewrite <- Hl).
  clear Hl.
  assert (Hcols : Assemble.get_feature_columns out
                  = Assemble.get_feature_columns modeling_df).
  { subst out. rewrite ensure_no_leakage_feature_columns.
    unfold Assemble.get_feature_columns. rewrite Hlc.
    unfold set_column. cbn [columns].
    destruct (str_in "label_win" (columns modeling_df)); auto.
    rewrite filter_app. simpl. apply app_nil_r. }
  split; [exact Hcols|].
  intros c Hc. unfold Assemble.get_feature_columns in Hc.
  apply filter_In in Hc. destruct Hc as [Hin Hex].
  apply negb_true_iff in Hex.
  assert (Hnot : ~ In c [ "season"; "week"; "game_id"; "team"; "opponent";
                          "home"; "team_type"; "label_win"; "home_score";
                          "away_score"; "result" ]).
  { intro H. apply str_in_In in H. congruence. }
  split; [exact Hin|]. split; [exact Hnot|].
  assert (Hlabel : c <> "label_win")
    by (intro; subst; apply Hnot; simpl; auto 10).
  assert (Hout : ~ In c outcome_cols).
  { intro H. apply Hnot. unfold outcome_cols in H. simpl in *. tauto. }
  subst out.
  destruct (ensure_no_leakage_cells labelled c Hout) as [_ Hcells].
  rewrite Hcells, Hlr.
  apply mapM_Forall2 in E. unfold set_column in E. cbn [rows] in E.
  clear - E Hlabel. remember (rows modeling_df) as l eqn:El. clear El.
  revert rows' E. induction l as [|r l IH]; intros rows' E; simpl in E.
  - now inversion E.
  - inversion E as [|? r' ? l' Hr Hl]; subst. simpl. f_equal.
    + rewrite (label_row_other_cells _ _ _ c Hr Hlabel), dict_get_set.
      destruct (String.eqb "label_win" c) eqn:Eq; auto.
      apply String.eqb_eq in Eq. congruence.
    + now apply IH.
Qed.

Lemma assemble_modeling_table_outcomes_witness :
  Assemble.assemble_modeling_table (sv := stable_sort_values)
      Sample.cfg Sample.source 2023 2 true
  = inr empty_modeling_table
  /\ Assemble.assemble_modeling_table (sv := stable_sort_values)
      Sample.cfg Sample.source 2019 2 true
     = inl (ValueError "No schedules data available").
Proof.
  split.
  - apply (proj1 (proj2 (assemble_modeling_table_outcomes
      (sv := stable_sort_values) Sample.cfg
                           Sample.source 2023 2 true))
                 2023 Sample.schedule); [lia | reflexivity].
  - apply (proj2 (proj2 (assemble_modeling_table_outcomes
      (sv := stable_sort_values) Sample.cfg
                           Sample.source 2019 2 true)));
      [reflexivity | lia].
Defined.

Lemma labels_and_guard_keep_features_witness :
  let df := DataFrame
              [ [ ("game_id", VStr "2023_01_BUF_KC"); ("team", VStr "KC");
                  ("home", VBool true);
                  ("rolling_off_epa_play_l3", VFloat (fin 0.2));
                  ("result", VFloat (fin 7)) ] ] in
  exists labelled,
    Assemble._add_training_labels df Sample.schedule = inr labelled
    /\ Assemble.get_feature_columns (Assemble._ensure_no_leakage labelled)
       = ["rolling_off_epa_play_l3"].
Proof.
  intro df. eexists. split; [reflexivity|].
  exact (proj1 (labels_and_guard_keep_features df _ Sample.schedule eq_refl)).
Defined.

(** ** Combining the rows of one team *)

Lemma append_inj (p a b : string) : (p ++ a = p ++ b)%string -> a = b.
Proof.
  induction p as [|ch p IH]; simpl; auto.
  intro H. inversion H. auto.
Qed.

(** A loop [for col in cols: acc[prefix + col] = d[col]] sets the cell
    [prefix + col] of every listed column and leaves the other cells. *)
Lemma dict_get_prefixed_fold (prefix : string) (d : dict)
    (cols : list string) (init : dict) (k : string) :
  dict_get
    (fold_left (fun acc col =>
                  dict_set acc (prefix ++ col)%string (series_get d col VNone))
               cols init) k
  = match find (fun col => String.eqb (prefix ++ col)%string k) cols with
    | Some col => Some (series_get d col VNone)
    | None => dict_get init k
    end.
Proof.
  revert init. induction cols as [|c cols IH]; intro init; simpl; auto.
  rewrite IH, dict_get_set.
  destruct (String.eqb (prefix ++ c) k) eqn:E.
  - apply String.eqb_eq in E.
    destruct (find _ cols) as [c'|] eqn:F; auto.
    apply find_some in F. destruct F as [_ F].
    apply String.eqb_eq in F. rewrite <- E in F.
    apply append_inj in F. now subst.
  - reflexivity.
Qed.

Lemma find_prefixed_none (prefix : string) (cols : list string) (k : string) :
  (forall col, String.eqb (prefix ++ col)%string k = false) ->
  find (fun col => String.eqb (prefix ++ col)%string k) cols = None.
Proof.
  intro H. induction cols as [|c cols IH]; simpl; auto. now rewrite H.
Qed.

Lemma find_prefixed_some (prefix : string) (cols : list string) (c : string) :
  In c cols ->
  find (fun col => String.eqb (prefix ++ col)%string (prefix ++ c)%string)
       cols = Some c.
Proof.
  induction cols as [|c0 cols IH]; simpl; [tauto|].
  destruct (String.eqb (prefix ++ c0) (prefix ++ c)) eqn:E.
  - apply String.eqb_eq, append_inj in E. now subst.
  - intros [->|H]; [|auto]. now rewrite String.eqb_refl in E.
Qed.

Lemma dict_get_Some_In (d : dict) (k : string) (v : value) :
  dict_get d k = Some v -> In k (keys d).
Proof.
  intro H. destruct (in_dec string_dec k (keys d)) as [Hin|Hn]; auto.
  apply dict_get_None in Hn. congruence.
Qed.

(** X12. [_combine_team_features] fails only on a missing cell, with the
    KeyError of the first one missing among the rolling row's [team] and
    the situational row's [opponent] and [home]; with all three present it
    returns a row. *)
Theorem combine_fails_on_first_missing_cell
    (rolling_data situational_data : dict) (game_data : Game)
    (team_type : string) :
  let outcome :=
    Assemble._combine_team_features rolling_data situational_data game_data
      team_type in
  (dict_get rolling_data "team" = None -> outcome = inl (KeyError "team"))
  /\ (dict_get rolling_data "team" <> None ->
      dict_get situational_data "opponent" = None ->
      outcome = inl (KeyError "opponent"))
  /\ (dict_get rolling_data "team" <> None ->
      dict_get situational_data "opponent" <> None ->
      dict_get situational_data "home" = None ->
      outcome = inl (KeyError "home"))
  /\ (dict_get rolling_data "team" <> None ->
      dict_get situational_data "opponent" <> None ->
      dict_get situational_data "home" <> None ->
      exists features, outcome = inr features).
Proof.
  intro outcome. subst outcome.
  unfold Assemble._combine_team_features, series_getitem.
  destruct (dict_get rolling_data "team") as [t|];
    destruct (dict_get situational_data "opponent") as [o|];
    destruct (dict_get situational_data "home") as [h|];
    cbn [bind ret raise];
    repeat split; intros; try congruence; eauto.
Qed.

Lemma combine_fails_on_first_missing_cell_witness :
  Assemble._combine_team_features
    [("team", VStr "KC")] [("opponent", VStr "BUF")] Sample.game1 "home"
  = inl (KeyError "home").
Proof.
  apply (proj1 (proj2 (proj2 (combine_fails_on_first_missing_cell
                                [("team", VStr "KC")]
                                [("opponent", VStr "BUF")]
                                Sample.game1 "home"))));
    [discriminate | discriminate | reflexivity].
Defined.

Lemma series_get_present (d : dict) (c : string) (default : value) :
  In c (keys d) -> Some (series_get d c default) = dict_get d c.
Proof.
  intro H. unfold series_get. destruct (dict_get d c) eqn:E; auto.
  apply dict_get_None in E. contradiction.
Qed.

Lemma not_in_str_in (c : string) (l : list string) :
  ~ In c l -> negb (str_in c l) = true.
Proof.
  intro H. apply negb_true_iff. destruct (str_in c l) eqn:E; auto.
  apply str_in_In in E. contradiction.
Qed.

(** X13. When [_combine_team_features] returns a row, the row holds the
    Contest's season, week and id, the three cells read from the inputs and
    the team type; every rolling column other than season, week and team
    under the prefix [rolling_]; every situational column other than season,
    week, team and opponent under the prefix [situational_]; and the market
    and outcome cells of the Contest. *)
Theorem combine_prefixes_the_columns
    (rolling_data situational_data : dict) (game_data : Game)
    (team_type : string) (team opponent home : value) :
  dict_get rolling_data "team" = Some team ->
  dict_get situational_data "opponent" = Some opponent ->
  dict_get situational_data "home" = Some home ->
  exists features,
    Assemble._combine_team_features rolling_data situational_data game_data
      team_type = inr features
    /\ dict_get features "season" = Some (VInt (g_season game_data))
    /\ dict_get features "week" = Some (VInt (g_week game_data))
    /\ dict_get features "game_id" = Some (VStr (g_game_id game_data))
    /\ dict_get features "team" = Some team
    /\ dict_get features "opponent" = Some opponent
    /\ dict_get features "home" = Some home
    /\ dict_get features "team_type" = Some (VStr team_type)
    /\ (forall c, In c (keys rolling_data) ->
                  ~ In c ["season"; "week"; "team"] ->
                  dict_get features ("rolling_" ++ c)%string
                  = dict_get rolling_data c)
    /\ (forall c, In c (keys situational_data) ->
                  ~ In c ["season"; "week"; "team"; "opponent"] ->
                  dict_get features ("situational_" ++ c)%string
                  = dict_get situational_data c)
    /\ dict_get features "market_spread_close"
       = Some (VFloat (g_spread_line game_data))
    /\ dict_get features "market_total_close"
       = Some (VFloat (g_total_line game_data))
    /\ dict_get features "market_moneyline_close"
       = Some (VFloat (g_moneyline game_data))
    /\ dict_get features "home_score" = Some (VFloat (g_home_score game_data))
    /\ dict_get features "away_score" = Some (VFloat (g_away_score game_data))
    /\ dict_get features "result" = Some (VFloat (g_result game_data)).
Proof.
  intros Ht Ho Hh.
  unfold Assemble._combine_team_features, series_getitem.
  rewrite Ht, Ho, Hh. cbn [bind ret].
  eexists. split; [reflexivity|].
  assert (Hbase : forall k,
            (forall col, String.eqb ("rolling_" ++ col) k = false) ->
            (forall col, String.eqb ("situational_" ++ col) k = false) ->
            forall init rc sc,
              dict_get
                (fold_left
                   (fun acc col =>
                      dict_set acc ("situational_" ++ col)%string
                        (series_get situational_data col VNone))
                   sc
                   (fold_left
                      (fun acc col =>
                         dict_set acc ("rolling_" ++ col)%string
                           (series_get rolling_data col VNone))
                      rc init)) k
              = dict_get init k).
  { intros k Hr Hs init rc sc.
    rewrite dict_get_prefixed_fold, find_prefixed_none by exact Hs.
    now rewrite dict_get_prefixed_fold, find_prefixed_none by exact Hr. }
  repeat split.
  1-7: rewrite !dict_get_set; cbn [String.eqb Ascii.eqb Bool.eqb];
       rewrite Hbase by (intro; reflexivity); reflexivity.
  - intros c Hin Hex.
    rewrite !dict_get_set.
    change (String.eqb "result" ("rolling_" ++ c)) with false.
    change (String.eqb "away_score" ("rolling_" ++ c)) with false.
    change (String.eqb "home_score" ("rolling_" ++ c)) with false.
    change (String.eqb "market_moneyline_close" ("rolling_" ++ c)) with false.
    change (String.eqb "market_total_close" ("rolling_" ++ c)) with false.
    change (String.eqb "market_spread_close" ("rolling_" ++ c)) with false.
    cbv iota.
    rewrite dict_get_prefixed_fold, find_prefixed_none
      by (intro; reflexivity).
    rewrite dict_get_prefixed_fold.
    rewrite find_prefixed_some.
    + now apply series_get_present.
    + apply filter_In. split; [exact Hin | now apply not_in_str_in].
  - intros c Hin Hex.
    rewrite !dict_get_set.
    change (String.eqb "result" ("situational_" ++ c)) with false.
    change (String.eqb "away_score" ("situational_" ++ c)) with false.
    change (String.eqb "home_score" ("situational_" ++ c)) with false.
    change (String.eqb "market_moneyline_close" ("situational_" ++ c))
      with false.
    change (String.eqb "market_total_close" ("situational_" ++ c)) with false.
    change (String.eqb "market_spread_close" ("situational_" ++ c))
      with false.
    cbv iota.
    rewrite dict_get_prefixed_fold.
    rewrite find_prefixed_some.
    + now apply series_get_present.
    + apply filter_In. split; [exact Hin | now apply not_in_str_in].
  - rewrite !dict_get_set. reflexivity.
  - rewrite !dict_get_set. reflexivity.
  - rewrite !dict_get_set. reflexivity.
  - rewrite !dict_get_set. reflexivity.
  - rewrite !dict_get_set. reflexivity.
  - rewrite !dict_get_set. reflexivity.
Qed.

Lemma combine_prefixes_the_columns_witness :
  exists features,
    Assemble._combine_team_features
      [ ("season", VInt 2023); ("team", VStr "KC");
        ("off_epa_play_l3", VFloat (fin 0.2)) ]
      [ ("team", VStr "KC"); ("opponent", VStr "BUF"); ("home", VBool true);
        ("rest_days", VInt 7) ]
      Sample.game1 "home" = inr features
    /\ dict_get features "rolling_off_epa_play_l3" = Some (VFloat (fin 0.2))
    /\ dict_get features "situational_rest_days" = Some (VInt 7).
Proof.
  destruct (combine_prefixes_the_columns
              [ ("season", VInt 2023); ("team", VStr "KC");
                ("off_epa_play_l3", VFloat (fin 0.2)) ]
              [ ("team", VStr "KC"); ("opponent", VStr "BUF");
                ("home", VBool true); ("rest_days", VInt 7) ]
              Sample.game1 "home" (VStr "KC") (VStr "BUF") (VBool true)
              eq_refl eq_refl eq_refl)
    as (features & Hrun & _ & _ & _ & _ & _ & _ & _ & Hroll & Hsit & _).
  exists features. split; [exact Hrun|]. split.
  - exact (Hroll "off_epa_play_l3" ltac:(simpl; auto)
             ltac:(simpl; intuition discriminate)).
  - exact (Hsit "rest_days" ltac:(simpl; auto)
             ltac:(simpl; intuition discriminate)).
Defined.

(** ** The team-game metric extractor *)

Lemma count_nonneg (n : nat) : (0 <= Extractor.count n)%Q.
Proof.
  unfold Extractor.count. change 0%Q with (inject_Z 0).
  rewrite <- Zle_Qle. lia.
Qed.

Lemma count_pos (n : nat) : (0 < n)%nat -> (0 < Extractor.count n)%Q.
Proof.
  intro H. unfold Extractor.count. change 0%Q with (inject_Z 0).
  rewrite <- Zlt_Qlt. lia.
Qed.

Lemma count_le (m n : nat) :
  (m <= n)%nat -> (Extractor.count m <= Extractor.count n)%Q.
Proof. intro H. unfold Extractor.count. rewrite <- Zle_Qle. lia. Qed.

Lemma filter_length_le {A} (p : A -> bool) (l : list A) :
  (length (filter p l) <= length l)%nat.
Proof.
  induction l as [|x l IH]; simpl; auto. destruct (p x); simpl; lia.
Qed.

Lemma ratio_in_unit (m n : nat) :
  (m <= n)%nat -> (0 < n)%nat ->
  (0 <= Extractor.count m / Extractor.count n <= 1)%Q.
Proof.
  intros Hle Hpos.
  pose proof (count_pos n Hpos) as Hn.
  pose proof (count_nonneg m) as Hm.
  pose proof (count_le m n Hle) as Hmn.
  split.
  - apply Qle_shift_div_l; [exact Hn | lra].
  - apply Qle_shift_div_r; [exact Hn | lra].
Qed.

Lemma per_play_total (t : Q) (n : nat) :
  (0 < n)%nat -> (t / Extractor.count n * Extractor.count n == t)%Q.
Proof.
  intro H. pose proof (count_pos n H). field. lra.
Qed.

Lemma kind_per_play_total (l : list Extractor.Play) :
  ((if (0 <? length l)%nat
    then (if negb (is_empty l)
          then Extractor.sum_skipna (map Extractor.p_epa l) else 0)
         / Extractor.count (length l)
    else 0)
   * Extractor.count (length l)
   == Extractor.sum_skipna (map Extractor.p_epa l))%Q.
Proof.
  destruct l as [|p l].
  - cbn. ring.
  - set (k := p :: l).
    assert (Hpos : (0 < length k)%nat) by (simpl; lia).
    replace (0 <? length k)%nat with true
      by (symmetry; now apply Nat.ltb_lt).
    cbn [is_empty negb k]. now apply per_play_total.
Qed.

(** X14. The per-game record of a team's offence counts its plays: the
    play count is the number of plays with the team in possession; the
    pass and run counts are the numbers of those with pass = 1 and with
    rush = 1 and do not exceed it; the success rate lies in [0, 1] and,
    times the play count, is the number of plays with positive EPA; and
    each per-play EPA value times its play count is the sum of the known
    EPA values of those plays (plays with missing EPA count as plays). The
    same holds for the defensive record over the plays the team defends. *)
Theorem game_metrics_counts_and_bounds
    (game_pbp : list Extractor.Play) (team : string) :
  let off := Extractor._calculate_offensive_metrics game_pbp team in
  let def := Extractor._calculate_defensive_metrics game_pbp team in
  let own := filter (fun p => Extractor.is_team (Extractor.p_posteam p) team)
                    game_pbp in
  let faced := filter (fun p => Extractor.is_team (Extractor.p_defteam p) team)
                      game_pbp in
  let passes := filter (fun p => Extractor.is_one (Extractor.p_pass p)) in
  let runs := filter (fun p => Extractor.is_one (Extractor.p_rush p)) in
  let gains := filter (fun p => fltb (fin 0) (Extractor.p_epa p)) in
  let epa l := Extractor.sum_skipna (map Extractor.p_epa l) in
  (Extractor.o_total_plays off = length own
   /\ Extractor.o_pass_plays off = length (passes own)
   /\ Extractor.o_run_plays off = length (runs own)
   /\ (Extractor.o_pass_plays off <= Extractor.o_total_plays off)%nat
   /\ (Extractor.o_run_plays off <= Extractor.o_total_plays off)%nat
   /\ (0 <= Extractor.o_success_rate off <= 1)%Q
   /\ (Extractor.o_success_rate off * Extractor.count (length own)
       == Extractor.count (length (gains own)))%Q
   /\ (Extractor.o_epa_play off * Extractor.count (length own)
       == epa own)%Q
   /\ (Extractor.o_pass_epa_play off
       * Extractor.count (length (passes own)) == epa (passes own))%Q
   /\ (Extractor.o_run_epa_play off
       * Extractor.count (length (runs own)) == epa (runs own))%Q)
  /\ (Extractor.d_total_plays_faced def = length faced
      /\ Extractor.d_pass_plays_faced def = length (passes faced)
      /\ Extractor.d_run_plays_faced def = length (runs faced)
      /\ (Extractor.d_pass_plays_faced def
          <= Extractor.d_total_plays_faced def)%nat
      /\ (Extractor.d_run_plays_faced def
          <= Extractor.d_total_plays_faced def)%nat
      /\ (0 <= Extractor.d_success_rate_allowed def <= 1)%Q
      /\ (Extractor.d_success_rate_allowed def
          * Extractor.count (length faced)
          == Extractor.count (length (gains faced)))%Q
      /\ (Extractor.d_epa_play_allowed def * Extractor.count (length faced)
          == epa faced)%Q
      /\ (Extractor.d_pass_epa_play_allowed def
          * Extractor.count (length (passes faced)) == epa (passes faced))%Q
      /\ (Extractor.d_run_epa_play_allowed def
          * Extractor.count (length (runs faced)) == epa (runs faced))%Q).
Proof.
  intros off def own faced passes runs gains epa. split.
  - subst off. unfold Extractor._calculate_offensive_metrics. fold own.
    destruct own as [|p0 rest] eqn:E; cbn [is_empty].
    + cbn. repeat split; auto; try lra; try ring.
    + set (l := p0 :: rest).
      assert (Hpos : (0 < length l)%nat) by (simpl; lia).
      assert (Hb : (0 <? length l)%nat = true) by now apply Nat.ltb_lt.
      cbn [Extractor.o_total_plays Extractor.o_pass_plays
           Extractor.o_run_plays Extractor.o_success_rate
           Extractor.o_pass_epa_play Extractor.o_run_epa_play
           Extractor.o_epa_play].
      rewrite Hb.
      split; [reflexivity|]. split; [reflexivity|]. split; [reflexivity|].
      split; [apply filter_length_le|].
      split; [apply filter_length_le|].
      split; [apply ratio_in_unit; [apply filter_length_le | exact Hpos]|].
      split; [now apply per_play_total|].
      split; [now apply per_play_total|].
      split; apply kind_per_play_total.
  - subst def. unfold Extractor._calculate_defensive_metrics. fold faced.
    destruct faced as [|p0 rest] eqn:E; cbn [is_empty].
    + cbn. repeat split; auto; try lra; try ring.
    + set (l := p0 :: rest).
      assert (Hpos : (0 < length l)%nat) by (simpl; lia).
      assert (Hb : (0 <? length l)%nat = true) by now apply Nat.ltb_lt.
      cbn [Extractor.d_total_plays_faced Extractor.d_pass_plays_faced
           Extractor.d_run_plays_faced Extractor.d_success_rate_allowed
           Extractor.d_pass_epa_play_allowed Extractor.d_run_epa_play_allowed
           Extractor.d_epa_play_allowed].
      rewrite Hb.
      split; [reflexivity|]. split; [reflexivity|]. split; [reflexivity|].
      split; [apply filter_length_le|].
      split; [apply filter_length_le|].
      split; [apply ratio_in_unit; [apply filter_length_le | exact Hpos]|].
      split; [now apply per_play_total|].
      split; [now apply per_play_total|].
      split; apply kind_per_play_total.
Qed.

(** X15. When the offence of one team and the defence of the other are the
    same plays of a game, the defensive record of the second team repeats
    the offensive record of the first: EPA allowed per play, the pass and
    run splits, the success rate allowed and the three play counts. *)
Theorem defense_mirrors_opponent_offense
    (game_pbp : list Extractor.Play) (offense_team defense_team : string) :
  (forall p, In p game_pbp ->
             Extractor.is_team (Extractor.p_posteam p) offense_team
             = Extractor.is_team (Extractor.p_defteam p) defense_team) ->
  let off := Extractor._calculate_offensive_metrics game_pbp offense_team in
  let def := Extractor._calculate_defensive_metrics game_pbp defense_team in
  Extractor.d_epa_play_allowed def = Extractor.o_epa_play off
  /\ Extractor.d_pass_epa_play_allowed def = Extractor.o_pass_epa_play off
  /\ Extractor.d_run_epa_play_allowed def = Extractor.o_run_epa_play off
  /\ Extractor.d_success_rate_allowed def = Extractor.o_success_rate off
  /\ Extractor.d_total_plays_faced def = Extractor.o_total_plays off
  /\ Extractor.d_pass_plays_faced def = Extractor.o_pass_plays off
  /\ Extractor.d_run_plays_faced def = Extractor.o_run_plays off.
Proof.
  intros Hsame off def. subst off def.
  unfold Extractor._calculate_offensive_metrics,
         Extractor._calculate_defensive_metrics.
  rewrite (filter_ext_in _ _ _ Hsame).
  destruct (filter _ game_pbp); cbn [is_empty]; repeat split; reflexivity.
Qed.

Lemma defense_mirrors_opponent_offense_witness :
  Extractor.d_epa_play_allowed
    (Extractor._calculate_defensive_metrics SamplePlays.week1 "BUF")
  = Extractor.o_epa_play
      (Extractor._calculate_offensive_metrics SamplePlays.week1 "KC").
Proof.
  apply (defense_mirrors_opponent_offense SamplePlays.week1 "KC" "BUF").
  intros p Hp. simpl in Hp.
  repeat (destruct Hp as [<-|Hp]; [reflexivity|]). destruct Hp.
Defined.

Lemma game_records_rows (pbp_df : list Extractor.Play)
    (schedules_df : list Game) (gid : string) :
  match game_of_id schedules_df gid with
  | None => Extractor.game_records pbp_df schedules_df gid = []
  | Some g =>
      exists home_row away_row,
        Extractor.game_records pbp_df schedules_df gid = [home_row; away_row]
        /\ Forall (fun row =>
                     tg_game_id (Extractor.tgr_metric row) = gid
                     /\ tg_season (Extractor.tgr_metric row) = g_season g
                     /\ tg_week (Extractor.tgr_metric row) = g_week g)
                  [home_row; away_row]
        /\ tg_home (Extractor.tgr_metric home_row) = true
        /\ tg_team (Extractor.tgr_metric home_row) = g_home_team g
        /\ tg_opponent (Extractor.tgr_metric home_row) = g_away_team g
        /\ tg_home (Extractor.tgr_metric away_row) = false
        /\ tg_team (Extractor.tgr_metric away_row) = g_away_team g
        /\ tg_opponent (Extractor.tgr_metric away_row) = g_home_team g
  end.
Proof.
  unfold game_of_id, Extractor.game_records.
  rewrite <- filter_head_find.
  destruct (filter _ schedules_df) as [|g rest]; cbn [hd_error]; auto.
  do 2 eexists. split; [reflexivity|].
  repeat split; repeat constructor; reflexivity.
Qed.

(** X16. The team-game table holds two rows, home then away, for every
    game id of the plays that the schedule knows, with season, week and
    teams taken from the schedule's first row of that id; plays of a game
    id the schedule does not know are dropped without error. *)
Theorem team_game_table_two_rows_per_game
    (pbp_df : list Extractor.Play) (schedules_df : list Game) :
  let table := Extractor._calculate_team_game_metrics pbp_df schedules_df in
  let known gid :=
    match game_of_id schedules_df gid with Some _ => true | None => false end in
  length table
  = (2 * length (filter known (unique (map Extractor.p_game_id pbp_df))))%nat
  /\ (forall row, In row table ->
      let m := Extractor.tgr_metric row in
      In (tg_game_id m) (map Extractor.p_game_id pbp_df)
      /\ exists g,
           game_of_id schedules_df (tg_game_id m) = Some g
           /\ tg_season m = g_season g /\ tg_week m = g_week g
           /\ ((tg_home m = true /\ tg_team m = g_home_team g
                /\ tg_opponent m = g_away_team g)
               \/ (tg_home m = false /\ tg_team m = g_away_team g
                   /\ tg_opponent m = g_home_team g)))
  /\ (forall gid, In gid (map Extractor.p_game_id pbp_df) ->
      known gid = true ->
      exists before home_row away_row after,
        table = before ++ home_row :: away_row :: after
        /\ tg_game_id (Extractor.tgr_metric home_row) = gid
        /\ tg_game_id (Extractor.tgr_metric away_row) = gid
        /\ tg_home (Extractor.tgr_metric home_row) = true
        /\ tg_home (Extractor.tgr_metric away_row) = false).
Proof.
  intros table known. subst table.
  unfold Extractor._calculate_team_game_metrics.
  split; [|split].
  - induction (unique (map Extractor.p_game_id pbp_df)) as [|gid l IH];
      [reflexivity|].
    cbn [flat_map filter]. rewrite length_app, IH. unfold known at 2.
    pose proof (game_records_rows pbp_df schedules_df gid) as H.
    destruct (game_of_id schedules_df gid).
    + destruct H as (h & a & -> & _). cbn [length]. lia.
    + rewrite H. cbn [length]. lia.
  - intros row Hrow.
    apply in_flat_map in Hrow. destruct Hrow as [gid [Hgid Hrow]].
    apply (proj1 (unique_In _ _)) in Hgid.
    pose proof (game_records_rows pbp_df schedules_df gid) as H.
    destruct (game_of_id schedules_df gid) as [g|] eqn:Eg.
    + destruct H as (h & a & Hrec & Hall & Hh1 & Hh2 & Hh3 & Ha1 & Ha2 & Ha3).
      rewrite Hrec in Hrow. rewrite Forall_forall in Hall.
      destruct (Hall row) as (Hid & Hs & Hw); [now rewrite <- Hrec in *|].
      rewrite Hid. split; [exact Hgid|].
      exists g. split; [exact Eg|]. split; [exact Hs|]. split; [exact Hw|].
      destruct Hrow as [<-|[<-|[]]]; [left | right]; auto.
    + rewrite H in Hrow. destruct Hrow.
  - intros gid Hgid Hknown.
    apply (proj2 (unique_In _ _)) in Hgid. apply in_split in Hgid.
    destruct Hgid as [l1 [l2 Hl]]. rewrite Hl, flat_map_app. cbn [flat_map].
    pose proof (game_records_rows pbp_df schedules_df gid) as H.
    unfold known in Hknown.
    destruct (game_of_id schedules_df gid) as [g|]; [|discriminate].
    destruct H as (h & a & -> & Hall & Hh1 & _ & _ & Ha1 & _).
    inversion Hall as [|? ? [Hhid _] Hall']; subst.
    inversion Hall' as [|? ? [Haid _] _]; subst.
    exists (flat_map (Extractor.game_records pbp_df schedules_df) l1), h, a,
           (flat_map (Extractor.game_records pbp_df schedules_df) l2).
    repeat split; auto.
Qed.

Lemma loaded_parts_nil_iff {A B} (f : A -> result (list B)) (l : list A) :
  flat_map (fun a => match f a with
                     | inr x => [x]
                     | inl _ => []
                     end) l = []
  <-> forall a, In a l -> exists e, f a = inl e.
Proof.
  induction l as [|a l IH]; simpl.
  - split; [intros _ a []|reflexivity].
  - destruct (f a) as [e|x] eqn:E; simpl.
    + rewrite IH. split.
      * intros H b [<-|Hb]; eauto.
      * intros H b Hb. apply H. now right.
    + split; [discriminate|].
      intro H. destruct (H a (or_introl eq_refl)) as [e He]. congruence.
Qed.

(** X17. [_load_pbp_data] returns the plays of the weeks 1..week that
    load, in week order, and skips the weeks that fail. It raises exactly
    when none of them loads, so always for a week below 1, and then with
    the ValueError that names the season and the weeks; the reader is
    never asked for a week after [week]. *)
Theorem load_pbp_data_weeks_through
    (load_pbp : Z -> Z -> result (list Extractor.Play)) (season week : Z) :
  (forall pbp_df,
      Extractor._load_pbp_data load_pbp season week = inr pbp_df ->
      pbp_df
      = flat_map (fun w => match load_pbp season w with
                           | inr week_pbp => week_pbp
                           | inl _ => []
                           end)
                 (range 1 (week + 1)))
  /\ ((forall w, 1 <= w <= week -> exists e, load_pbp season w = inl e)
      <-> exists e, Extractor._load_pbp_data load_pbp season week = inl e)
  /\ (forall e, Extractor._load_pbp_data load_pbp season week = inl e ->
                e = ValueError ("No PBP data available for season "
                                ++ str_of_int season ++ ", weeks 1-"
                                ++ str_of_int week)%string)
  /\ (week < 1 -> exists e,
        Extractor._load_pbp_data load_pbp season week = inl e)
  /\ (forall load_pbp',
        (forall w, 1 <= w <= week -> load_pbp' season w = load_pbp season w) ->
        Extractor._load_pbp_data load_pbp' season week
        = Extractor._load_pbp_data load_pbp season week).
Proof.
  assert (Hnone :
    (forall w, 1 <= w <= week -> exists e, load_pbp season w = inl e)
    <-> exists e, Extractor._load_pbp_data load_pbp season week = inl e).
  { unfold Extractor._load_pbp_data.
    pose proof (loaded_parts_nil_iff (load_pbp season) (range 1 (week + 1)))
      as Hiff.
    destruct (flat_map _ _) as [|x l].
    - split; [intros _; eexists; reflexivity|].
      intros _ w Hw. apply (proj1 Hiff eq_refl). apply range_In. lia.
    - split.
      + intro H. assert (Hn : x :: l = []); [|discriminate].
        apply Hiff. intros w Hw. apply H. apply range_In in Hw. lia.
      + intros [e He]. discriminate. }
  split; [|split; [|split; [|split]]].
  - intros pbp_df. unfold Extractor._load_pbp_data.
    destruct (flat_map _ _) as [|x l] eqn:E; [discriminate|].
    rewrite <- E. intro H. injection H as <-.
    apply concat_flat_map_option.
  - exact Hnone.
  - intro e. unfold Extractor._load_pbp_data.
    destruct (flat_map _ _); [|discriminate].
    intro H. now injection H as <-.
  - intro Hw. apply Hnone. intros w Hw'. lia.
  - intros load_pbp' Hsame. unfold Extractor._load_pbp_data.
    rewrite (flat_map_ext_in
               (fun w => match load_pbp' season w with
                         | inr week_pbp => [week_pbp]
                         | inl _ => []
                         end)
               (fun w => match load_pbp season w with
                         | inr week_pbp => [week_pbp]
                         | inl _ => []
                         end)); [reflexivity|].
    intros w Hw. apply range_In in Hw. rewrite Hsame; [reflexivity|lia].
Qed.

Lemma load_pbp_data_weeks_through_witness :
  Extractor._load_pbp_data SamplePlays.load_pbp 2023 3
  = inr (SamplePlays.week1 ++ SamplePlays.week2)
  /\ Extractor._load_pbp_data SamplePlays.load_pbp 2024 3
     = inl (ValueError "No PBP data available for season 2024, weeks 1-3").
Proof.
  destruct (load_pbp_data_weeks_through SamplePlays.load_pbp 2024 3)
    as (_ & Hnone & Herr & _).
  split; [reflexivity|].
  destruct (proj1 Hnone) as [e He].
  - intros w _. eexists. reflexivity.
  - rewrite He. f_equal. exact (Herr e He).
Defined.

Lemma filter_map_comm {A B} (p : B -> bool) (f : A -> B) (l : list A) :
  filter p (map f l) = map f (filter (fun a => p (f a)) l).
Proof.
  induction l as [|a l IH]; simpl; auto.
  destruct (p (f a)); simpl; now rewrite IH.
Qed.

Lemma unique_from_same_seen (seen1 seen2 l : list string) :
  (forall x, In x l -> str_in x seen1 = str_in x seen2) ->
  unique_from seen1 l = unique_from seen2 l.
Proof.
  revert seen1 seen2. induction l as [|y l IH]; intros seen1 seen2 H;
    simpl; auto.
  rewrite <- (H y (or_introl eq_refl)).
  destruct (str_in y seen1).
  - apply IH. intros x Hx. apply H. now right.
  - f_equal. apply IH. intros x Hx. unfold str_in. cbn [existsb].
    f_equal. apply (H x). now right.
Qed.

Lemma unique_from_filter (q : string -> bool) (seen l : list string) :
  filter q (unique_from seen l) = unique_from seen (filter q l).
Proof.
  revert seen. induction l as [|y l IH]; intro seen; simpl; auto.
  destruct (q y) eqn:Eq; simpl.
  - destruct (str_in y seen); simpl; rewrite ?Eq, IH; reflexivity.
  - destruct (str_in y seen); simpl; rewrite ?Eq, IH; [reflexivity|].
    apply unique_from_same_seen.
    intros x Hx. apply filter_In in Hx. destruct Hx as [_ Hq].
    unfold str_in. cbn [existsb].
    destruct (String.eqb x y) eqn:E; [|reflexivity].
    apply String.eqb_eq in E. congruence.
Qed.

Lemma game_records_of_game_plays (pbp1 pbp2 : list Extractor.Play)
    (schedules_df : list Game) (gid : string) :
  filter (fun p => String.eqb (Extractor.p_game_id p) gid) pbp1
  = filter (fun p => String.eqb (Extractor.p_game_id p) gid) pbp2 ->
  Extractor.game_records pbp1 schedules_df gid
  = Extractor.game_records pbp2 schedules_df gid.
Proof. intro H. unfold Extractor.game_records. now rewrite H. Qed.

(** The team-game rows before week [W] are the team-game table of the
    plays before week [W]. *)
Lemma team_game_metrics_before (pbp_df : list Extractor.Play)
    (schedules_df : list Game) (W : Z) :
  filter (fun r => tg_week r <? W) (team_game_metrics_of pbp_df schedules_df)
  = team_game_metrics_of (filter (play_before schedules_df W) pbp_df)
      schedules_df.
Proof.
  set (early := fun gid => match game_of_id schedules_df gid with
                           | Some g => g_week g <? W
                           | None => false
                           end).
  unfold team_game_metrics_of, Extractor._calculate_team_game_metrics.
  rewrite filter_map_comm. f_equal.
  rewrite filter_flat_map.
  rewrite (flat_map_ext_in _
             (fun gid => if early gid
                         then Extractor.game_records pbp_df schedules_df gid
                         else [])).
  2:{ intros gid _. unfold early.
      pose proof (game_records_rows pbp_df schedules_df gid) as H.
      destruct (game_of_id schedules_df gid) as [g|].
      - destruct H as (h & a & -> & Hall & _).
        inversion Hall as [|? ? (_ & _ & Hh) Hall']; subst.
        inversion Hall' as [|? ? (_ & _ & Ha) _]; subst.
        cbn [filter]. rewrite Hh, Ha. now destruct (g_week g <? W).
      - now rewrite H. }
  rewrite flat_map_filter.
  replace (map Extractor.p_game_id
             (filter (play_before schedules_df W) pbp_df))
    with (filter early (map Extractor.p_game_id pbp_df))
    by (rewrite filter_map_comm; reflexivity).
  unfold unique. rewrite <- unique_from_filter.
  apply flat_map_ext_in. intros gid Hgid.
  apply filter_In in Hgid. destruct Hgid as [_ Hearly].
  apply game_records_of_game_plays.
  rewrite filter_andb. apply filter_ext. intro p.
  destruct (String.eqb (Extractor.p_game_id p) gid) eqn:E; [|reflexivity].
  apply String.eqb_eq in E. unfold play_before. fold (early (Extractor.p_game_id p)).
  now rewrite E, Hearly.
Qed.

(** X18. From plays to features, no play of the current or a later week
    gets in. Two play-by-play frames with the same plays of the Contests
    that the schedule places before week [W] give a team histories with
    the same rows; they can differ only in the order pandas gives to two
    rows of one week, and for a team with at most one Contest in each
    earlier week the rolling feature row for week [W] is the same (the same
    row, or the same error). *)
Theorem rolling_row_ignores_current_and_later_plays
    {sv : SortValues} (self : Config) (schedules_df : list Game)
    (pbp1 pbp2 : list Extractor.Play) (team : string) (season W : Z) :
  filter (play_before schedules_df W) pbp1
  = filter (play_before schedules_df W) pbp2 ->
  let tgm1 := team_game_metrics_of pbp1 schedules_df in
  let tgm2 := team_game_metrics_of pbp2 schedules_df in
  filter (fun r => tg_week r <? W) tgm1 = filter (fun r => tg_week r <? W) tgm2
  /\ Permutation (Rolling.team_history tgm1 team W)
                 (Rolling.team_history tgm2 team W)
  /\ (NoDup (map tg_week (Rolling.team_history tgm2 team W)) ->
      Rolling.rolling_feature_row self tgm1 team season W
      = Rolling.rolling_feature_row self tgm2 team season W).
Proof.
  intros Hsame tgm1 tgm2.
  assert (Heq : filter (fun r => tg_week r <? W) tgm1
                = filter (fun r => tg_week r <? W) tgm2).
  { unfold tgm1, tgm2. now rewrite !team_game_metrics_before, Hsame. }
  split; [exact Heq|]. split.
  - now apply team_history_same_earlier.
  - intro Hnd. unfold Rolling.rolling_feature_row.
    now rewrite (team_history_distinct_weeks tgm2 tgm1 team W Heq Hnd).
Qed.

Lemma rolling_row_ignores_current_and_later_plays_witness :
  Rolling.rolling_feature_row (sv := stable_sort_values) Sample.cfg
    (team_game_metrics_of (SamplePlays.week1 ++ SamplePlays.week2)
       Sample.schedule) "KC" 2023 2
  = Rolling.rolling_feature_row (sv := stable_sort_values) Sample.cfg
      (team_game_metrics_of SamplePlays.week1 Sample.schedule) "KC" 2023 2.
Proof.
  destruct (rolling_row_ignores_current_and_later_plays
              (sv := stable_sort_values) Sample.cfg
              Sample.schedule (SamplePlays.week1 ++ SamplePlays.week2)
              SamplePlays.week1 "KC" 2023 2 eq_refl) as (_ & _ & H).
  apply H. repeat constructor. simpl. tauto.
Defined.

(** ** The training data of the baseline model *)

Lemma fold_append_new_In (l acc : list string) (c : string) :
  In c (fold_left (fun feature_cols col =>
                     if str_in col feature_cols then feature_cols
                     else feature_cols ++ [col]) l acc)
  <-> In c acc \/ In c l.
Proof.
  revert acc. induction l as [|x l IH]; intro acc; cbn [fold_left].
  - simpl. tauto.
  - rewrite IH. destruct (str_in x acc) eqn:E.
    + apply str_in_In in E. simpl. split.
      * tauto.
      * intros [H|[<-|H]]; auto.
    + rewrite in_app_iff. simpl. tauto.
Qed.

(** X19. The feature columns of the baseline model are columns of the
    table, and every column whose name starts with [rolling_] is among
    them. A column is selected only when a rolling family of the
    configuration lists it, when it is [market_] plus a listed market
    feature, when it is [situational_home] or [situational_rest_days], or
    when its name starts with [rolling_]: so the label and the outcome
    columns are features only if the configuration lists them as rolling
    features. *)
Theorem baseline_feature_columns_selected
    (feature_families : Baseline.FeatureFamilies) (modeling_df : Frame) :
  let feature_cols :=
    Baseline._get_feature_columns feature_families modeling_df in
  let rolling_features :=
    Baseline.rolling_offense feature_families
    ++ Baseline.rolling_defense feature_families in
  (forall c, In c feature_cols -> In c (columns modeling_df))
  /\ (forall c, In c (columns modeling_df) ->
                String.prefix "rolling_" c = true -> In c feature_cols)
  /\ (forall c, In c feature_cols ->
                In c rolling_features
                \/ (exists feature, In feature (Baseline.market feature_families)
                                    /\ c = ("market_" ++ feature)%string)
                \/ c = "situational_home" \/ c = "situational_rest_days"
                \/ String.prefix "rolling_" c = true)
  /\ (forall c, In c ("label_win" :: outcome_cols) ->
                ~ In c rolling_features -> ~ In c feature_cols).
Proof.
  intros feature_cols rolling_features.
  assert (Hkind : forall c, In c feature_cols ->
                In c rolling_features
                \/ (exists feature, In feature (Baseline.market feature_families)
                                    /\ c = ("market_" ++ feature)%string)
                \/ c = "situational_home" \/ c = "situational_rest_days"
                \/ String.prefix "rolling_" c = true).
  { intros c Hc. subst feature_cols.
    unfold Baseline._get_feature_columns in Hc.
    apply fold_append_new_In in Hc.
    rewrite !in_app_iff, !filter_In, in_map_iff in Hc.
    destruct Hc as [[[[Hc _]|[[f [<- Hf]] _]]|[Hc _]]|[_ Hc]].
    - left. exact Hc.
    - right. left. eauto.
    - simpl in Hc. destruct Hc as [<-|[<-|[]]]; auto.
    - do 4 right. exact Hc. }
  split; [|split; [|split]].
  - intros c Hc. subst feature_cols.
    unfold Baseline._get_feature_columns in Hc.
    apply fold_append_new_In in Hc.
    rewrite !in_app_iff, !filter_In in Hc.
    destruct Hc as [[[[_ Hc]|[_ Hc]]|[_ Hc]]|[Hc _]];
      try (apply str_in_In; exact Hc); exact Hc.
  - intros c Hc Hpre. subst feature_cols.
    unfold Baseline._get_feature_columns.
    apply fold_append_new_In. right. apply filter_In. auto.
  - exact Hkind.
  - intros c Hc Hnot Hin.
    destruct (Hkind c Hin) as [H|[[f [_ H]]|[H|[H|H]]]];
      [contradiction|..];
      simpl in Hc; destruct Hc as [<-|[<-|[<-|[<-|[]]]]];
      simpl in H; discriminate.
Qed.

Lemma labeled_data_rows (modeling_df labeled : Frame) :
  Baseline.labeled_data modeling_df = inr labeled ->
  columns labeled = columns modeling_df
  /\ rows labeled
     = filter (fun r => Baseline.cell_notna
                          (series_get r "label_win" (VFloat NaN)))
              (rows modeling_df)
  /\ rows labeled <> [].
Proof.
  unfold Baseline.labeled_data.
  destruct (str_in "label_win" (columns modeling_df)); [|discriminate].
  cbn [columns rows].
  destruct (filter _ (rows modeling_df)) as [|r l] eqn:E;
    cbn [is_empty orb]; [discriminate|].
  destruct (is_empty (columns modeling_df)); [discriminate|].
  intro H. injection H as <-. cbn [columns rows].
  repeat split; auto. discriminate.
Qed.

(** X20. Preparing the training data raises KeyError exactly when the
    table has no [label_win] column and ValueError when it has the column
    but no row with a label; otherwise the rows kept are the rows with a
    label, in order. A table returned by [assemble_modeling_table] always
    ends in that ValueError: the baseline model cannot be trained on it. *)
Theorem training_needs_a_labelled_row {sv : SortValues} (modeling_df : Frame) :
  (Baseline.labeled_data modeling_df = inl (KeyError "label_win")
   <-> ~ In "label_win" (columns modeling_df))
  /\ (In "label_win" (columns modeling_df) ->
      (forall r, In r (rows modeling_df) ->
                 Baseline.cell_notna (series_get r "label_win" (VFloat NaN))
                 = false) ->
      Baseline.labeled_data modeling_df
      = inl (ValueError "No labeled training data available"))
  /\ (forall labeled,
        Baseline.labeled_data modeling_df = inr labeled ->
        columns labeled = columns modeling_df
        /\ rows labeled
           = filter (fun r => Baseline.cell_notna
                                (series_get r "label_win" (VFloat NaN)))
                    (rows modeling_df)
        /\ rows labeled <> [])
  /\ (forall (self : Config) (src : DataSource) (season week : Z)
             (use_historical_data : bool)
             (feature_families : Baseline.FeatureFamilies),
        Assemble.assemble_modeling_table self src season week
          use_historical_data = inr modeling_df ->
        Baseline._prepare_training_data feature_families modeling_df
        = inl (ValueError "No labeled training data available")).
Proof.
  split; [|split; [|split]].
  - unfold Baseline.labeled_data.
    destruct (str_in "label_win" (columns modeling_df)) eqn:E.
    + apply str_in_In in E. cbn [columns rows].
      destruct (is_empty _ || is_empty _); split;
        try discriminate; intro H; contradiction.
    + split; [|reflexivity]. intros _ H. apply str_in_In in H. congruence.
  - intros Hcol Hrows. unfold Baseline.labeled_data.
    rewrite (proj2 (str_in_In _ _) Hcol). cbn [columns rows].
    replace (filter _ (rows modeling_df)) with (@nil dict); [reflexivity|].
    symmetry. induction (rows modeling_df) as [|r l IH]; simpl; auto.
    rewrite (Hrows r (or_introl eq_refl)). apply IH.
    intros r' Hr'. apply Hrows. now right.
  - apply labeled_data_rows.
  - intros self src season week hist ff Htable.
    rewrite (assemble_modeling_table_no_rows _ _ _ _ _ _ Htable).
    reflexivity.
Qed.

Lemma training_needs_a_labelled_row_witness :
  Baseline.labeled_data empty_modeling_table
  = inl (ValueError "No labeled training data available").
Proof.
  destruct (training_needs_a_labelled_row (sv := stable_sort_values)
      empty_modeling_table)
    as (_ & Hnone & _).
  apply Hnone.
  - simpl. auto.
  - intros r [].
Defined.

(** X21. When the training data are prepared, the feature matrix has one
    row for every row with a label, in the table's order, and one cell for
    every feature column; no cell of it is missing (a missing value has
    become 0), and a value present in the table is passed on unchanged. *)
Theorem training_matrix_complete
    (feature_families : Baseline.FeatureFamilies) (modeling_df : Frame)
    (X : list (list value)) (feature_cols : list string) :
  Baseline._prepare_training_data feature_families modeling_df
  = inr (X, feature_cols) ->
  let labelled r :=
    Baseline.cell_notna (series_get r "label_win" (VFloat NaN)) in
  feature_cols = Baseline._get_feature_columns feature_families modeling_df
  /\ X <> []
  /\ Forall2 (fun r x =>
                Forall2 (fun c cell =>
                           Baseline.cell_notna cell = true
                           /\ cell = (if Baseline.cell_notna
                                           (series_get r c (VFloat NaN))
                                      then series_get r c (VFloat NaN)
                                      else VInt 0))
                        feature_cols x)
             (filter labelled (rows modeling_df)) X.
Proof.
  intros H labelled. revert H.
  unfold Baseline._prepare_training_data.
  pose proof (labeled_data_rows modeling_df) as Hok.
  destruct (Baseline.labeled_data modeling_df) as [e|labeled];
    cbn [bind ret]; [discriminate|].
  destruct (Hok labeled eq_refl) as (_ & Hrows & Hne).
  intro H. injection H as <- <-.
  split; [reflexivity|]. rewrite Hrows in *. fold labelled in Hne |- *.
  split.
  - destruct (filter labelled (rows modeling_df)); [contradiction|discriminate].
  - clear. induction (filter labelled (rows modeling_df)) as [|r l IH];
      cbn [map]; constructor; auto.
    clear. induction (Baseline._get_feature_columns _ _) as [|c cs IHc];
      cbn [map]; constructor; auto.
    unfold Baseline.fillna0.
    destruct (Baseline.cell_notna (series_get r c (VFloat NaN))) eqn:E; auto.
Qed.

Lemma training_matrix_complete_witness :
  exists X feature_cols,
    Baseline._prepare_training_data SampleTable.families SampleTable.table
    = inr (X, feature_cols)
    /\ feature_cols
       = Baseline._get_feature_columns SampleTable.families SampleTable.table
    /\ X <> [].
Proof.
  eexists. eexists.
  assert (H : Baseline._prepare_training_data SampleTable.families
                SampleTable.table
              = inr ([ [VFloat (fin 0.2); VFloat (fin (-3)); VInt 1;
                        VFloat (fin 0.2)];
                       [VInt 0; VFloat (fin 3); VInt 0; VInt 0] ],
                     [ "rolling_off_epa_play_l3"; "market_spread_line";
                       "situational_home"; "rolling_off_epa_play_l5" ]))
    by reflexivity.
  split; [exact H|].
  destruct (training_matrix_complete _ _ _ _ H) as (Hc & Hx & _).
  split; [exact Hc | exact Hx].
Defined.

Lemma np_sum_map {A} (p : A -> bool) (l : list A) :
  Baseline.np_sum (map p l) = length (filter p l).
Proof.
  unfold Baseline.np_sum. induction l as [|x l IH]; simpl; auto.
  destruct (p x); simpl; now rewrite IH.
Qed.

Lemma count_add (m n : nat) :
  (Extractor.count (m + n) == Extractor.count m + Extractor.count n)%Q.
Proof.
  unfold Extractor.count. now rewrite Nat2Z.inj_add, inject_Z_plus.
Qed.

Lemma precision_by_counts (y : list (Z * Z)) :
  Baseline._calculate_precision y
  = if (0 <? true_positives y + false_positives y)%nat
    then (Extractor.count (true_positives y)
          / Extractor.count (true_positives y + false_positives y))%Q
    else 0%Q.
Proof.
  unfold Baseline._calculate_precision. now rewrite !np_sum_map.
Qed.

Lemma recall_by_counts (y : list (Z * Z)) :
  Baseline._calculate_recall y
  = if (0 <? true_positives y + false_negatives y)%nat
    then (Extractor.count (true_positives y)
          / Extractor.count (true_positives y + false_negatives y))%Q
    else 0%Q.
Proof.
  unfold Baseline._calculate_recall. now rewrite !np_sum_map.
Qed.

Lemma score_without_true_positive (tp other : nat) :
  tp = 0%nat ->
  (if (0 <? tp + other)%nat
   then (Extractor.count tp / Extractor.count (tp + other))%Q
   else 0%Q) == 0.
Proof.
  intros ->. destruct (0 <? 0 + other)%nat; [|reflexivity].
  unfold Extractor.count. cbn [Z.of_nat inject_Z]. unfold Qdiv.
  now rewrite Qmult_0_l.
Qed.

(** X22. Precision, recall and the F1 score lie between 0 and 1 for any
    labels and predictions. With no true positive all three are 0, an
    empty array included; with one, F1 is 2tp / (2tp + fp + fn). *)
Theorem classification_scores_bounded (y : list (Z * Z)) :
  let tp := Extractor.count (true_positives y) in
  let fp := Extractor.count (false_positives y) in
  let fn := Extractor.count (false_negatives y) in
  (0 <= Baseline._calculate_precision y <= 1)%Q
  /\ (0 <= Baseline._calculate_recall y <= 1)%Q
  /\ (0 <= Baseline._calculate_f1_score y <= 1)%Q
  /\ (true_positives y = 0%nat ->
      (Baseline._calculate_precision y == 0
       /\ Baseline._calculate_recall y == 0
       /\ Baseline._calculate_f1_score y == 0)%Q)
  /\ ((0 < true_positives y)%nat ->
      (Baseline._calculate_precision y == tp / (tp + fp)
       /\ Baseline._calculate_recall y == tp / (tp + fn)
       /\ Baseline._calculate_f1_score y
          == 2 * tp / (2 * tp + fp + fn))%Q).
Proof.
  intros tp fp fn.
  assert (Hzero : true_positives y = 0%nat ->
      (Baseline._calculate_precision y == 0
       /\ Baseline._calculate_recall y == 0
       /\ Baseline._calculate_f1_score y == 0)%Q).
  { intro H0.
    assert (Hp : (Baseline._calculate_precision y == 0)%Q)
      by (rewrite precision_by_counts;
          now apply score_without_true_positive).
    assert (Hr : (Baseline._calculate_recall y == 0)%Q)
      by (rewrite recall_by_counts; now apply score_without_true_positive).
    repeat split; auto.
    unfold Baseline._calculate_f1_score.
    destruct (Qltb 0 _) eqn:E; [|reflexivity].
    apply Qltb_lt in E. lra. }
  assert (Hpos : (0 < true_positives y)%nat ->
      (Baseline._calculate_precision y == tp / (tp + fp)
       /\ Baseline._calculate_recall y == tp / (tp + fn)
       /\ Baseline._calculate_f1_score y
          == 2 * tp / (2 * tp + fp + fn))%Q).
  { intro Htp.
    pose proof (count_pos _ Htp) as Ha. fold tp in Ha.
    pose proof (count_nonneg (false_positives y)) as Hb. fold fp in Hb.
    pose proof (count_nonneg (false_negatives y)) as Hc. fold fn in Hc.
    assert (Hp : (Baseline._calculate_precision y == tp / (tp + fp))%Q).
    { rewrite precision_by_counts.
      destruct (0 <? _ + _)%nat eqn:E; [|apply Nat.ltb_ge in E; lia].
      now rewrite count_add. }
    assert (Hr : (Baseline._calculate_recall y == tp / (tp + fn))%Q).
    { rewrite recall_by_counts.
      destruct (0 <? _ + _)%nat eqn:E; [|apply Nat.ltb_ge in E; lia].
      now rewrite count_add. }
    repeat split; auto.
    assert (Hpp : (0 < tp / (tp + fp))%Q)
      by (apply Qlt_shift_div_l; lra).
    assert (Hrp : (0 < tp / (tp + fn))%Q)
      by (apply Qlt_shift_div_l; lra).
    unfold Baseline._calculate_f1_score.
    destruct (Qltb 0 _) eqn:E; [|apply Qltb_ge in E; lra].
    rewrite Hp, Hr. field. repeat split; nra. }
  assert (Hunit : forall a b : Q, (0 < a -> 0 <= b -> 0 <= a / (a + b) <= 1)%Q).
  { intros a b Ha Hb. split.
    - apply Qle_shift_div_l; lra.
    - apply Qle_shift_div_r; lra. }
  split; [|split; [|split; [|split]]]; auto;
    destruct (Nat.eq_dec (true_positives y) 0) as [H0|Hn].
  - destruct (Hzero H0) as (-> & _). lra.
  - destruct Hpos as (-> & _); [lia|]. apply Hunit.
    + apply count_pos. lia.
    + apply count_nonneg.
  - destruct (Hzero H0) as (_ & -> & _). lra.
  - destruct Hpos as (_ & -> & _); [lia|]. apply Hunit.
    + apply count_pos. lia.
    + apply count_nonneg.
  - destruct (Hzero H0) as (_ & _ & ->). lra.
  - destruct Hpos as (_ & _ & ->); [lia|].
    assert (Ha : (0 < tp)%Q) by (apply count_pos; lia).
    pose proof (count_nonneg (false_positives y)) as Hb. fold fp in Hb.
    pose proof (count_nonneg (false_negatives y)) as Hc. fold fn in Hc.
    split.
    + apply Qle_shift_div_l; lra.
    + apply Qle_shift_div_r; lra.
Qed.
